(** * Daily data-quality and trust scoring: [quality_checks] of src/quality.py

    A shallow embedding of the pandas pipeline in [quality_checks] and the
    properties the specification states about it.

    Modelling conventions.
    - An event table is a [list event] in row order.
    - A timestamp is an integer number of nanoseconds since the epoch (UTC);
      [dt.floor("D")] is integer division by the length of a day, so a
      calendar day is a day number in [Z].
    - A pandas [Series] indexed by date is an association list sorted by day,
      holding exactly the days that occur as group keys.  Assigning a series
      to a column of the frame [q] looks each day of [all_dates] up; a day
      that is absent yields NaN, written [None].
    - float64 values are idealised as real numbers; NaN is [None].  Two
      effects of float64 lie outside this idealisation.  [np.exp] underflows
      to 0.0, which [np_exp] models.  Every operation rounds, so a computed
      value that lies within rounding distance of a threshold it is compared
      with (a z-score of exactly 2.8, say) can fall on either side of the
      comparison in the code; the properties stated here about flags either
      relate columns of one row or hold with a margin far wider than the
      rounding. *)

From Stdlib Require Import String Ascii.
From Stdlib Require Import ZArith List Sorted Permutation Bool Arith Lia.
From Stdlib Require Import QArith.
From Stdlib Require Import Reals Lra.
Import ListNotations.

Open Scope Z_scope.

(** ** Event model *)

Inductive event_name_t : Type :=
| session_start
| level_complete
| purchase
| in_app_purchase.

Record event : Type := mkEvent {
  user_id : Z;
  event_ts : Z;
  event_name : event_name_t;
  amount : option Q
}.

Definition event_name_eqb (a b : event_name_t) : bool :=
  match a, b with
  | session_start, session_start
  | level_complete, level_complete
  | purchase, purchase
  | in_app_purchase, in_app_purchase => true
  | _, _ => false
  end.

Definition ns_per_day : Z := 86400000000000.

(** [df["date"] = df["event_ts"].dt.floor("D")] *)
Definition date (e : event) : Z := event_ts e / ns_per_day.

(** [df["event_name"] == name] *)
Definition name_is (n : event_name_t) (e : event) : bool :=
  event_name_eqb (event_name e) n.

(** [df["event_name"].isin(["purchase", "in_app_purchase"])] *)
Definition isin_purchase (e : event) : bool :=
  name_is purchase e || name_is in_app_purchase e.

Definition purch (df : list event) : list event := filter isin_purchase df.

(** ** Series *)

Definition Series (A : Type) : Type := list (Z * A).

Fixpoint lookup {A : Type} (d : Z) (s : Series A) : option A :=
  match s with
  | [] => None
  | (k, v) :: t => if d =? k then Some v else lookup d t
  end.

Definition index {A : Type} (s : Series A) : list Z := map fst s.
Definition values {A : Type} (s : Series A) : list A := map snd s.

Definition map_values {A B : Type} (f : A -> B) (s : Series A) : Series B :=
  map (fun p => (fst p, f (snd p))) s.

(** Element-wise binary operation of two series, on the index of the left
    one.  pandas aligns both operands on the union of their indexes; every
    use below combines a series with one derived from it row by row, so the
    two indexes coincide. *)
Definition zip_aligned {A B C : Type} (f : A -> option B -> C)
    (a : Series A) (b : Series B) : Series C :=
  map (fun p => (fst p, f (snd p) (lookup (fst p) b))) a.

(** [fillna(v)] on one cell. *)
Definition fillna {A : Type} (v : A) (o : option A) : A :=
  match o with
  | Some x => x
  | None => v
  end.

(** Sorted insertion of a group key, keeping one copy of each day. *)
Fixpoint insert_key (d : Z) (ks : list Z) : list Z :=
  match ks with
  | [] => [d]
  | k :: t =>
      if d <? k then d :: ks
      else if d =? k then ks
      else k :: insert_key d t
  end.

Definition group_keys (df : list event) : list Z :=
  fold_right (fun e ks => insert_key (date e) ks) [] df.

Definition on_day (d : Z) (e : event) : bool := date e =? d.

(** The number of rows of [df] on day [d]. *)
Definition day_count (d : Z) (df : list event) : Z :=
  Z.of_nat (length (filter (on_day d) df)).

(** [df.groupby("date").size()]: one entry per day that occurs in [df], in
    increasing order of day, with the number of rows of that day. *)
Definition groupby_size (df : list event) : Series Z :=
  map (fun d => (d, day_count d df)) (group_keys df).

(** ** Rolling windows and medians *)

Definition lastn {A : Type} (n : nat) (l : list A) : list A :=
  skipn (length l - n) l.

(** [s.rolling(w, min_periods=1)]: the window of a row holds the values of
    the last [w] rows of the series up to and including that row. *)
Fixpoint rolling_from {A : Type} (w : nat) (prev : list A) (s : Series A)
    : Series (list A) :=
  match s with
  | [] => []
  | (d, v) :: t =>
      (d, lastn w (prev ++ [v])) :: rolling_from w (prev ++ [v]) t
  end.

Definition rolling {A : Type} (w : nat) (s : Series A) : Series (list A) :=
  rolling_from w [] s.

Fixpoint insert_sorted (x : Z) (l : list Z) : list Z :=
  match l with
  | [] => [x]
  | y :: t => if x <=? y then x :: l else y :: insert_sorted x t
  end.

Definition sort_values (l : list Z) : list Z := fold_right insert_sorted [] l.

Open Scope R_scope.

(** Median of a window of counts: the middle value, or the mean of the two
    middle values; NaN for an empty window. *)
Definition median (win : list Z) : option R :=
  match win with
  | [] => None
  | _ :: _ =>
      let s := sort_values win in
      let n := length s in
      if Nat.even n
      then Some ((IZR (nth (n / 2 - 1) s 0%Z) + IZR (nth (n / 2) s 0%Z)) / 2)
      else Some (IZR (nth (n / 2) s 0%Z))
  end.

(** [.replace(0, np.nan)] on one cell. *)
Definition replace_zero_nan (x : option R) : option R :=
  match x with
  | Some v => if Req_dec_T v 0 then None else Some v
  | None => None
  end.

(** [.clip(lo, hi)] on one cell. *)
Definition clip (lo hi : R) (x : option R) : option R :=
  match x with
  | Some v => Some (Rmin hi (Rmax lo v))
  | None => None
  end.

Definition Rltb (a b : R) : bool := if Rlt_dec a b then true else false.

(** ** The five dimensions *)

(** *** Completeness *)

Definition purchase_events (df : list event) : Series Z :=
  groupby_size (purch df).

Definition baseline_purchase (df : list event) : Series (option R) :=
  map_values (fun win => replace_zero_nan (median win))
             (rolling 7 (purchase_events df)).

Definition score_completeness (df : list event) : Series R :=
  map_values (fun x => fillna 0 (clip 0 1 x))
    (zip_aligned
       (fun c b => match b with
                   | Some (Some m) => Some (IZR c / m)
                   | _ => None
                   end)
       (purchase_events df) (baseline_purchase df)).

(** *** Schema drift *)

Definition positive_as_int (s : Series Z) : Series Z :=
  map_values (fun c => if (0 <? c)%Z then 1%Z else 0%Z) s.

Definition has_purchase (df : list event) : Series Z :=
  positive_as_int (groupby_size (filter (name_is purchase) df)).

Definition has_iap (df : list event) : Series Z :=
  positive_as_int (groupby_size (filter (name_is in_app_purchase) df)).

Definition eq_scalar (v : Z) (s : Series Z) : Series bool :=
  map_values (fun x => (x =? v)%Z) s.

(** [a & b] on two boolean series: the operands are aligned on the sorted
    union of their indexes, and a day missing from one operand counts as
    [False] for it. *)
Definition and_aligned (a b : Series bool) : Series bool :=
  map (fun d => (d, fillna false (lookup d a) && fillna false (lookup d b)))
      (fold_right insert_key (index b) (index a)).

Definition astype_int (s : Series bool) : Series Z :=
  map_values (fun b : bool => if b then 1%Z else 0%Z) s.

Definition schema_drift_flag (df : list event) : Series Z :=
  astype_int (and_aligned (eq_scalar 1 (has_iap df))
                          (eq_scalar 0 (has_purchase df))).

Definition score_schema (df : list event) : Series R :=
  map_values (fun f => if (f =? 1)%Z then 0.60 else 1.00)
             (schema_drift_flag df).

(** *** Uniqueness *)

Definition amount_eqb (a b : option Q) : bool :=
  match a, b with
  | None, None => true
  | Some x, Some y => Qeq_bool x y
  | _, _ => false
  end.

Definition same_key (a b : event) : bool :=
  (user_id a =? user_id b)%Z && (event_ts a =? event_ts b)%Z
  && event_name_eqb (event_name a) (event_name b)
  && amount_eqb (amount a) (amount b).

(** [df.duplicated(subset=[...], keep=False)]: a row is marked when its key
    occurs at least twice in the table. *)
Definition dup_mask (df : list event) (e : event) : bool :=
  (2 <=? length (filter (same_key e) df))%nat.

Definition dup_count (df : list event) : Series Z :=
  groupby_size (filter (dup_mask df) df).

Definition dup_baseline (df : list event) : Series R :=
  map_values (fun win => fillna 0 (median win)) (rolling 7 (dup_count df)).

(** [np.exp] on a float64.  The result is the real exponential unless that
    is at most 2^-1075, half the least positive float64: then the result
    underflows to 0.0. *)
Definition exp_underflow : R := / 2 ^ 1075.

Definition np_exp (x : R) : R :=
  if Rle_dec (exp x) exp_underflow then 0 else exp x.

Definition score_uniqueness (df : list event) : Series (option R) :=
  zip_aligned
    (fun c b => match b with
                | Some m => Some (np_exp (- (IZR c / (m + 1))))
                | None => None
                end)
    (dup_count df) (dup_baseline df).

(** *** Volume anomaly *)

Definition sessions (df : list event) : Series Z :=
  groupby_size (filter (name_is session_start) df).

Definition sum_R (l : list R) : R := fold_right Rplus 0 l.

(** [s.mean()] *)
Definition mean (s : Series Z) : R :=
  sum_R (map IZR (values s)) / INR (length s).

(** [s.std(ddof=0)] *)
Definition std (s : Series Z) : R :=
  sqrt (sum_R (map (fun x => (IZR x - mean s) * (IZR x - mean s)) (values s))
        / INR (length s)).

(** [z]: the z-score of every day of the session series, over the reals.
    The code rounds the mean, the deviations, the standard deviation and
    the quotient to float64, so its value can differ from this one in the
    last bits: the session counts 1, 2, 2, 1, 2, 2, 1, 1, 12 give the last
    day the z-score 2.8 here and 2.8000000000000003 in the code. *)
Definition z (df : list event) : Series R :=
  let s := sessions df in
  let denom := if Req_dec_T (std s) 0 then 1.0 else std s in
  map_values (fun x => (IZR x - mean s) / denom) s.

(** [(z.abs() > 2.8).astype(int)], the comparison being made on the real
    z-score.  Where the real z-score is within rounding distance of 2.8
    the float64 comparison of the code can come out either way. *)
Definition volume_anomaly_flag (df : list event) : Series Z :=
  map_values (fun v => if Rltb 2.8 (Rabs v) then 1%Z else 0%Z) (z df).

Definition score_volume (df : list event) : Series R :=
  map_values (fun f => if (f =? 1)%Z then 0.55 else 1.00)
             (volume_anomaly_flag df).

(** *** Validity *)

(** [purch["amount"].fillna(0) < 0] *)
Definition amount_negative (e : event) : bool :=
  negb (Qle_bool 0 (fillna 0%Q (amount e))).

Definition neg_amount (df : list event) : Series Z :=
  groupby_size (filter amount_negative (purch df)).

Definition score_validity (df : list event) : Series R :=
  map_values (fun c => if (0 <? c)%Z then 0.0 else 1.0) (neg_amount df).

(** ** The daily frame [q] *)

Record row : Type := mkRow {
  q_date : Z;
  q_purchase_events : Z;
  q_session_events : Z;
  q_duplicate_events : Z;
  q_schema_drift_flag : Z;
  q_volume_anomaly_flag : Z;
  q_neg_amount_events : Z;
  q_score_completeness : R;
  q_score_schema : R;
  q_score_uniqueness : R;
  q_score_volume : R;
  q_score_validity : R;
  q_trust_score : R;
  q_reason : string
}.

Inductive outcome (A : Type) : Type :=
| Returned (a : A)
| Raised (msg : string).

Arguments Returned {A} a.
Arguments Raised {A} msg.

(** [df["date"].min()] and [df["date"].max()]; NaT, written [None], on an
    empty column. *)
Definition min_date (df : list event) : option Z :=
  match df with
  | [] => None
  | e :: t => Some (fold_right (fun e' m => Z.min (date e') m) (date e) t)
  end.

Definition max_date (df : list event) : option Z :=
  match df with
  | [] => None
  | e :: t => Some (fold_right (fun e' m => Z.max (date e') m) (date e) t)
  end.

(** [pd.date_range(lo, hi, freq="D")]: every day from [lo] to [hi]. *)
Definition date_range (lo hi : Z) : list Z :=
  map (fun i => (lo + Z.of_nat i)%Z) (seq 0 (Z.to_nat (hi - lo + 1))).

(** A cell of a float column that may itself hold NaN. *)
Definition cell (o : option (option R)) : option R :=
  match o with
  | Some (Some v) => Some v
  | _ => None
  end.

(** The reason tags of one row of [q], in the order the loop appends them. *)
Definition tags_of (r_completeness r_schema r_volume : R) (r_duplicates : Z)
    (r_validity : R) : list string :=
  let tags := [] in
  let tags := if Rltb r_completeness 0.70
              then tags ++ ["possible_purchase_outage"%string] else tags in
  let tags := if Rltb r_schema 1.00
              then tags ++ ["schema_drift_purchase_name"%string] else tags in
  let tags := if Rltb r_volume 1.00
              then tags ++ ["traffic_spike_possible_bots"%string] else tags in
  let tags := if (0 <? r_duplicates)%Z
              then tags ++ ["duplicates_detected"%string] else tags in
  let tags := if Rltb r_validity 1.00
              then tags ++ ["invalid_amount_values"%string] else tags in
  tags.

(** [", ".join(tags) if tags else "ok"] *)
Definition reason_of (tags : list string) : string :=
  match tags with
  | [] => "ok"%string
  | _ :: _ => String.concat ", " tags
  end.

(** The row of [q] for day [d]: every column is the series looked up at
    [d], then [q.fillna(0)], then the trust score and the reason. *)
Definition build_row (df : list event) (d : Z) : row :=
  let c_purchase := fillna 0%Z (lookup d (purchase_events df)) in
  let c_session := fillna 0%Z (lookup d (sessions df)) in
  let c_duplicate := fillna 0%Z (lookup d (dup_count df)) in
  let f_schema := fillna 0%Z (lookup d (schema_drift_flag df)) in
  let f_volume := fillna 0%Z (lookup d (volume_anomaly_flag df)) in
  let c_neg := fillna 0%Z (lookup d (neg_amount df)) in
  let s_completeness := fillna 0 (lookup d (score_completeness df)) in
  let s_schema := fillna 0 (lookup d (score_schema df)) in
  let s_uniqueness := fillna 0 (cell (lookup d (score_uniqueness df))) in
  let s_volume := fillna 0 (lookup d (score_volume df)) in
  let s_validity := fillna 0 (lookup d (score_validity df)) in
  let trust :=
    (0.30 * s_completeness + 0.20 * s_schema + 0.20 * s_uniqueness
     + 0.15 * s_volume + 0.15 * s_validity) * 100 in
  mkRow d c_purchase c_session c_duplicate f_schema f_volume c_neg
        s_completeness s_schema s_uniqueness s_volume s_validity
        trust
        (reason_of (tags_of s_completeness s_schema s_volume c_duplicate
                            s_validity)).

(** [quality_checks(events)].  [pd.date_range] refuses NaT bounds, which is
    what an empty table gives it. *)
Definition quality_checks (events : list event) : outcome (list row) :=
  let df := events in
  match min_date df, max_date df with
  | Some lo, Some hi => Returned (map (build_row df) (date_range lo hi))
  | _, _ => Raised "Neither `start` nor `end` can be NaT"
  end.

(** * The consumers of the daily frame: src/viz.py *)

(** A Python [str] whose characters are code points below 256 is a
    [string], one [ascii] per character; a value that is not a [str], such
    as the NaN a left merge leaves, is [None]. *)

(** [str.isspace] on one character. *)
Definition is_space (c : ascii) : bool :=
  let n := nat_of_ascii c in
  ((9 <=? n)%nat && (n <=? 13)%nat) || ((28 <=? n)%nat && (n <=? 32)%nat)
  || (n =? 133)%nat || (n =? 160)%nat.

Fixpoint lstrip (s : string) : string :=
  match s with
  | EmptyString => EmptyString
  | String c t => if is_space c then lstrip t else s
  end.

Fixpoint rstrip (s : string) : string :=
  match s with
  | EmptyString => EmptyString
  | String c t =>
      match rstrip t with
      | EmptyString => if is_space c then EmptyString else String c EmptyString
      | String c' t' => String c (String c' t')
      end
  end.

(** [s.strip()] *)
Definition strip (s : string) : string := rstrip (lstrip s).

(** [s.split(",")[0]]: the part of [s] before its first comma. *)
Fixpoint before_comma (s : string) : string :=
  match s with
  | EmptyString => EmptyString
  | String c t =>
      if Ascii.eqb c ","%char then EmptyString else String c (before_comma t)
  end.

(** [_primary_reason(reason)] *)
Definition _primary_reason (reason : option string) : string :=
  match reason with
  | None => "ok"%string
  | Some s =>
      if String.eqb (strip s) ""%string then "ok"%string
      else if String.eqb (strip s) "ok"%string then "ok"%string
      else strip (before_comma s)
  end.

(** [.replace(old, new)] on one cell. *)
Definition replace_value (old new : R) (x : option R) : option R :=
  match x with
  | Some v => if Req_dec_T v old then Some new else Some v
  | None => None
  end.

(** In [plot_decision_impact]:
    [completeness = df["score_completeness"].clip(0.35, 1.0).replace(0, 0.35)] *)
Definition completeness_divisor (score : option R) : option R :=
  replace_value 0 0.35 (clip 0.35 1.0 score).

(** In [plot_decision_impact]:
    [(df["conversion_rate"] / completeness).clip(0, 1)] *)
Definition conversion_corrected (rate score : option R) : option R :=
  clip 0 1
       (match rate, completeness_divisor score with
        | Some c, Some k => Some (c / k)
        | _, _ => None
        end).

(** In [plot_quality_heatmap]: the five score columns, each clipped to
    [0, 1], one list per column ([q[cols].to_numpy().T]). *)
Definition heatmap_columns : list (row -> R) :=
  [q_score_completeness; q_score_schema; q_score_uniqueness;
   q_score_volume; q_score_validity].

Definition heatmap_matrix (quality : list row) : list (list (option R)) :=
  map (fun c => map (fun r => clip 0 1 (Some (c r))) quality) heatmap_columns.

(** * The daily KPIs: [compute_daily_kpis] of src/kpis.py *)

(** The KPI columns are rational numbers: counts, sums of amounts and
    their quotients. *)

Record kpi_row : Type := mkKpi {
  k_event_date : Z;
  k_dau : Z;
  k_purchasers : Z;
  k_revenue : Q;
  k_conversion_rate : Q;
  k_d1_retention_proxy : Q;
  k_revenue_per_dau : Q
}.

(** The distinct users of the rows of [df] on day [d]. *)
Definition users_on (d : Z) (df : list event) : list Z :=
  nodup Z.eq_dec (map user_id (filter (on_day d) df)).

(** [df.groupby("event_date")["user_id"].nunique()] *)
Definition groupby_nunique (df : list event) : Series Z :=
  map (fun d => (d, Z.of_nat (length (users_on d df)))) (group_keys df).

(** The non-null amounts of the rows of [df] on day [d]. *)
Definition amounts_on (d : Z) (df : list event) : list Q :=
  flat_map (fun e => match amount e with
                     | Some a => [a]
                     | None => []
                     end)
           (filter (on_day d) df).

(** [.sum(min_count=1)] of one group: NaN without a non-null amount. *)
Definition sum_min_count_1 (l : list Q) : option Q :=
  match l with
  | [] => None
  | _ :: _ => Some (fold_right Qplus 0%Q l)
  end.

Definition dau (df : list event) : Series Z :=
  groupby_nunique (filter (name_is session_start) df).

Definition purchasers (df : list event) : Series Z :=
  groupby_nunique (purch df).

Definition revenue (df : list event) : Series Q :=
  map (fun d => (d, fillna 0%Q (sum_min_count_1 (amounts_on d (purch df)))))
      (group_keys (purch df)).

(** The index of [pd.concat([...], axis=1)] on date indexes: the sorted
    union of the indexes. *)
Definition concat_index (idxs : list (list Z)) : list Z :=
  fold_right (fun idx acc => fold_right insert_key acc idx) [] idxs.

Definition Z_ratio (a b : Z) : Q := (inject_Z a / inject_Z b)%Q.

Definition day_user_eq_dec (a b : Z * Z) : {a = b} + {a <> b}.
Proof. decide equality; apply Z.eq_dec. Defined.

(** [df[session_start][["event_date", "user_id"]].drop_duplicates()]: the
    pairs of a day and a user with a session on it. *)
Definition active (df : list event) : list (Z * Z) :=
  nodup day_user_eq_dec
        (map (fun e => (date e, user_id e))
             (filter (name_is session_start) df)).

(** [yday]: the same pairs, the day column renamed to [prev_date]. *)
Definition yday (df : list event) : list (Z * Z) := active df.

(** [active.merge(yday, on=["prev_date", "user_id"], how="inner")] after
    [active["prev_date"] = active["event_date"] - 1 day]: the pairs of
    [active] whose user also has a pair in [yday] for the day before. *)
Definition merged (df : list event) : list (Z * Z) :=
  filter (fun a => existsb (fun y => (fst y =? fst a - 1)%Z
                                     && (snd y =? snd a)%Z)
                           (yday df))
         (active df).

Definition pair_keys (l : list (Z * Z)) : list Z :=
  fold_right (fun p ks => insert_key (fst p) ks) [] l.

Definition pair_users_on (d : Z) (l : list (Z * Z)) : list Z :=
  nodup Z.eq_dec (map snd (filter (fun p => (fst p =? d)%Z) l)).

(** [.groupby(day)["user_id"].nunique()] on a table of pairs. *)
Definition groupby_pair_nunique (l : list (Z * Z)) : Series Z :=
  map (fun d => (d, Z.of_nat (length (pair_users_on d l)))) (pair_keys l).

Definition retained (df : list event) : Series Z :=
  groupby_pair_nunique (merged df).

Definition active_yday (df : list event) : Series Z :=
  groupby_pair_nunique (yday df).

(** The index of [retention = pd.concat([retained, active_yday], axis=1)]. *)
Definition retention_index (df : list event) : list Z :=
  concat_index [index (retained df); index (active_yday df)].

(** [np.where(retention["active_yday"] > 0,
              retention["retained_from_yday"] / retention["active_yday"], 0.0)],
    one value per row of [retention], missing cells filled with 0. *)
Definition d1_values (df : list event) : list Q :=
  map (fun d =>
         let ay := fillna 0%Z (lookup d (active_yday df)) in
         let rt := fillna 0%Z (lookup d (retained df)) in
         if (0 <? ay)%Z then Z_ratio rt ay else 0%Q)
      (retention_index df).

(** The index of [kpis = pd.concat([dau, purchasers, revenue], axis=1)]. *)
Definition kpis_index (df : list event) : list Z :=
  concat_index [index (dau df); index (purchasers df); index (revenue df)].

(** One row of [kpis], given its cell of the retention array. *)
Definition kpi_row_of (df : list event) (d : Z) (d1 : Q) : kpi_row :=
  let c_dau := fillna 0%Z (lookup d (dau df)) in
  let c_purchasers := fillna 0%Z (lookup d (purchasers df)) in
  let c_revenue := fillna 0%Q (lookup d (revenue df)) in
  mkKpi d c_dau c_purchasers c_revenue
        (if (0 <? c_dau)%Z then Z_ratio c_purchasers c_dau else 0%Q)
        d1
        (if (0 <? c_dau)%Z then (c_revenue / inject_Z c_dau)%Q else 0%Q).

(** [compute_daily_kpis(events)].  The retention array is assigned to the
    frame by position, which pandas refuses when the array and the frame
    differ in length (the message is given without the two lengths that
    pandas prints in it).  The frame is in increasing order of date when it
    is sorted at the end. *)
Definition compute_daily_kpis (events : list event) : outcome (list kpi_row) :=
  let df := events in
  let d1 := d1_values df in
  if (length d1 =? length (kpis_index df))%nat
  then Returned (map (fun p => kpi_row_of df (fst p) (snd p))
                     (combine (kpis_index df) d1))
  else Raised "Length of values does not match length of index".

(** * The join probabilities: [_softmax] of src/data_gen.py *)

(** [np.max(x)]; it raises on an empty array. *)
Definition np_max (x : list R) : option R :=
  match x with
  | [] => None
  | a :: t => Some (fold_right Rmax a t)
  end.

(** [_softmax(x)]: [e = np.exp(x - np.max(x))], then [e / e.sum()].  An
    entry far enough below the maximum underflows to 0.0 in [e]. *)
Definition _softmax (x : list R) : outcome (list R) :=
  match np_max x with
  | None =>
      Raised "zero-size array to reduction operation maximum which has no identity"
  | Some m =>
      let e := map (fun v => np_exp (v - m)) x in
      Returned (map (fun v => v / sum_R e) e)
  end.

(** * The injected schema drift: src/data_gen.py *)

(** Step 2 of [inject_failures]: every [purchase] event at or after
    [drift_start] is renamed to [in_app_purchase]
    ([df.loc[mask, "event_name"] = "in_app_purchase"]). *)
Definition rename_purchase_from (drift_start : Z) (e : event) : event :=
  if (drift_start <=? event_ts e)%Z && name_is purchase e
  then mkEvent (user_id e) (event_ts e) in_app_purchase (amount e)
  else e.

Definition schema_drift_step (drift_start : Z) (df : list event)
    : list event :=
  map (rename_purchase_from drift_start) df.

(** * Reading the output *)

(** ** Days with rows and their recent counts *)

(** The days up to [d] on which the table [l] has rows, in increasing
    order, and the counts of the last seven of them. *)
Definition days_upto (l : list event) (d : Z) : list Z :=
  filter (fun k => (k <=? d)%Z) (group_keys l).

Definition recent_counts (l : list event) (d : Z) : list Z :=
  map (fun k => day_count k l) (lastn 7 (days_upto l d)).

(** The z-score the code gives a day that has [x] session events. *)
Definition z_of (df : list event) (x : Z) : R :=
  (IZR x - mean (sessions df))
  / (if Req_dec_T (std (sessions df)) 0 then 1.0 else std (sessions df)).

(** ** The words of the claims *)

(** The completeness baseline in the words of the claim: the median of the
    daily purchase counts over the seven calendar days ending at [d], cut
    at the first day [lo] of the output.  [zero_days] says whether a day of
    the window without purchases enters the median with the count 0 or is
    left out of it. *)
Definition calendar_window (df : list event) (zero_days : bool) (lo d : Z)
    : list Z :=
  map (fun k => day_count k (purch df))
      (filter (fun k => zero_days || (0 <? day_count k (purch df))%Z)
              (date_range (Z.max lo (d - 6)) d)).

Definition calendar_completeness (df : list event) (zero_days : bool)
    (lo d : Z) : R :=
  match replace_zero_nan (median (calendar_window df zero_days lo d)) with
  | Some b => Rmin 1 (Rmax 0 (IZR (day_count d (purch df)) / b))
  | None => 0
  end.

(** The population of the volume claim: the daily session counts over the
    whole range [lo .. hi], a day without sessions counting 0; and the
    z-score the claim gives a day with [x] session events. *)
Definition range_sessions (df : list event) (lo hi : Z) : Series Z :=
  map (fun d => (d, day_count d (filter (name_is session_start) df)))
      (date_range lo hi).

Definition range_z (df : list event) (lo hi : Z) (x : Z) : R :=
  let s := range_sessions df lo hi in
  (IZR x - mean s) / (if Req_dec_T (std s) 0 then 1.0 else std s).

(** The rules of the reason tagger, in the fixed order of the claim: the
    condition of each rule on a row of [q], and its tag. *)
Definition tag_rules (r : row) : list (bool * string) :=
  [(Rltb (q_score_completeness r) 0.70, "possible_purchase_outage"%string);
   (Rltb (q_score_schema r) 1.00, "schema_drift_purchase_name"%string);
   (Rltb (q_score_volume r) 1.00, "traffic_spike_possible_bots"%string);
   ((0 <? q_duplicate_events r)%Z, "duplicates_detected"%string);
   (Rltb (q_score_validity r) 1.00, "invalid_amount_values"%string)].

Definition applicable_tags (r : row) : list string :=
  map snd (filter fst (tag_rules r)).

(** Renaming the [purchase] events of day [d] to [in_app_purchase]. *)
Definition rename_purchase_on (d : Z) (e : event) : event :=
  if on_day d e && name_is purchase e
  then mkEvent (user_id e) (event_ts e) in_app_purchase (amount e)
  else e.

(** ** Sample tables *)

(** The first instant of day [d]. *)
Definition day_ts (d : Z) : Z := (d * ns_per_day)%Z.

(** One purchase of amount 5 on day 0. *)
Definition one_purchase : list event :=
  [mkEvent 1 (day_ts 0) purchase (Some 5%Q)].

(** One renamed purchase of amount 5 on day 0, and no [purchase] event. *)
Definition one_in_app_purchase : list event :=
  [mkEvent 1 (day_ts 0) in_app_purchase (Some 5%Q)].

(** One session and nothing else on day 0. *)
Definition one_session : list event :=
  [mkEvent 1 (day_ts 0) session_start None].

(** Three purchases on day 0, none on days 1 to 7, one purchase on day 8. *)
Definition purchases_with_gap : list event :=
  [mkEvent 1 (day_ts 0) purchase (Some 5%Q);
   mkEvent 2 (day_ts 0) purchase (Some 5%Q);
   mkEvent 3 (day_ts 0) purchase (Some 5%Q);
   mkEvent 4 (day_ts 8) purchase (Some 5%Q)].

(** Three sessions on day 0, one purchase and no session on day 1, three
    sessions on day 2. *)
Definition sessions_with_gap : list event :=
  [mkEvent 1 (day_ts 0) session_start None;
   mkEvent 2 (day_ts 0) session_start None;
   mkEvent 3 (day_ts 0) session_start None;
   mkEvent 1 (day_ts 1) purchase (Some 5%Q);
   mkEvent 1 (day_ts 2) session_start None;
   mkEvent 2 (day_ts 2) session_start None;
   mkEvent 3 (day_ts 2) session_start None].

(** User 1 has a session and a purchase on day 0; users 1 and 2 have a
    session on day 1. *)
Definition two_active_days : list event :=
  [mkEvent 1 (day_ts 0) session_start None;
   mkEvent 1 (day_ts 0) purchase (Some 5%Q);
   mkEvent 1 (day_ts 1) session_start None;
   mkEvent 2 (day_ts 1) session_start None].

(** The same session recorded twice on day 0. *)
Definition duplicated_session : list event :=
  [mkEvent 1 (day_ts 0) session_start None;
   mkEvent 1 (day_ts 0) session_start None].

(** ** Days with sessions *)

(** The days on which the table has a session event, in increasing order. *)
Definition session_days (df : list event) : list Z :=
  group_keys (filter (name_is session_start) df).

(** The users with a session on day [d] who also have one on the day
    before. *)
Definition returning_users (df : list event) (d : Z) : list Z :=
  filter (fun u =>
            existsb (Z.eqb u)
                    (users_on (d - 1) (filter (name_is session_start) df)))
         (users_on d (filter (name_is session_start) df)).

(** ** Totals over the output *)

Definition sum_Z (l : list Z) : Z := fold_right Z.add 0%Z l.

(** * Properties *)

(** ** Series lookups *)

Section SeriesFacts.
Context {A B C : Type}.

Lemma lookup_map_values (f : A -> B) (s : Series A) (d : Z) :
  lookup d (map_values f s) = option_map f (lookup d s).
Proof.
  induction s as [|[k v] t IH]; simpl; [reflexivity|].
  destruct (d =? k)%Z; [reflexivity | exact IH].
Qed.

Lemma lookup_zip_aligned (f : A -> option B -> C) (a : Series A)
    (b : Series B) (d : Z) :
  lookup d (zip_aligned f a b)
  = option_map (fun x => f x (lookup d b)) (lookup d a).
Proof.
  induction a as [|[k v] t IH]; simpl; [reflexivity|].
  destruct (Z.eqb_spec d k) as [->|]; [reflexivity | exact IH].
Qed.

Lemma lookup_keyed (g : Z -> A) (ks : list Z) (d : Z) :
  lookup d (map (fun k => (k, g k)) ks)
  = if existsb (Z.eqb d) ks then Some (g d) else None.
Proof.
  induction ks as [|k t IH]; simpl; [reflexivity|].
  destruct (Z.eqb_spec d k) as [->|]; [reflexivity | exact IH].
Qed.

Lemma lookup_In (s : Series A) (d : Z) (v : A) :
  lookup d s = Some v -> In (d, v) s.
Proof.
  induction s as [|[k x] t IH]; simpl; [discriminate|].
  destruct (Z.eqb_spec d k) as [->|]; intros H.
  - left. congruence.
  - right. auto.
Qed.

Lemma lookup_None_index (s : Series A) (d : Z) :
  lookup d s = None <-> ~ In d (index s).
Proof.
  induction s as [|[k x] t IH]; simpl; [tauto|].
  destruct (Z.eqb_spec d k) as [->|].
  - split; [discriminate | tauto].
  - rewrite IH. intuition congruence.
Qed.
End SeriesFacts.

Lemma existsb_eqb_In (d : Z) (ks : list Z) :
  existsb (Z.eqb d) ks = true <-> In d ks.
Proof.
  rewrite existsb_exists. split.
  - intros (x & Hx & E). apply Z.eqb_eq in E. now subst.
  - intros H. exists d. split; [exact H | apply Z.eqb_refl].
Qed.

(** ** Group keys and counts *)

Lemma In_insert_key (d x : Z) (ks : list Z) :
  In x (insert_key d ks) <-> x = d \/ In x ks.
Proof.
  induction ks as [|k t IH]; simpl.
  - intuition.
  - destruct (Z.ltb_spec d k); [simpl; intuition|].
    destruct (Z.eqb_spec d k) as [->|]; simpl; [intuition|].
    rewrite IH. intuition.
Qed.

Lemma In_group_keys (d : Z) (df : list event) :
  In d (group_keys df) <-> exists e, In e df /\ date e = d.
Proof.
  induction df as [|e t IH]; simpl.
  - split; [tauto | intros (e & [] & _)].
  - rewrite In_insert_key, IH. split.
    + intros [->|(e' & He' & E)]; [exists e; auto | exists e'; auto].
    + intros (e' & [<-|He'] & E); [left; auto | right; exists e'; auto].
Qed.

Lemma day_count_pos (d : Z) (df : list event) :
  (0 < day_count d df)%Z <-> exists e, In e df /\ date e = d.
Proof.
  unfold day_count. split.
  - intros H. destruct (filter (on_day d) df) as [|e l] eqn:E.
    + simpl in H. lia.
    + assert (Hin : In e (filter (on_day d) df)) by (rewrite E; now left).
      apply filter_In in Hin. destruct Hin as [Hin Hd].
      exists e. split; [exact Hin | now apply Z.eqb_eq].
  - intros (e & Hin & Hd).
    assert (Hf : In e (filter (on_day d) df)).
    { apply filter_In. split; [exact Hin | now apply Z.eqb_eq]. }
    destruct (filter (on_day d) df); [destruct Hf | simpl; lia].
Qed.

Lemma day_count_nonneg (d : Z) (df : list event) : (0 <= day_count d df)%Z.
Proof. unfold day_count. lia. Qed.

(** A day is a key of [groupby_size] exactly when the table has a row on
    it, and then its value is the number of those rows. *)
Lemma lookup_groupby_size (df : list event) (d : Z) :
  lookup d (groupby_size df)
  = if (0 <? day_count d df)%Z then Some (day_count d df) else None.
Proof.
  unfold groupby_size.
  rewrite (lookup_keyed (fun k => day_count k df)).
  destruct (existsb (Z.eqb d) (group_keys df)) eqn:E.
  - apply existsb_eqb_In, In_group_keys, day_count_pos in E.
    apply Z.ltb_lt in E. now rewrite E.
  - destruct (Z.ltb_spec 0 (day_count d df)) as [H|H]; [|reflexivity].
    apply day_count_pos, In_group_keys, existsb_eqb_In in H. congruence.
Qed.

Lemma groupby_size_In (df : list event) (d c : Z) :
  In (d, c) (groupby_size df) -> c = day_count d df /\ (0 < c)%Z.
Proof.
  unfold groupby_size. rewrite in_map_iff. intros (k & E & Hk).
  inversion E; subst. split; [reflexivity|].
  now apply day_count_pos, In_group_keys.
Qed.

Lemma fillna_groupby_size (df : list event) (d : Z) :
  fillna 0%Z (lookup d (groupby_size df)) = day_count d df.
Proof.
  rewrite lookup_groupby_size.
  destruct (Z.ltb_spec 0 (day_count d df)); simpl; [reflexivity|].
  pose proof (day_count_nonneg d df). lia.
Qed.

(** ** The day range and the shape of the output *)

Lemma min_date_spec (df : list event) (lo : Z) :
  min_date df = Some lo ->
  (forall e, In e df -> (lo <= date e)%Z) /\ exists e, In e df /\ date e = lo.
Proof.
  destruct df as [|e0 t]; simpl; [discriminate|].
  intros H. injection H as <-.
  induction t as [|e1 t [IHle (e & IHin & IHeq)]]; simpl.
  - split; [intros e [<-|[]]; lia | exists e0; auto].
  - split.
    + intros e' [E|[E|Hin]].
      * specialize (IHle e0 (or_introl eq_refl)). subst e'. lia.
      * subst e'. lia.
      * specialize (IHle e' (or_intror Hin)). lia.
    + destruct (Z.min_spec (date e1)
                  (fold_right (fun e' m => Z.min (date e') m) (date e0) t))
        as [[_ ->]|[_ ->]].
      * exists e1. auto.
      * exists e. split; [|exact IHeq]. destruct IHin; auto.
Qed.

Lemma max_date_spec (df : list event) (hi : Z) :
  max_date df = Some hi ->
  (forall e, In e df -> (date e <= hi)%Z) /\ exists e, In e df /\ date e = hi.
Proof.
  destruct df as [|e0 t]; simpl; [discriminate|].
  intros H. injection H as <-.
  induction t as [|e1 t [IHle (e & IHin & IHeq)]]; simpl.
  - split; [intros e [<-|[]]; lia | exists e0; auto].
  - split.
    + intros e' [E|[E|Hin]].
      * specialize (IHle e0 (or_introl eq_refl)). subst e'. lia.
      * subst e'. lia.
      * specialize (IHle e' (or_intror Hin)). lia.
    + destruct (Z.max_spec (date e1)
                  (fold_right (fun e' m => Z.max (date e') m) (date e0) t))
        as [[_ ->]|[_ ->]].
      * exists e. split; [|exact IHeq]. destruct IHin; auto.
      * exists e1. auto.
Qed.

Lemma In_date_range (lo hi d : Z) :
  In d (date_range lo hi) <-> (lo <= d <= hi)%Z.
Proof.
  unfold date_range. rewrite in_map_iff. split.
  - intros (i & <- & Hi). apply in_seq in Hi. lia.
  - intros H. exists (Z.to_nat (d - lo)). split; [lia|].
    apply in_seq. lia.
Qed.

Lemma NoDup_date_range (lo hi : Z) : NoDup (date_range lo hi).
Proof.
  unfold date_range. generalize 0%nat as start.
  induction (Z.to_nat (hi - lo + 1)) as [|n IH]; intros start; simpl.
  - constructor.
  - constructor; [|apply IH].
    rewrite in_map_iff. intros (i & E & Hi). apply in_seq in Hi. lia.
Qed.

Lemma q_date_build_row (df : list event) (d : Z) :
  q_date (build_row df d) = d.
Proof. reflexivity. Qed.

Lemma dates_of_rows (df : list event) (ds : list Z) :
  map q_date (map (build_row df) ds) = ds.
Proof.
  rewrite map_map. rewrite <- (map_id ds) at 2.
  apply map_ext. intros d. apply q_date_build_row.
Qed.

(** Whatever [quality_checks] returns is the list of rows built for the
    days from the first to the last event date. *)
Lemma quality_checks_returned (es : list event) (rows : list row) :
  quality_checks es = Returned rows ->
  exists lo hi, min_date es = Some lo /\ max_date es = Some hi
                /\ rows = map (build_row es) (date_range lo hi).
Proof.
  unfold quality_checks.
  destruct (min_date es) as [lo|]; [|discriminate].
  destruct (max_date es) as [hi|]; [|discriminate].
  intros H. injection H as <-. exists lo, hi. auto.
Qed.

Lemma quality_checks_row (es : list event) (rows : list row) (r : row) :
  quality_checks es = Returned rows -> In r rows ->
  r = build_row es (q_date r).
Proof.
  intros H Hin. apply quality_checks_returned in H.
  destruct H as (lo & hi & _ & _ & ->).
  apply in_map_iff in Hin. destruct Hin as (d & <- & _). reflexivity.
Qed.

(** ** Counts *)

Lemma q_purchase_events_count (df : list event) (d : Z) :
  q_purchase_events (build_row df d) = day_count d (purch df).
Proof. apply fillna_groupby_size. Qed.

Lemma q_session_events_count (df : list event) (d : Z) :
  q_session_events (build_row df d)
  = day_count d (filter (name_is session_start) df).
Proof. apply fillna_groupby_size. Qed.

Lemma q_duplicate_events_count (df : list event) (d : Z) :
  q_duplicate_events (build_row df d) = day_count d (filter (dup_mask df) df).
Proof. apply fillna_groupby_size. Qed.

Lemma q_neg_amount_events_count (df : list event) (d : Z) :
  q_neg_amount_events (build_row df d)
  = day_count d (filter amount_negative (purch df)).
Proof. apply fillna_groupby_size. Qed.

Lemma day_count_filter_le (p : event -> bool) (d : Z) (df : list event) :
  (day_count d (filter p df) <= day_count d df)%Z.
Proof.
  unfold day_count. apply inj_le.
  induction df as [|e t IH]; simpl; [lia|].
  destruct (p e); simpl; destruct (on_day d e); simpl; lia.
Qed.

Lemma day_count_empty_day (p : event -> bool) (d : Z) (df : list event) :
  (forall e, In e df -> date e <> d) -> day_count d (filter p df) = 0%Z.
Proof.
  intros H. pose proof (day_count_nonneg d (filter p df)) as Hn.
  destruct (Z.ltb_spec 0 (day_count d (filter p df))) as [Hp|Hp]; [|lia].
  apply day_count_pos in Hp. destruct Hp as (e & Hin & Hd).
  apply filter_In in Hin. destruct Hin as [Hin _].
  now destruct (H e Hin).
Qed.

(** ** Validity *)

(** The validity series only has the days that hold a negative amount,
    each with a positive count, so every cell it has is 0.0; the days it
    lacks are then filled with 0 as well. *)
Lemma q_score_validity_zero (df : list event) (d : Z) :
  q_score_validity (build_row df d) = 0.
Proof.
  unfold build_row, score_validity, neg_amount; simpl.
  rewrite lookup_map_values, lookup_groupby_size.
  destruct (0 <? day_count d (filter amount_negative (purch df)))%Z eqn:E;
    simpl; [rewrite E; lra | reflexivity].
Qed.

(** ** Schema drift *)

Lemma In_fold_insert_key (d : Z) (ks base : list Z) :
  In d (fold_right insert_key base ks) <-> In d ks \/ In d base.
Proof.
  induction ks as [|k t IH]; simpl; [tauto|].
  rewrite In_insert_key, IH. intuition.
Qed.

Lemma index_map_values {A B : Type} (f : A -> B) (s : Series A) :
  index (map_values f s) = index s.
Proof.
  unfold index, map_values. rewrite map_map. reflexivity.
Qed.

Lemma In_index_groupby_size (df : list event) (d : Z) :
  In d (index (groupby_size df)) <-> (0 < day_count d df)%Z.
Proof.
  unfold index, groupby_size. rewrite map_map. simpl. rewrite map_id.
  rewrite In_group_keys. symmetry. apply day_count_pos.
Qed.

Lemma day_count_purch (df : list event) (d : Z) :
  (0 < day_count d (purch df))%Z <->
  (0 < day_count d (filter (name_is purchase) df))%Z
  \/ (0 < day_count d (filter (name_is in_app_purchase) df))%Z.
Proof.
  rewrite !day_count_pos. unfold purch. split.
  - intros (e & Hin & Hd). apply filter_In in Hin. destruct Hin as [Hin Hp].
    unfold isin_purchase in Hp. apply orb_true_iff in Hp.
    destruct Hp as [Hp|Hp]; [left | right]; exists e;
      (split; [apply filter_In; auto | exact Hd]).
  - intros [(e & Hin & Hd)|(e & Hin & Hd)]; apply filter_In in Hin;
      destruct Hin as [Hin Hp]; exists e;
      (split; [apply filter_In; split; [exact Hin|] | exact Hd]);
      unfold isin_purchase; rewrite Hp; auto using orb_true_r.
Qed.

(** The right operand of the conjunction, [has_purchase == 0], is [False]
    on every day it has and missing on every other day. *)
Lemma has_purchase_eq_0_false (df : list event) (d : Z) :
  fillna false (lookup d (eq_scalar 0 (has_purchase df))) = false.
Proof.
  unfold eq_scalar, has_purchase, positive_as_int.
  rewrite !lookup_map_values, lookup_groupby_size.
  destruct (0 <? day_count d (filter (name_is purchase) df))%Z eqn:E;
    simpl; [rewrite E|]; reflexivity.
Qed.

Lemma lookup_schema_drift_flag (df : list event) (d : Z) :
  lookup d (schema_drift_flag df)
  = if (0 <? day_count d (purch df))%Z then Some 0%Z else None.
Proof.
  unfold schema_drift_flag, astype_int, and_aligned.
  rewrite lookup_map_values.
  rewrite (lookup_keyed
             (fun k => fillna false (lookup k (eq_scalar 1 (has_iap df)))
                       && fillna false
                            (lookup k (eq_scalar 0 (has_purchase df))))).
  rewrite has_purchase_eq_0_false, andb_false_r.
  match goal with |- context [existsb ?f ?l] => destruct (existsb f l) eqn:E end.
  - apply existsb_eqb_In, In_fold_insert_key in E.
    unfold eq_scalar, has_iap, has_purchase, positive_as_int in E.
    rewrite !index_map_values, !In_index_groupby_size in E.
    assert (H : (0 < day_count d (purch df))%Z)
      by (apply day_count_purch; tauto).
    apply Z.ltb_lt in H. rewrite H. reflexivity.
  - destruct (Z.ltb_spec 0 (day_count d (purch df))) as [H|H]; [|reflexivity].
    apply day_count_purch in H.
    assert (H' : In d (fold_right insert_key
                         (index (eq_scalar 0 (has_purchase df)))
                         (index (eq_scalar 1 (has_iap df))))).
    { apply In_fold_insert_key.
      unfold eq_scalar, has_iap, has_purchase, positive_as_int.
      rewrite !index_map_values, !In_index_groupby_size. tauto. }
    apply existsb_eqb_In in H'. congruence.
Qed.

(** The drift flag is 0 on every day. *)
Lemma q_schema_drift_flag_zero (df : list event) (d : Z) :
  q_schema_drift_flag (build_row df d) = 0%Z.
Proof.
  unfold build_row; simpl. rewrite lookup_schema_drift_flag.
  destruct (0 <? day_count d (purch df))%Z; reflexivity.
Qed.

(** The schema score is 1.00 on a day with a purchase-type event and 0 on
    any other day. *)
Lemma q_score_schema_value (df : list event) (d : Z) :
  q_score_schema (build_row df d)
  = if (0 <? q_purchase_events (build_row df d))%Z then 1 else 0.
Proof.
  rewrite q_purchase_events_count.
  unfold build_row, score_schema; simpl.
  rewrite lookup_map_values, lookup_schema_drift_flag.
  destruct (0 <? day_count d (purch df))%Z; simpl; [lra | reflexivity].
Qed.

(** ** Sorted indexes *)

Lemma insert_key_sorted (d : Z) (ks : list Z) :
  StronglySorted Z.lt ks -> StronglySorted Z.lt (insert_key d ks).
Proof.
  induction ks as [|k t IH]; intros Hs; simpl.
  - constructor; constructor.
  - inversion Hs as [|? ? Hst Hall]; subst.
    destruct (Z.ltb_spec d k) as [Hlt|Hge].
    + constructor; [exact Hs|]. constructor; [exact Hlt|].
      rewrite Forall_forall in *. intros x Hx. specialize (Hall x Hx). lia.
    + destruct (Z.eqb_spec d k) as [->|Hne]; [exact Hs|].
      constructor; [auto|].
      rewrite Forall_forall in *. intros x Hx.
      apply In_insert_key in Hx. destruct Hx as [->|Hx]; [lia | auto].
Qed.

Lemma group_keys_sorted (df : list event) :
  StronglySorted Z.lt (group_keys df).
Proof.
  induction df as [|e t IH]; simpl; [constructor|].
  now apply insert_key_sorted.
Qed.

Lemma index_groupby_size (df : list event) :
  index (groupby_size df) = group_keys df.
Proof.
  unfold index, groupby_size. rewrite map_map. simpl. apply map_id.
Qed.

(** ** Rolling windows *)

Lemma filter_upto_none {A : Type} (k : Z) (t : Series A) :
  Forall (Z.lt k) (index t) -> filter (fun p => (fst p <=? k)%Z) t = [].
Proof.
  induction t as [|[k' v] t IH]; simpl; intros H; [reflexivity|].
  inversion H as [|? ? Hk Ht]; subst.
  destruct (Z.leb_spec k' k); [lia | auto].
Qed.

(** On a series with increasing index, the window of a row is made of the
    last [w] values among the rows up to it. *)
Lemma lookup_rolling_from {A : Type} (w : nat) (s : Series A) :
  forall (prev : list A) (d : Z),
    StronglySorted Z.lt (index s) -> In d (index s) ->
    lookup d (rolling_from w prev s)
    = Some (lastn w (prev ++ values (filter (fun p => (fst p <=? d)%Z) s))).
Proof.
  induction s as [|[k v] t IH]; intros prev d Hs Hin; [destruct Hin|].
  simpl in Hs, Hin. inversion Hs as [|? ? Hst Hall]; subst. simpl.
  destruct (Z.eqb_spec d k) as [->|Hne].
  - rewrite Z.leb_refl. rewrite (filter_upto_none k t Hall). reflexivity.
  - destruct Hin as [Hin|Hin]; [congruence|].
    assert (Hlt : (k < d)%Z)
      by (rewrite Forall_forall in Hall; auto).
    destruct (Z.leb_spec k d); [|lia].
    rewrite (IH (prev ++ [v]) d Hst Hin). simpl.
    rewrite <- app_assoc. reflexivity.
Qed.

Lemma lookup_rolling {A : Type} (w : nat) (s : Series A) (d : Z) :
  StronglySorted Z.lt (index s) -> In d (index s) ->
  lookup d (rolling w s)
  = Some (lastn w (values (filter (fun p => (fst p <=? d)%Z) s))).
Proof. intros Hs Hin. unfold rolling. now rewrite lookup_rolling_from. Qed.

Lemma index_rolling_from {A : Type} (w : nat) (s : Series A) :
  forall prev, index (rolling_from w prev s) = index s.
Proof.
  induction s as [|[k v] t IH]; intros prev; simpl; [reflexivity|].
  now rewrite IH.
Qed.

Lemma lastn_map {A B : Type} (f : A -> B) (n : nat) (l : list A) :
  lastn n (map f l) = map f (lastn n l).
Proof. unfold lastn. now rewrite length_map, skipn_map. Qed.

Lemma lastn_incl {A : Type} (n : nat) (l : list A) (x : A) :
  In x (lastn n l) -> In x l.
Proof.
  unfold lastn. intros H.
  rewrite <- (firstn_skipn (length l - n) l). apply in_or_app. now right.
Qed.

Lemma lastn_nonempty {A : Type} (n : nat) (l : list A) :
  (0 < n)%nat -> l <> [] -> lastn n l <> [].
Proof.
  unfold lastn. intros Hn Hl E.
  apply (f_equal (@length A)) in E. rewrite length_skipn in E.
  destruct l as [|a l]; [congruence|].
  change (length (a :: l)) with (S (length l)) in E.
  change (length (@nil A)) with 0%nat in E. lia.
Qed.

Lemma values_upto_groupby_size (df : list event) (d : Z) :
  values (filter (fun p => (fst p <=? d)%Z) (groupby_size df))
  = map (fun k => day_count k df) (filter (fun k => (k <=? d)%Z) (group_keys df)).
Proof.
  unfold groupby_size, values.
  induction (group_keys df) as [|k t IH]; simpl; [reflexivity|].
  destruct (k <=? d)%Z; simpl; [f_equal|]; exact IH.
Qed.

(** ** Medians *)

Lemma In_insert_sorted (x y : Z) (l : list Z) :
  In x (insert_sorted y l) <-> x = y \/ In x l.
Proof.
  induction l as [|a t IH]; simpl; [intuition|].
  destruct (y <=? a)%Z; simpl; [intuition|]. rewrite IH. intuition.
Qed.

Lemma In_sort_values (x : Z) (l : list Z) :
  In x (sort_values l) <-> In x l.
Proof.
  induction l as [|a t IH]; simpl; [tauto|].
  rewrite In_insert_sorted, IH. intuition.
Qed.

Lemma length_insert_sorted (y : Z) (l : list Z) :
  length (insert_sorted y l) = S (length l).
Proof.
  induction l as [|a t IH]; simpl; [reflexivity|].
  destruct (y <=? a)%Z; simpl; [reflexivity | now rewrite IH].
Qed.

Lemma length_sort_values (l : list Z) : length (sort_values l) = length l.
Proof.
  induction l as [|a t IH]; simpl; [reflexivity|].
  now rewrite length_insert_sorted, IH.
Qed.

Lemma median_some (win : list Z) :
  win <> [] -> exists m, median win = Some m.
Proof.
  destruct win as [|x t]; [congruence|]. intros _. unfold median.
  destruct (Nat.even _); eauto.
Qed.

(** A median lies above any lower bound of its window. *)
Lemma median_lower_bound (c : Z) (win : list Z) (m : R) :
  Forall (fun x => (c <= x)%Z) win -> median win = Some m -> IZR c <= m.
Proof.
  intros Hall Hm. destruct win as [|x t]; [discriminate|].
  unfold median in Hm.
  set (s := sort_values (x :: t)) in *.
  assert (Hlen : (0 < length s)%nat).
  { unfold s. rewrite length_sort_values. simpl. lia. }
  assert (Hnth : forall i, (i < length s)%nat -> IZR c <= IZR (nth i s 0%Z)).
  { intros i Hi. apply IZR_le. rewrite Forall_forall in Hall. apply Hall.
    apply In_sort_values. fold s. now apply nth_In. }
  assert (H2 : (length s / 2 < length s)%nat) by (apply Nat.div_lt; lia).
  assert (H1 : (length s / 2 - 1 < length s)%nat) by lia.
  pose proof (Hnth _ H1). pose proof (Hnth _ H2).
  destruct (Nat.even (length s)); injection Hm as <-;
    change (fst (Nat.divmod (length s) 1 0 1)) with (length s / 2)%nat; lra.
Qed.

(** ** Rolling baselines of a daily count *)

Lemma In_days_upto (l : list event) (d k : Z) :
  In k (days_upto l d) <-> (k <= d)%Z /\ (0 < day_count k l)%Z.
Proof.
  unfold days_upto. rewrite filter_In, In_group_keys, day_count_pos.
  rewrite Z.leb_le. tauto.
Qed.

Lemma days_upto_sorted (l : list event) (d : Z) :
  StronglySorted Z.lt (days_upto l d).
Proof.
  unfold days_upto.
  induction (group_keys_sorted l) as [|k t Hs IH Hall]; simpl; [constructor|].
  destruct (k <=? d)%Z; [|exact IH].
  constructor; [exact IH|].
  rewrite Forall_forall in *. intros x Hx. apply filter_In in Hx.
  now apply Hall.
Qed.

Lemma lookup_rolling_groupby (l : list event) (d : Z) :
  (0 < day_count d l)%Z ->
  lookup d (rolling 7 (groupby_size l)) = Some (recent_counts l d).
Proof.
  intros H. rewrite lookup_rolling.
  - rewrite values_upto_groupby_size, lastn_map. reflexivity.
  - rewrite index_groupby_size. apply group_keys_sorted.
  - now apply In_index_groupby_size.
Qed.

Lemma lookup_rolling_groupby_none (l : list event) (d : Z) :
  day_count d l = 0%Z -> lookup d (rolling 7 (groupby_size l)) = None.
Proof.
  intros H. apply lookup_None_index. unfold rolling.
  rewrite index_rolling_from, In_index_groupby_size. lia.
Qed.

Lemma recent_counts_ge_1 (l : list event) (d : Z) :
  Forall (fun x => (1 <= x)%Z) (recent_counts l d).
Proof.
  unfold recent_counts. apply Forall_forall. intros x Hx.
  apply in_map_iff in Hx. destruct Hx as (k & <- & Hk).
  apply lastn_incl, In_days_upto in Hk. lia.
Qed.

Lemma recent_counts_nonempty (l : list event) (d : Z) :
  (0 < day_count d l)%Z -> recent_counts l d <> [].
Proof.
  intros H E. unfold recent_counts in E. apply map_eq_nil in E.
  revert E. apply lastn_nonempty; [lia|].
  assert (Hin : In d (days_upto l d)) by (apply In_days_upto; lia).
  intros E. rewrite E in Hin. destruct Hin.
Qed.

Lemma median_recent_counts (l : list event) (d : Z) :
  (0 < day_count d l)%Z ->
  exists b, median (recent_counts l d) = Some b /\ 1 <= b.
Proof.
  intros H.
  destruct (median_some _ (recent_counts_nonempty l d H)) as (b & Hb).
  exists b. split; [exact Hb|].
  apply (median_lower_bound 1 _ _ (recent_counts_ge_1 l d) Hb).
Qed.

(** ** Completeness *)

Lemma q_score_completeness_absent (df : list event) (d : Z) :
  day_count d (purch df) = 0%Z -> q_score_completeness (build_row df d) = 0.
Proof.
  intros H. unfold build_row, score_completeness, purchase_events; simpl.
  rewrite lookup_map_values, lookup_zip_aligned, lookup_groupby_size, H.
  reflexivity.
Qed.

Lemma q_score_completeness_present (df : list event) (d : Z) :
  (0 < day_count d (purch df))%Z ->
  exists b, median (recent_counts (purch df) d) = Some b /\ 1 <= b
            /\ q_score_completeness (build_row df d)
               = Rmin 1 (Rmax 0 (IZR (day_count d (purch df)) / b)).
Proof.
  intros H. destruct (median_recent_counts _ _ H) as (b & Hb & Hb1).
  exists b. split; [exact Hb|]. split; [exact Hb1|].
  unfold build_row, score_completeness, baseline_purchase, purchase_events;
    simpl.
  rewrite lookup_map_values, lookup_zip_aligned, lookup_groupby_size.
  rewrite lookup_map_values, (lookup_rolling_groupby _ _ H).
  apply Z.ltb_lt in H. rewrite H. simpl. rewrite Hb. simpl.
  destruct (Req_dec_T b 0); [lra | reflexivity].
Qed.

(** ** The float64 exponential *)

Lemma exp_underflow_range : 0 < exp_underflow < 1.
Proof.
  unfold exp_underflow.
  assert (H : 1 < 2 ^ 1075) by (apply Rlt_pow_R1; [lra | apply Nat.lt_0_succ]).
  split.
  - apply Rinv_0_lt_compat. lra.
  - rewrite <- Rinv_1. apply Rinv_lt_contravar; lra.
Qed.

Lemma exp_mult_nat (n : nat) (x : R) : exp (INR n * x) = exp x ^ n.
Proof.
  induction n as [|n IH].
  - simpl. rewrite Rmult_0_l. apply exp_0.
  - rewrite S_INR, Rmult_plus_distr_r, Rmult_1_l, exp_plus, IH. simpl. ring.
Qed.


Lemma exp_1_upper : exp 1 < 2729 / 1000.
Proof.
  assert (E : exp 1 = exp (/ 128) ^ 128).
  { rewrite <- exp_mult_nat. f_equal. rewrite INR_IZR_INZ. simpl. lra. }
  assert (H : exp (/ 128) <= 128 / 127).
  { pose proof (exp_ineq1_le (- / 128)) as H.
    rewrite exp_Ropp in H.
    assert (Hp := exp_pos (/ 128)).
    apply (Rmult_le_reg_r (/ exp (/ 128))); [apply Rinv_0_lt_compat; lra|].
    rewrite Rinv_r by lra. lra. }
  rewrite E.
  apply Rle_lt_trans with ((128 / 127) ^ 128).
  - apply pow_incr. split; [left; apply exp_pos | exact H].
  - lra.
Qed.

Lemma exp_1_lower : 27155 / 10000 < exp 1.
Proof.
  assert (E : exp 1 = exp (/ 512) ^ 512).
  { rewrite <- exp_mult_nat. f_equal. rewrite INR_IZR_INZ. simpl. lra. }
  assert (H : 513 / 512 <= exp (/ 512)).
  { pose proof (exp_ineq1_le (/ 512)). lra. }
  rewrite E.
  apply Rlt_le_trans with ((513 / 512) ^ 512).
  - lra.
  - apply pow_incr. split; [lra | exact H].
Qed.

Lemma exp_740_no_underflow : exp_underflow < / exp 740.
Proof.
  unfold exp_underflow.
  assert (E : exp 740 = exp 1 ^ 740).
  { rewrite <- exp_mult_nat. f_equal. rewrite INR_IZR_INZ. simpl. lra. }
  assert (Hp := exp_pos 740).
  apply Rinv_lt_contravar.
  - apply Rmult_lt_0_compat; [exact Hp | apply pow_lt; lra].
  - rewrite E. apply Rle_lt_trans with ((2729 / 1000) ^ 740).
    + apply pow_incr. split; [left; apply exp_pos | left; apply exp_1_upper].
    + lra.
Qed.

Lemma exp_746_underflow : / exp 746 < exp_underflow.
Proof.
  unfold exp_underflow.
  assert (E : exp 746 = exp 1 ^ 746).
  { rewrite <- exp_mult_nat. f_equal. rewrite INR_IZR_INZ. simpl. lra. }
  assert (Hp : 0 < 2 ^ 1075) by (apply pow_lt; lra).
  apply Rinv_lt_contravar.
  - apply Rmult_lt_0_compat; [exact Hp | apply exp_pos].
  - rewrite E. apply Rlt_le_trans with ((27155 / 10000) ^ 746).
    + lra.
    + apply pow_incr. split; [lra | left; apply exp_1_lower].
Qed.

Lemma np_exp_cases (x : R) :
  (np_exp x = 0 /\ exp x <= exp_underflow)
  \/ (np_exp x = exp x /\ exp_underflow < exp x).
Proof.
  unfold np_exp.
  destruct (Rle_dec (exp x) exp_underflow); [left | right]; split; auto; lra.
Qed.

Lemma np_exp_nonneg (x : R) : 0 <= np_exp x.
Proof.
  destruct (np_exp_cases x) as [[-> _]|[-> _]]; [lra | left; apply exp_pos].
Qed.

Lemma exp_nondecreasing (x y : R) : x <= y -> exp x <= exp y.
Proof.
  intros [H| ->]; [left; now apply exp_increasing | lra].
Qed.

Lemma np_exp_0 : np_exp 0 = 1.
Proof.
  destruct (np_exp_cases 0) as [[_ H]|[-> _]]; [|apply exp_0].
  rewrite exp_0 in H. pose proof exp_underflow_range. lra.
Qed.

Lemma np_exp_monotone (x y : R) : x <= y -> np_exp x <= np_exp y.
Proof.
  intros H. apply exp_nondecreasing in H.
  destruct (np_exp_cases x) as [[-> Hx]|[-> Hx]];
    destruct (np_exp_cases y) as [[-> Hy]|[-> Hy]]; try lra.
  left; apply exp_pos.
Qed.

Lemma np_exp_range (x : R) : x <= 0 -> 0 <= np_exp x <= 1.
Proof.
  intros H. split; [apply np_exp_nonneg|].
  rewrite <- np_exp_0. now apply np_exp_monotone.
Qed.

Lemma np_exp_no_underflow (x : R) :
  x <= 740 -> np_exp (- x) = exp (- x) /\ 0 < np_exp (- x).
Proof.
  intros H.
  assert (Hx : exp (- 740) <= exp (- x)) by (apply exp_nondecreasing; lra).
  replace (-740) with (- (740 + 0)) in Hx by lra.
  rewrite (exp_Ropp (740 + 0)) in Hx.
  replace (740 + 0) with 740 in Hx by lra.
  pose proof exp_740_no_underflow.
  destruct (np_exp_cases (- x)) as [[_ H']|[-> _]]; [lra|].
  split; [reflexivity | apply exp_pos].
Qed.

Lemma np_exp_underflow (x : R) : 746 <= x -> np_exp (- x) = 0.
Proof.
  intros H.
  assert (Hx : exp (- x) <= exp (- 746)) by (apply exp_nondecreasing; lra).
  replace (-746) with (- (746 + 0)) in Hx by lra.
  rewrite (exp_Ropp (746 + 0)) in Hx.
  replace (746 + 0) with 746 in Hx by lra.
  pose proof exp_746_underflow.
  destruct (np_exp_cases (- x)) as [[-> _]|[_ H']]; [reflexivity | exfalso; lra].
Qed.

(** ** Uniqueness *)

Lemma q_score_uniqueness_absent (df : list event) (d : Z) :
  day_count d (filter (dup_mask df) df) = 0%Z ->
  q_score_uniqueness (build_row df d) = 0.
Proof.
  intros H. unfold build_row, score_uniqueness, dup_count; simpl.
  rewrite lookup_zip_aligned, lookup_groupby_size, H. reflexivity.
Qed.

Lemma q_score_uniqueness_present (df : list event) (d : Z) :
  (0 < day_count d (filter (dup_mask df) df))%Z ->
  exists b, median (recent_counts (filter (dup_mask df) df) d) = Some b
            /\ 1 <= b
            /\ q_score_uniqueness (build_row df d)
               = np_exp (- (IZR (day_count d (filter (dup_mask df) df))
                            / (b + 1))).
Proof.
  intros H. destruct (median_recent_counts _ _ H) as (b & Hb & Hb1).
  exists b. split; [exact Hb|]. split; [exact Hb1|].
  unfold build_row, score_uniqueness, dup_baseline, dup_count; simpl.
  rewrite lookup_zip_aligned, lookup_groupby_size.
  rewrite lookup_map_values, (lookup_rolling_groupby _ _ H).
  apply Z.ltb_lt in H. rewrite H. simpl. rewrite Hb. reflexivity.
Qed.

(** ** Volume anomaly *)

Lemma lookup_z (df : list event) (d : Z) :
  lookup d (z df) = option_map (z_of df) (lookup d (sessions df)).
Proof. unfold z. apply lookup_map_values. Qed.

Lemma q_volume_absent (df : list event) (d : Z) :
  day_count d (filter (name_is session_start) df) = 0%Z ->
  q_volume_anomaly_flag (build_row df d) = 0%Z
  /\ q_score_volume (build_row df d) = 0.
Proof.
  intros H.
  unfold build_row, score_volume, volume_anomaly_flag; simpl.
  rewrite !lookup_map_values, lookup_z. unfold sessions.
  rewrite lookup_groupby_size, H. simpl. auto.
Qed.

Lemma q_volume_present (df : list event) (d : Z) :
  (0 < day_count d (filter (name_is session_start) df))%Z ->
  let zd := z_of df (day_count d (filter (name_is session_start) df)) in
  q_volume_anomaly_flag (build_row df d)
  = (if Rltb 2.8 (Rabs zd) then 1%Z else 0%Z)
  /\ q_score_volume (build_row df d)
     = (if Rltb 2.8 (Rabs zd) then 0.55 else 1.00).
Proof.
  intros H zd.
  unfold build_row, score_volume, volume_anomaly_flag; simpl.
  rewrite !lookup_map_values, lookup_z. unfold sessions.
  rewrite lookup_groupby_size.
  apply Z.ltb_lt in H. rewrite H. simpl. fold zd.
  destruct (Rltb 2.8 (Rabs zd)); simpl; auto.
Qed.

(** * The claims *)

(** ** C1: validity *)

(** C1 (evaluation at the failing input).  The claim gives a day without
    any negative amount the validity score 1.00.  On a table holding a
    single purchase of amount 5 the code returns one row, for day 0, with
    no negative-amount event and the validity score 0.0: the validity
    series has no entry for a day without negative amounts, and the final
    [fillna(0)] turns the missing score into 0. *)
Theorem C1_validity_zero_without_negative_amount :
  exists r, quality_checks one_purchase = Returned [r]
            /\ q_date r = 0%Z
            /\ q_neg_amount_events r = 0%Z
            /\ q_score_validity r = 0
            /\ q_score_validity r <> 1.00.
Proof.
  exists (build_row one_purchase 0). split; [reflexivity|].
  split; [reflexivity|]. split.
  - rewrite q_neg_amount_events_count. reflexivity.
  - rewrite q_score_validity_zero. split; lra.
Qed.

(** ** C2: uniqueness *)

(** C2 (evaluation at the failing input).  The claim gives a day without
    duplicates the uniqueness score exp(-0 / (0 + 1)) = 1.  On a table
    holding a single purchase the code returns one row with no duplicate
    event and the uniqueness score 0: the duplicate-count series has no
    entry for that day, and the final [fillna(0)] turns the missing score
    into 0. *)
Theorem C2_uniqueness_zero_without_duplicates :
  exists r, quality_checks one_purchase = Returned [r]
            /\ q_date r = 0%Z
            /\ q_duplicate_events r = 0%Z
            /\ q_score_uniqueness r = 0
            /\ exp (- (IZR (q_duplicate_events r) / (0 + 1))) = 1.
Proof.
  exists (build_row one_purchase 0). split; [reflexivity|].
  split; [reflexivity|].
  assert (H : q_duplicate_events (build_row one_purchase 0) = 0%Z).
  { rewrite q_duplicate_events_count. reflexivity. }
  split; [exact H|]. split.
  - apply q_score_uniqueness_absent. reflexivity.
  - rewrite H. replace (- (0 / (0 + 1))) with 0 by lra. apply exp_0.
Qed.

(** ** C3: schema drift *)

(** C3 (evaluation at the failing inputs).  A day with one
    [in_app_purchase] event and no [purchase] event has drifted, and the
    claim gives it the flag 1 and the score 0.60; the code gives it the flag
    0 and the score 1.00, because [has_purchase == 0] is false on every day
    it has and is missing, hence false in the conjunction, on every other
    day.  A day with a session only has not drifted, and the claim gives it
    the score 1.00; the code gives it 0, the fill value of a day missing
    from the schema series. *)
Theorem C3_drift_never_flagged :
  (exists r, quality_checks one_in_app_purchase = Returned [r]
             /\ q_schema_drift_flag r = 0%Z
             /\ q_score_schema r = 1.00
             /\ q_score_schema r <> 0.60)
  /\ (exists r, quality_checks one_session = Returned [r]
                /\ q_schema_drift_flag r = 0%Z
                /\ q_score_schema r = 0
                /\ q_score_schema r <> 1.00).
Proof.
  split.
  - exists (build_row one_in_app_purchase 0). split; [reflexivity|].
    split; [apply q_schema_drift_flag_zero|].
    rewrite q_score_schema_value, q_purchase_events_count.
    replace (day_count 0 (purch one_in_app_purchase)) with 1%Z
      by reflexivity.
    simpl. split; lra.
  - exists (build_row one_session 0). split; [reflexivity|].
    split; [apply q_schema_drift_flag_zero|].
    rewrite q_score_schema_value, q_purchase_events_count.
    replace (day_count 0 (purch one_session)) with 0%Z by reflexivity.
    simpl. split; lra.
Qed.

(** ** C4: trust score and ranges *)

Lemma clamp_range (x : R) : 0 <= Rmin 1 (Rmax 0 x) <= 1.
Proof.
  unfold Rmin, Rmax.
  destruct (Rle_dec 0 x); destruct (Rle_dec 1 _); lra.
Qed.

Lemma q_score_completeness_range (df : list event) (d : Z) :
  0 <= q_score_completeness (build_row df d) <= 1.
Proof.
  destruct (Z.ltb_spec 0 (day_count d (purch df))) as [H|H].
  - destruct (q_score_completeness_present df d H) as (b & _ & _ & ->).
    apply clamp_range.
  - rewrite q_score_completeness_absent; [lra|].
    pose proof (day_count_nonneg d (purch df)). lia.
Qed.

Lemma q_score_schema_range (df : list event) (d : Z) :
  0 <= q_score_schema (build_row df d) <= 1.
Proof.
  rewrite q_score_schema_value.
  destruct (0 <? q_purchase_events (build_row df d))%Z; lra.
Qed.

Lemma q_score_uniqueness_range (df : list event) (d : Z) :
  0 <= q_score_uniqueness (build_row df d) <= 1.
Proof.
  destruct (Z.ltb_spec 0 (day_count d (filter (dup_mask df) df))) as [H|H].
  - destruct (q_score_uniqueness_present df d H) as (b & _ & Hb & ->).
    apply np_exp_range.
    assert (0 <= IZR (day_count d (filter (dup_mask df) df)) / (b + 1));
      [|lra].
    apply Rmult_le_pos.
    + apply IZR_le. lia.
    + left. apply Rinv_0_lt_compat. lra.
  - rewrite q_score_uniqueness_absent; [lra|].
    pose proof (day_count_nonneg d (filter (dup_mask df) df)). lia.
Qed.

Lemma q_score_volume_range (df : list event) (d : Z) :
  0 <= q_score_volume (build_row df d) <= 1.
Proof.
  destruct (Z.ltb_spec 0 (day_count d (filter (name_is session_start) df)))
    as [H|H].
  - destruct (q_volume_present df d H) as [_ ->].
    destruct (Rltb 2.8 _); lra.
  - destruct (q_volume_absent df d) as [_ ->]; [|lra].
    pose proof (day_count_nonneg d (filter (name_is session_start) df)). lia.
Qed.

(** C4.  On every row of the output the trust score is the weighted sum of
    the five dimension scores times 100, it lies in [0, 100], and each of
    the five scores lies in [0, 1]. *)
Theorem C4_trust_score_formula_and_ranges
    (es : list event) (rows : list row) (r : row)
    (Hret : quality_checks es = Returned rows) (Hin : In r rows) :
  q_trust_score r
  = 100 * (0.30 * q_score_completeness r + 0.20 * q_score_schema r
           + 0.20 * q_score_uniqueness r + 0.15 * q_score_volume r
           + 0.15 * q_score_validity r)
  /\ 0 <= q_trust_score r <= 100
  /\ 0 <= q_score_completeness r <= 1
  /\ 0 <= q_score_schema r <= 1
  /\ 0 <= q_score_uniqueness r <= 1
  /\ 0 <= q_score_volume r <= 1
  /\ 0 <= q_score_validity r <= 1.
Proof.
  rewrite (quality_checks_row es rows r Hret Hin).
  set (d := q_date r).
  pose proof (q_score_completeness_range es d) as Hc.
  pose proof (q_score_schema_range es d) as Hs.
  pose proof (q_score_uniqueness_range es d) as Hu.
  pose proof (q_score_volume_range es d) as Hv.
  pose proof (q_score_validity_zero es d) as Hz.
  assert (Ht : q_trust_score (build_row es d)
               = 100 * (0.30 * q_score_completeness (build_row es d)
                        + 0.20 * q_score_schema (build_row es d)
                        + 0.20 * q_score_uniqueness (build_row es d)
                        + 0.15 * q_score_volume (build_row es d)
                        + 0.15 * q_score_validity (build_row es d))).
  { unfold build_row; simpl. lra. }
  split; [exact Ht|]. rewrite Ht. repeat split; lra.
Qed.

Lemma C4_witness :
  quality_checks one_purchase = Returned [build_row one_purchase 0]
  /\ In (build_row one_purchase 0) [build_row one_purchase 0]
  /\ 0 <= q_trust_score (build_row one_purchase 0) <= 100.
Proof.
  split; [reflexivity|]. split; [left; reflexivity|].
  exact (proj1 (proj2 (C4_trust_score_formula_and_ranges one_purchase
                         [build_row one_purchase 0] (build_row one_purchase 0)
                         eq_refl (or_introl eq_refl)))).
Defined.

(** ** C5: completeness *)

Lemma clamp_inside (x : R) : 0 <= x <= 1 -> Rmin 1 (Rmax 0 x) = x.
Proof.
  intros H. unfold Rmin, Rmax.
  destruct (Rle_dec 0 x); destruct (Rle_dec 1 _); lra.
Qed.

(** C5.  Three purchases on day 0, none on days 1 to 7, one on day 8.  The
    seven calendar days ending at day 8 hold the counts 0, 0, 0, 0, 0, 0, 1:
    their median is 0, the baseline is undefined and the claim gives day 8
    the score 0 (and the score 1 if the empty days were left out of the
    median).  The code scores day 8 against the median of 3 and 1, the
    counts of the two most recent days that have purchases, and gives
    1/2: the grouped series has no entry for a day without purchases, so
    the window runs over its rows and the guard against a zero median
    never applies. *)
Theorem C5_window_skips_days_without_purchases :
  exists rows r,
    quality_checks purchases_with_gap = Returned rows /\ In r rows
    /\ q_date r = 8%Z
    /\ q_score_completeness r = 1 / 2
    /\ calendar_completeness purchases_with_gap true 0 (q_date r) = 0
    /\ calendar_completeness purchases_with_gap false 0 (q_date r) = 1.
Proof.
  exists (map (build_row purchases_with_gap) (date_range 0 8)),
         (build_row purchases_with_gap 8).
  split; [reflexivity|].
  split; [apply in_map, In_date_range; lia|].
  split; [reflexivity|]. split; [|split].
  - assert (H : (0 < day_count 8 (purch purchases_with_gap))%Z)
      by reflexivity.
    destruct (q_score_completeness_present _ _ H) as (b & Hb & _ & ->).
    replace (recent_counts (purch purchases_with_gap) 8) with [3; 1]%Z in Hb
      by reflexivity.
    replace (day_count 8 (purch purchases_with_gap)) with 1%Z by reflexivity.
    unfold median in Hb; simpl in Hb. injection Hb as <-.
    rewrite clamp_inside; lra.
  - unfold calendar_completeness. simpl q_date.
    replace (calendar_window purchases_with_gap true 0 8)
      with [0; 0; 0; 0; 0; 0; 1]%Z by reflexivity.
    unfold median; simpl. destruct (Req_dec_T 0 0); [reflexivity | lra].
  - unfold calendar_completeness. simpl q_date.
    replace (calendar_window purchases_with_gap false 0 8) with [1]%Z
      by reflexivity.
    replace (day_count 8 (purch purchases_with_gap)) with 1%Z by reflexivity.
    unfold median; simpl. destruct (Req_dec_T 1 0); [lra|].
    rewrite clamp_inside; lra.
Qed.

(** What the code computes on every row: [purchase_events] counts the
    purchase-type events of the day; a day without any scores 0; a day
    with some scores its count divided by the median of the counts of the
    last seven days up to it that have purchase-type events, clamped to
    [0, 1], and that median is at least 1. *)
Lemma completeness_over_recent_purchase_days
    (es : list event) (rows : list row) (r : row)
    (Hret : quality_checks es = Returned rows) (Hin : In r rows) :
  q_purchase_events r = day_count (q_date r) (purch es)
  /\ (q_purchase_events r = 0%Z -> q_score_completeness r = 0)
  /\ ((0 < q_purchase_events r)%Z ->
      exists b,
        median (recent_counts (purch es) (q_date r)) = Some b /\ 1 <= b
        /\ q_score_completeness r
           = Rmin 1 (Rmax 0 (IZR (q_purchase_events r) / b))).
Proof.
  rewrite (quality_checks_row es rows r Hret Hin).
  rewrite !q_date_build_row. generalize (q_date r) as d. intros d.
  rewrite q_purchase_events_count.
  split; [reflexivity|]. split.
  - apply q_score_completeness_absent.
  - apply q_score_completeness_present.
Qed.

Lemma completeness_over_recent_purchase_days_witness :
  quality_checks purchases_with_gap
  = Returned (map (build_row purchases_with_gap) (date_range 0 8))
  /\ In (build_row purchases_with_gap 8)
        (map (build_row purchases_with_gap) (date_range 0 8))
  /\ q_purchase_events (build_row purchases_with_gap 8)
     = day_count 8 (purch purchases_with_gap).
Proof.
  assert (Hin : In (build_row purchases_with_gap 8)
                   (map (build_row purchases_with_gap) (date_range 0 8))).
  { do 8 right. left. reflexivity. }
  split; [reflexivity|]. split; [exact Hin|].
  exact (proj1 (completeness_over_recent_purchase_days
                  purchases_with_gap
                  (map (build_row purchases_with_gap) (date_range 0 8))
                  (build_row purchases_with_gap 8) eq_refl Hin)).
Defined.

(** ** C6: volume anomaly *)

Lemma Rltb_true (a b : R) : Rltb a b = true <-> a < b.
Proof.
  unfold Rltb. destruct (Rlt_dec a b); split; auto; discriminate.
Qed.

Lemma Rltb_false (a b : R) : Rltb a b = false <-> ~ a < b.
Proof.
  unfold Rltb. destruct (Rlt_dec a b); split; auto; try discriminate; tauto.
Qed.

Lemma lookup_sessions (df : list event) (d c : Z) :
  lookup d (sessions df) = Some c
  <-> (0 < c)%Z /\ c = day_count d (filter (name_is session_start) df).
Proof.
  unfold sessions. rewrite lookup_groupby_size.
  destruct (Z.ltb_spec 0 (day_count d (filter (name_is session_start) df))).
  - split; [intros E; injection E as <-; auto | intros [_ ->]; reflexivity].
  - split; [discriminate | intros [Hc ->]; lia].
Qed.

Lemma range_sessions_with_gap_stats :
  mean (range_sessions sessions_with_gap 0 2) = 2
  /\ std (range_sessions sessions_with_gap 0 2) = sqrt 2.
Proof.
  assert (Es : range_sessions sessions_with_gap 0 2
               = [(0, 3); (1, 0); (2, 3)]%Z) by reflexivity.
  assert (Em : mean (range_sessions sessions_with_gap 0 2) = 2).
  { rewrite Es. unfold mean. simpl. lra. }
  split; [exact Em|].
  unfold std. rewrite Em, Es. simpl.
  match goal with |- sqrt ?x = _ => replace x with 2 by lra end.
  reflexivity.
Qed.

(** C6.  Three sessions on day 0, none on day 1, three on day 2.  Over the
    whole range the daily counts are 3, 0, 3, with mean 2 and standard
    deviation sqrt 2, so the z-score of day 1 has absolute value sqrt 2,
    below 2.8: the claim does not flag the day and gives it the volume
    score 1.00.  The code does not flag the day either, but its volume
    score is 0: day 1 is absent from the session series, and the final
    fill writes 0 into the score column. *)
Theorem C6_day_without_sessions_scores_zero :
  exists rows r,
    quality_checks sessions_with_gap = Returned rows /\ In r rows
    /\ map q_date rows = [0; 1; 2]%Z
    /\ map q_session_events rows = [3; 0; 3]%Z
    /\ q_date r = 1%Z
    /\ q_session_events r = 0%Z
    /\ Rabs (range_z sessions_with_gap 0 2 (q_session_events r)) < 2.8
    /\ q_volume_anomaly_flag r = 0%Z
    /\ q_score_volume r = 0
    /\ q_score_volume r <> 1.00.
Proof.
  exists (map (build_row sessions_with_gap) (date_range 0 2)),
         (build_row sessions_with_gap 1).
  assert (Hse : q_session_events (build_row sessions_with_gap 1) = 0%Z).
  { rewrite q_session_events_count. reflexivity. }
  destruct (q_volume_absent sessions_with_gap 1 eq_refl) as [Hf Hv].
  split; [reflexivity|].
  split; [apply in_map, In_date_range; lia|].
  split; [reflexivity|]. split; [reflexivity|].
  split; [reflexivity|]. split; [exact Hse|].
  split; [|split; [exact Hf|split; [exact Hv | rewrite Hv; lra]]].
  assert (Hs : 1 < sqrt 2).
  { rewrite <- sqrt_1 at 1. apply sqrt_lt_1_alt. lra. }
  rewrite Hse. unfold range_z. cbv zeta.
  destruct range_sessions_with_gap_stats as [-> ->].
  destruct (Req_dec_T (sqrt 2) 0); [lra|].
  replace ((0 - 2) / sqrt 2) with (- (2 / sqrt 2)) by (field; lra).
  rewrite Rabs_Ropp, Rabs_pos_eq.
  - apply Rlt_trans with 2; [|lra].
    apply (Rmult_lt_reg_r (sqrt 2)); [lra|].
    unfold Rdiv. rewrite Rmult_assoc, Rinv_l by lra. lra.
  - left. apply Rdiv_lt_0_compat; lra.
Qed.

(** ** C7: empty input *)

(** C7 (counterexample).  On the empty table the code does not return the
    empty table, nor any table. *)
Lemma C7_empty_input_returns_nothing :
  quality_checks [] <> Returned []
  /\ forall rows, quality_checks [] <> Returned rows.
Proof. split; [|intros rows]; discriminate. Qed.

(** C7 (amended).  On a table with zero events [quality_checks] raises the
    error of [pd.date_range], whose bounds are the undefined first and last
    event dates. *)
Theorem C7_empty_input_raises :
  min_date [] = None /\ max_date [] = None
  /\ quality_checks [] = Raised "Neither `start` nor `end` can be NaT".
Proof. repeat split. Qed.

(** ** C8: reason tags *)

Lemma tags_of_rules (df : list event) (d : Z) :
  tags_of (q_score_completeness (build_row df d))
          (q_score_schema (build_row df d))
          (q_score_volume (build_row df d))
          (q_duplicate_events (build_row df d))
          (q_score_validity (build_row df d))
  = applicable_tags (build_row df d).
Proof.
  unfold applicable_tags, tag_rules, tags_of.
  destruct (Rltb (q_score_completeness _) _), (Rltb (q_score_schema _) _),
    (Rltb (q_score_volume _) _), (0 <? q_duplicate_events _)%Z,
    (Rltb (q_score_validity _) _); reflexivity.
Qed.

Lemma q_reason_build_row (df : list event) (d : Z) :
  q_reason (build_row df d) = reason_of (applicable_tags (build_row df d)).
Proof. rewrite <- tags_of_rules. reflexivity. Qed.

Lemma applicable_tags_rule (r : row) :
  (In "possible_purchase_outage"%string (applicable_tags r)
   <-> Rltb (q_score_completeness r) 0.70 = true)
  /\ (In "schema_drift_purchase_name"%string (applicable_tags r)
      <-> Rltb (q_score_schema r) 1.00 = true)
  /\ (In "traffic_spike_possible_bots"%string (applicable_tags r)
      <-> Rltb (q_score_volume r) 1.00 = true)
  /\ (In "duplicates_detected"%string (applicable_tags r)
      <-> (0 <? q_duplicate_events r)%Z = true)
  /\ (In "invalid_amount_values"%string (applicable_tags r)
      <-> Rltb (q_score_validity r) 1.00 = true).
Proof.
  unfold applicable_tags, tag_rules.
  destruct (Rltb (q_score_completeness r) _), (Rltb (q_score_schema r) _),
    (Rltb (q_score_volume r) _), (0 <? q_duplicate_events r)%Z,
    (Rltb (q_score_validity r) _); simpl;
    repeat split; intros H;
    first [ reflexivity
          | discriminate H
          | solve [repeat (first [left; reflexivity | right])]
          | solve [repeat (destruct H as [H|H]; [discriminate H|]);
                   destruct H] ].
Qed.

Lemma reason_ok_iff_no_tag (r : row) :
  reason_of (applicable_tags r) = "ok"%string <-> applicable_tags r = [].
Proof.
  unfold applicable_tags, tag_rules.
  destruct (Rltb (q_score_completeness r) _), (Rltb (q_score_schema r) _),
    (Rltb (q_score_volume r) _), (0 <? q_duplicate_events r)%Z,
    (Rltb (q_score_validity r) _); simpl;
    split; intros H; try reflexivity; discriminate H.
Qed.

(** C8.  On every row of the output the reason is the join with ", " of
    the tags whose rule applies, in the fixed order of the rules, and it is
    "ok" exactly when no rule applies.  The rules are: completeness below
    0.70, schema score below 1.00, volume score below 1.00, a positive
    count of duplicate events, validity score below 1.00. *)
Theorem C8_reason_is_join_of_applicable_tags
    (es : list event) (rows : list row) (r : row)
    (Hret : quality_checks es = Returned rows) (Hin : In r rows) :
  (applicable_tags r <> [] ->
   q_reason r = String.concat ", " (applicable_tags r))
  /\ (q_reason r = "ok"%string <-> applicable_tags r = [])
  /\ (In "possible_purchase_outage"%string (applicable_tags r)
      <-> q_score_completeness r < 0.70)
  /\ (In "schema_drift_purchase_name"%string (applicable_tags r)
      <-> q_score_schema r < 1.00)
  /\ (In "traffic_spike_possible_bots"%string (applicable_tags r)
      <-> q_score_volume r < 1.00)
  /\ (In "duplicates_detected"%string (applicable_tags r)
      <-> (0 < q_duplicate_events r)%Z)
  /\ (In "invalid_amount_values"%string (applicable_tags r)
      <-> q_score_validity r < 1.00).
Proof.
  assert (Hr : q_reason r = reason_of (applicable_tags r)).
  { rewrite (quality_checks_row es rows r Hret Hin) at 1 2.
    rewrite q_reason_build_row.
    now rewrite <- (quality_checks_row es rows r Hret Hin). }
  split; [|split].
  - intros Hne. rewrite Hr. destruct (applicable_tags r); [congruence|].
    reflexivity.
  - rewrite Hr. apply reason_ok_iff_no_tag.
  - destruct (applicable_tags_rule r) as (H1 & H2 & H3 & H4 & H5).
    rewrite H1, H2, H3, H4, H5, !Rltb_true, Z.ltb_lt. tauto.
Qed.

Lemma C8_witness :
  quality_checks duplicated_session
  = Returned [build_row duplicated_session 0]
  /\ In (build_row duplicated_session 0) [build_row duplicated_session 0]
  /\ (In "duplicates_detected"%string
         (applicable_tags (build_row duplicated_session 0))
      <-> (0 < q_duplicate_events (build_row duplicated_session 0))%Z).
Proof.
  split; [reflexivity|]. split; [left; reflexivity|].
  exact (proj1 (proj2 (proj2 (proj2 (proj2 (proj2
    (C8_reason_is_join_of_applicable_tags duplicated_session
       [build_row duplicated_session 0] (build_row duplicated_session 0)
       eq_refl (or_introl eq_refl)))))))).
Defined.

(** ** C9: one row per day of the range *)

Lemma min_max_nonempty (es : list event) :
  es <> [] -> exists lo hi, min_date es = Some lo /\ max_date es = Some hi.
Proof.
  destruct es as [|e t]; [congruence|]. intros _. simpl. eauto.
Qed.

Lemma count_occ_date_range (lo hi d : Z) :
  (lo <= d <= hi)%Z -> count_occ Z.eq_dec (date_range lo hi) d = 1%nat.
Proof.
  intros H. apply NoDup_count_occ'.
  - apply NoDup_date_range.
  - now apply In_date_range.
Qed.

(** C9.  For a table with at least one event the output has exactly one
    row for every day from the first to the last event date and no other
    row; on a day without events the four counts and the two flags are
    0. *)
Theorem C9_one_row_per_day_of_range (es : list event) (Hne : es <> []) :
  exists lo hi rows,
    quality_checks es = Returned rows
    /\ (forall e, In e es -> (lo <= date e <= hi)%Z)
    /\ (exists e, In e es /\ date e = lo)
    /\ (exists e, In e es /\ date e = hi)
    /\ map q_date rows = date_range lo hi
    /\ (forall d, (lo <= d <= hi)%Z ->
                  count_occ Z.eq_dec (map q_date rows) d = 1%nat)
    /\ (forall r, In r rows -> (lo <= q_date r <= hi)%Z)
    /\ (forall r, In r rows ->
                  (forall e, In e es -> date e <> q_date r) ->
                  q_purchase_events r = 0%Z /\ q_session_events r = 0%Z
                  /\ q_duplicate_events r = 0%Z
                  /\ q_neg_amount_events r = 0%Z
                  /\ q_schema_drift_flag r = 0%Z
                  /\ q_volume_anomaly_flag r = 0%Z).
Proof.
  destruct (min_max_nonempty es Hne) as (lo & hi & Hlo & Hhi).
  destruct (min_date_spec es lo Hlo) as [Hmin Hlo_in].
  destruct (max_date_spec es hi Hhi) as [Hmax Hhi_in].
  assert (Hret : quality_checks es
                 = Returned (map (build_row es) (date_range lo hi))).
  { unfold quality_checks. now rewrite Hlo, Hhi. }
  exists lo, hi, (map (build_row es) (date_range lo hi)).
  split; [exact Hret|].
  split; [intros e He; split; auto|].
  split; [exact Hlo_in|]. split; [exact Hhi_in|].
  split; [apply dates_of_rows|].
  split; [intros d Hd; rewrite dates_of_rows; now apply count_occ_date_range|].
  split.
  - intros r Hr. apply in_map_iff in Hr. destruct Hr as (d & <- & Hd).
    now apply In_date_range.
  - intros r Hr Hnone.
    rewrite (quality_checks_row es _ r Hret Hr) in *.
    rewrite q_date_build_row in Hnone.
    set (d := q_date r) in *.
    rewrite q_purchase_events_count, q_session_events_count,
      q_duplicate_events_count, q_neg_amount_events_count,
      q_schema_drift_flag_zero.
    assert (Hs : day_count d (filter (name_is session_start) es) = 0%Z)
      by now apply day_count_empty_day.
    repeat split.
    + now apply day_count_empty_day.
    + exact Hs.
    + now apply day_count_empty_day.
    + apply day_count_empty_day. intros e He.
      apply filter_In in He. now apply Hnone.
    + now destruct (q_volume_absent es d Hs).
Qed.

Lemma C9_witness :
  sessions_with_gap <> []
  /\ exists lo hi rows,
       quality_checks sessions_with_gap = Returned rows
       /\ map q_date rows = date_range lo hi.
Proof.
  assert (Hne : sessions_with_gap <> []) by discriminate.
  split; [exact Hne|].
  destruct (C9_one_row_per_day_of_range sessions_with_gap Hne)
    as (lo & hi & rows & Hret & _ & _ & _ & Hdates & _).
  exists lo, hi, rows. split; [exact Hret | exact Hdates].
Defined.

(** ** C10: renamed purchases and completeness *)

Section Renaming.
Variable ren : event -> event.
Hypothesis ren_date : forall e, date (ren e) = date e.
Hypothesis ren_isin : forall e, isin_purchase (ren e) = isin_purchase e.

Lemma purch_map_ren (df : list event) :
  purch (map ren df) = map ren (purch df).
Proof.
  unfold purch. induction df as [|e t IH]; simpl; [reflexivity|].
  rewrite ren_isin. destruct (isin_purchase e); simpl; now rewrite IH.
Qed.

Lemma group_keys_map_ren (l : list event) :
  group_keys (map ren l) = group_keys l.
Proof.
  unfold group_keys. induction l as [|e t IH]; simpl; [reflexivity|].
  now rewrite IH, ren_date.
Qed.

Lemma day_count_map_ren (d : Z) (l : list event) :
  day_count d (map ren l) = day_count d l.
Proof.
  unfold day_count, on_day. f_equal.
  induction l as [|e t IH]; simpl; [reflexivity|].
  rewrite ren_date. destruct (date e =? d)%Z; simpl; now rewrite IH.
Qed.

Lemma groupby_size_map_ren (l : list event) :
  groupby_size (map ren l) = groupby_size l.
Proof.
  unfold groupby_size. rewrite group_keys_map_ren.
  apply map_ext. intros d. f_equal. apply day_count_map_ren.
Qed.

Lemma purchase_events_map_ren (df : list event) :
  purchase_events (map ren df) = purchase_events df.
Proof.
  unfold purchase_events. now rewrite purch_map_ren, groupby_size_map_ren.
Qed.

Lemma score_completeness_map_ren (df : list event) :
  score_completeness (map ren df) = score_completeness df.
Proof.
  unfold score_completeness, baseline_purchase.
  now rewrite purchase_events_map_ren.
Qed.

Lemma min_date_map_ren (df : list event) :
  min_date (map ren df) = min_date df.
Proof.
  destruct df as [|e t]; simpl; [reflexivity|]. f_equal.
  rewrite ren_date.
  induction t as [|e' t IH]; simpl; [reflexivity|].
  now rewrite IH, ren_date.
Qed.

Lemma max_date_map_ren (df : list event) :
  max_date (map ren df) = max_date df.
Proof.
  destruct df as [|e t]; simpl; [reflexivity|]. f_equal.
  rewrite ren_date.
  induction t as [|e' t IH]; simpl; [reflexivity|].
  now rewrite IH, ren_date.
Qed.
End Renaming.

Lemma rename_purchase_on_date (d : Z) (e : event) :
  date (rename_purchase_on d e) = date e.
Proof.
  unfold rename_purchase_on. destruct (on_day d e && name_is purchase e);
    reflexivity.
Qed.

Lemma rename_purchase_on_isin (d : Z) (e : event) :
  isin_purchase (rename_purchase_on d e) = isin_purchase e.
Proof.
  unfold rename_purchase_on.
  destruct (on_day d e && name_is purchase e) eqn:E; [|reflexivity].
  apply andb_true_iff in E. destruct E as [_ E].
  unfold isin_purchase. rewrite E. reflexivity.
Qed.

Lemma filter_filter_length {A : Type} (p q : A -> bool) (l : list A) :
  length (filter p (filter q l)) = length (filter (fun x => p x && q x) l).
Proof.
  induction l as [|x t IH]; simpl; [reflexivity|].
  destruct (q x); simpl; destruct (p x); simpl; now rewrite ?IH.
Qed.

(** C10.  [purchase_events] counts [purchase] and [in_app_purchase] events
    together: renaming the purchase events of a day to [in_app_purchase]
    leaves the days of the output, and on each of them [purchase_events]
    and [score_completeness], as they were. *)
Theorem C10_renaming_keeps_completeness
    (es : list event) (d : Z) (rows : list row)
    (Hret : quality_checks es = Returned rows) :
  (forall k, q_purchase_events (build_row es k)
             = Z.of_nat (length (filter (fun e => on_day k e
                                                  && (name_is purchase e
                                                      || name_is in_app_purchase e))
                                        es)))
  /\ exists rows',
       quality_checks (map (rename_purchase_on d) es) = Returned rows'
       /\ map q_date rows' = map q_date rows
       /\ map q_purchase_events rows' = map q_purchase_events rows
       /\ map q_score_completeness rows' = map q_score_completeness rows.
Proof.
  split.
  - intros k. rewrite q_purchase_events_count. unfold day_count, purch.
    f_equal. apply (filter_filter_length (on_day k) isin_purchase).
  - destruct (quality_checks_returned es rows Hret)
      as (lo & hi & Hlo & Hhi & ->).
    set (ren := rename_purchase_on d).
    pose proof (rename_purchase_on_date d) as Hd.
    pose proof (rename_purchase_on_isin d) as Hi.
    exists (map (build_row (map ren es)) (date_range lo hi)). split.
    + unfold quality_checks.
      rewrite (min_date_map_ren ren Hd), (max_date_map_ren ren Hd), Hlo, Hhi.
      reflexivity.
    + rewrite !dates_of_rows, !map_map. repeat split.
      * apply map_ext. intros k. rewrite !q_purchase_events_count.
        rewrite (purch_map_ren ren Hi). apply (day_count_map_ren ren Hd).
      * apply map_ext. intros k. unfold build_row; simpl.
        now rewrite (score_completeness_map_ren ren Hd Hi).
Qed.

(** Purchases on two days; those of day 0 get renamed. *)
Lemma C10_witness :
  quality_checks purchases_with_gap
  = Returned (map (build_row purchases_with_gap) (date_range 0 8))
  /\ exists rows',
       quality_checks (map (rename_purchase_on 0) purchases_with_gap)
       = Returned rows'
       /\ map q_score_completeness rows'
          = map q_score_completeness
                (map (build_row purchases_with_gap) (date_range 0 8)).
Proof.
  split; [reflexivity|].
  destruct (C10_renaming_keeps_completeness purchases_with_gap 0
              (map (build_row purchases_with_gap) (date_range 0 8)) eq_refl)
    as (_ & rows' & Hret & _ & _ & Hsc).
  exists rows'. split; [exact Hret | exact Hsc].
Defined.


(** * Further properties of [quality_checks] *)

(** ** What the final fill does to the scores *)

Lemma q_trust_score_build_row (df : list event) (d : Z) :
  q_trust_score (build_row df d)
  = 100 * (0.30 * q_score_completeness (build_row df d)
           + 0.20 * q_score_schema (build_row df d)
           + 0.20 * q_score_uniqueness (build_row df d)
           + 0.15 * q_score_volume (build_row df d)
           + 0.15 * q_score_validity (build_row df d)).
Proof. unfold build_row; simpl. lra. Qed.

(** X1.  The validity score is 0.0 on every row of every output, and the trust
    score is therefore at most 85. *)
Theorem validity_zero_caps_trust
    (es : list event) (rows : list row) (r : row)
    (Hret : quality_checks es = Returned rows) (Hin : In r rows) :
  q_score_validity r = 0 /\ q_trust_score r <= 85.
Proof.
  rewrite (quality_checks_row es rows r Hret Hin).
  set (d := q_date r).
  pose proof (q_score_completeness_range es d).
  pose proof (q_score_schema_range es d).
  pose proof (q_score_uniqueness_range es d).
  pose proof (q_score_volume_range es d).
  pose proof (q_score_validity_zero es d) as Hz.
  split; [exact Hz|]. rewrite q_trust_score_build_row, Hz. lra.
Qed.

Lemma validity_zero_caps_trust_witness :
  quality_checks one_purchase = Returned [build_row one_purchase 0]
  /\ In (build_row one_purchase 0) [build_row one_purchase 0]
  /\ q_trust_score (build_row one_purchase 0) <= 85.
Proof.
  split; [reflexivity|]. split; [left; reflexivity|].
  exact (proj2 (validity_zero_caps_trust one_purchase
                  [build_row one_purchase 0] (build_row one_purchase 0)
                  eq_refl (or_introl eq_refl))).
Defined.

(** X2.  A day without duplicate events has the uniqueness score 0 and a trust
    score of at most 65, below the threshold 70 that the report and the
    plots draw. *)
Theorem no_duplicates_caps_trust
    (es : list event) (rows : list row) (r : row)
    (Hret : quality_checks es = Returned rows) (Hin : In r rows)
    (Hdup : q_duplicate_events r = 0%Z) :
  q_score_uniqueness r = 0 /\ q_trust_score r <= 65 /\ q_trust_score r < 70.
Proof.
  rewrite (quality_checks_row es rows r Hret Hin) in *.
  set (d := q_date r) in *.
  rewrite q_duplicate_events_count in Hdup.
  pose proof (q_score_completeness_range es d).
  pose proof (q_score_schema_range es d).
  pose proof (q_score_volume_range es d).
  pose proof (q_score_validity_zero es d) as Hz.
  pose proof (q_score_uniqueness_absent es d Hdup) as Hu.
  split; [exact Hu|]. rewrite q_trust_score_build_row, Hz, Hu.
  split; lra.
Qed.

Lemma no_duplicates_caps_trust_witness :
  quality_checks one_purchase = Returned [build_row one_purchase 0]
  /\ In (build_row one_purchase 0) [build_row one_purchase 0]
  /\ q_duplicate_events (build_row one_purchase 0) = 0%Z
  /\ q_trust_score (build_row one_purchase 0) < 70.
Proof.
  assert (Hd : q_duplicate_events (build_row one_purchase 0) = 0%Z)
    by reflexivity.
  split; [reflexivity|]. split; [left; reflexivity|]. split; [exact Hd|].
  exact (proj2 (proj2 (no_duplicates_caps_trust one_purchase
                         [build_row one_purchase 0] (build_row one_purchase 0)
                         eq_refl (or_introl eq_refl) Hd))).
Defined.

(** X3.  The drift flag is 0 on every row of every output; the schema score is
    1.00 on the days that have a purchase-type event and 0 on the others,
    whatever the names of the events. *)
Theorem schema_flag_never_set
    (es : list event) (rows : list row) (r : row)
    (Hret : quality_checks es = Returned rows) (Hin : In r rows) :
  q_schema_drift_flag r = 0%Z
  /\ ((0 < q_purchase_events r)%Z -> q_score_schema r = 1)
  /\ (q_purchase_events r = 0%Z -> q_score_schema r = 0).
Proof.
  rewrite (quality_checks_row es rows r Hret Hin).
  set (d := q_date r).
  split; [apply q_schema_drift_flag_zero|].
  rewrite q_score_schema_value.
  split; intros H.
  - apply Z.ltb_lt in H. now rewrite H.
  - now rewrite H.
Qed.

Lemma schema_flag_never_set_witness :
  quality_checks one_in_app_purchase
  = Returned [build_row one_in_app_purchase 0]
  /\ In (build_row one_in_app_purchase 0) [build_row one_in_app_purchase 0]
  /\ q_schema_drift_flag (build_row one_in_app_purchase 0) = 0%Z.
Proof.
  split; [reflexivity|]. split; [left; reflexivity|].
  exact (proj1 (schema_flag_never_set one_in_app_purchase
                  [build_row one_in_app_purchase 0]
                  (build_row one_in_app_purchase 0)
                  eq_refl (or_introl eq_refl))).
Defined.

(** ** Reason tags in terms of the events of the day *)

Lemma validity_rule_applies (df : list event) (d : Z) :
  Rltb (q_score_validity (build_row df d)) 1.00 = true.
Proof. rewrite q_score_validity_zero. apply Rltb_true. lra. Qed.

(** X4.  No row of any output has the reason "ok": the tag
    [invalid_amount_values] is the last tag of every reason. *)
Theorem reason_never_ok
    (es : list event) (rows : list row) (r : row)
    (Hret : quality_checks es = Returned rows) (Hin : In r rows) :
  q_reason r <> "ok"%string
  /\ exists tags,
       applicable_tags r = tags ++ ["invalid_amount_values"%string]
       /\ q_reason r
          = String.concat ", " (tags ++ ["invalid_amount_values"%string]).
Proof.
  rewrite (quality_checks_row es rows r Hret Hin).
  set (d := q_date r).
  assert (Htags : exists tags,
             applicable_tags (build_row es d)
             = tags ++ ["invalid_amount_values"%string]).
  { unfold applicable_tags, tag_rules. rewrite validity_rule_applies.
    destruct (Rltb (q_score_completeness _) _), (Rltb (q_score_schema _) _),
      (Rltb (q_score_volume _) _), (0 <? q_duplicate_events _)%Z; simpl;
      match goal with
      | |- exists tags, ?l = _ => exists (removelast l); reflexivity
      end. }
  destruct Htags as (tags & Htags).
  assert (Hne : applicable_tags (build_row es d) <> []).
  { rewrite Htags. destruct tags; discriminate. }
  split.
  - rewrite q_reason_build_row. intros H.
    now apply reason_ok_iff_no_tag in H.
  - exists tags. split; [exact Htags|].
    rewrite q_reason_build_row, <- Htags.
    destruct (applicable_tags (build_row es d)); [congruence | reflexivity].
Qed.

Lemma reason_never_ok_witness :
  quality_checks one_purchase = Returned [build_row one_purchase 0]
  /\ In (build_row one_purchase 0) [build_row one_purchase 0]
  /\ q_reason (build_row one_purchase 0) <> "ok"%string.
Proof.
  split; [reflexivity|]. split; [left; reflexivity|].
  exact (proj1 (reason_never_ok one_purchase
                  [build_row one_purchase 0] (build_row one_purchase 0)
                  eq_refl (or_introl eq_refl))).
Defined.

(** X5.  The tag [schema_drift_purchase_name] is on exactly the days without any
    purchase-type event; the tag [traffic_spike_possible_bots] is on the
    flagged days and on the days without any session event; a day without
    purchase-type events also carries [possible_purchase_outage]. *)
Theorem reason_tags_from_events
    (es : list event) (rows : list row) (r : row)
    (Hret : quality_checks es = Returned rows) (Hin : In r rows) :
  (In "schema_drift_purchase_name"%string (applicable_tags r)
   <-> q_purchase_events r = 0%Z)
  /\ (In "traffic_spike_possible_bots"%string (applicable_tags r)
      <-> q_volume_anomaly_flag r = 1%Z \/ q_session_events r = 0%Z)
  /\ (q_purchase_events r = 0%Z ->
      In "possible_purchase_outage"%string (applicable_tags r)).
Proof.
  destruct (applicable_tags_rule r) as (H1 & H2 & H3 & _ & _).
  rewrite H1, H2, H3, !Rltb_true. clear H1 H2 H3.
  rewrite (quality_checks_row es rows r Hret Hin).
  set (d := q_date r).
  pose proof (day_count_nonneg d (purch es)) as Hp.
  pose proof (day_count_nonneg d (filter (name_is session_start) es)) as Hs.
  rewrite q_score_schema_value, q_purchase_events_count,
    q_session_events_count.
  split; [|split].
  - destruct (Z.ltb_spec 0 (day_count d (purch es))); split; intros; lra || lia.
  - destruct (Z.ltb_spec 0 (day_count d (filter (name_is session_start) es)))
      as [H|H].
    + destruct (q_volume_present es d H) as [-> ->].
      destruct (Rltb 2.8 _); split; intros H'; try lra; auto;
        destruct H' as [H'|H']; try discriminate; lia.
    + assert (H0 : day_count d (filter (name_is session_start) es) = 0%Z)
        by lia.
      destruct (q_volume_absent es d H0) as [_ ->]. split; [auto | lra].
  - intros H. rewrite (q_score_completeness_absent es d H). lra.
Qed.

Lemma reason_tags_from_events_witness :
  quality_checks one_session = Returned [build_row one_session 0]
  /\ In (build_row one_session 0) [build_row one_session 0]
  /\ (In "schema_drift_purchase_name"%string
         (applicable_tags (build_row one_session 0))
      <-> q_purchase_events (build_row one_session 0) = 0%Z).
Proof.
  split; [reflexivity|]. split; [left; reflexivity|].
  exact (proj1 (reason_tags_from_events one_session
                  [build_row one_session 0] (build_row one_session 0)
                  eq_refl (or_introl eq_refl))).
Defined.

(** ** The order of the input rows *)

Lemma filter_Permutation {A : Type} (p : A -> bool) (l l' : list A) :
  Permutation l l' -> Permutation (filter p l) (filter p l').
Proof.
  induction 1 as [|x l l' _ IH|x y l|l l' l'' _ IH1 _ IH2]; simpl.
  - constructor.
  - destruct (p x); [now constructor | exact IH].
  - destruct (p x), (p y); try apply Permutation_refl. apply perm_swap.
  - now transitivity (filter p l').
Qed.

Lemma day_count_Permutation (d : Z) (l l' : list event) :
  Permutation l l' -> day_count d l = day_count d l'.
Proof.
  intros H. unfold day_count. f_equal.
  apply Permutation_length. now apply filter_Permutation.
Qed.

Lemma sorted_same_elements (l l' : list Z) :
  StronglySorted Z.lt l -> StronglySorted Z.lt l' ->
  (forall x, In x l <-> In x l') -> l = l'.
Proof.
  intros Hs. revert l'.
  induction Hs as [|a l Hs IH Ha]; intros l' Hs' Hiff.
  - destruct l' as [|b l']; [reflexivity|].
    destruct (proj2 (Hiff b) (or_introl eq_refl)).
  - destruct Hs' as [|b l' Hs' Hb].
    + destruct (proj1 (Hiff a) (or_introl eq_refl)).
    + rewrite Forall_forall in Ha, Hb.
      assert (E : a = b).
      { destruct (proj1 (Hiff a) (or_introl eq_refl)) as [E|Hin];
          [congruence|].
        destruct (proj2 (Hiff b) (or_introl eq_refl)) as [E|Hin'];
          [congruence|].
        specialize (Ha b Hin'). specialize (Hb a Hin). lia. }
      subst b. f_equal. apply IH; [exact Hs'|].
      intros x. split; intros Hx.
      * destruct (proj1 (Hiff x) (or_intror Hx)) as [E|Hin]; [|exact Hin].
        specialize (Ha x Hx). lia.
      * destruct (proj2 (Hiff x) (or_intror Hx)) as [E|Hin]; [|exact Hin].
        specialize (Hb x Hx). lia.
Qed.

Lemma group_keys_Permutation (l l' : list event) :
  Permutation l l' -> group_keys l = group_keys l'.
Proof.
  intros H. apply sorted_same_elements; try apply group_keys_sorted.
  intros d. rewrite !In_group_keys.
  split; intros (e & He & Hd); exists e; split; auto.
  - now apply (Permutation_in _ H).
  - now apply (Permutation_in _ (Permutation_sym H)).
Qed.

Lemma groupby_size_Permutation (l l' : list event) :
  Permutation l l' -> groupby_size l = groupby_size l'.
Proof.
  intros H. unfold groupby_size. rewrite (group_keys_Permutation l l' H).
  apply map_ext. intros d. f_equal. now apply day_count_Permutation.
Qed.

Lemma dup_mask_Permutation (l l' : list event) (e : event) :
  Permutation l l' -> dup_mask l e = dup_mask l' e.
Proof.
  intros H. unfold dup_mask. f_equal.
  apply Permutation_length. now apply filter_Permutation.
Qed.

Lemma min_date_Permutation (l l' : list event) :
  Permutation l l' -> min_date l = min_date l'.
Proof.
  intros H.
  destruct (min_date l) as [lo|] eqn:E, (min_date l') as [lo'|] eqn:E'.
  - destruct (min_date_spec l lo E) as [Hle (e & He & Hd)].
    destruct (min_date_spec l' lo' E') as [Hle' (e' & He' & Hd')].
    apply (Permutation_in _ H) in He.
    apply (Permutation_in _ (Permutation_sym H)) in He'.
    specialize (Hle e' He'). specialize (Hle' e He). f_equal. lia.
  - destruct l' as [|x t]; [|discriminate].
    apply Permutation_sym, Permutation_nil in H. subst. discriminate.
  - destruct l as [|x t]; [|discriminate].
    apply Permutation_nil in H. subst. discriminate.
  - reflexivity.
Qed.

Lemma max_date_Permutation (l l' : list event) :
  Permutation l l' -> max_date l = max_date l'.
Proof.
  intros H.
  destruct (max_date l) as [hi|] eqn:E, (max_date l') as [hi'|] eqn:E'.
  - destruct (max_date_spec l hi E) as [Hle (e & He & Hd)].
    destruct (max_date_spec l' hi' E') as [Hle' (e' & He' & Hd')].
    apply (Permutation_in _ H) in He.
    apply (Permutation_in _ (Permutation_sym H)) in He'.
    specialize (Hle e' He'). specialize (Hle' e He). f_equal. lia.
  - destruct l' as [|x t]; [|discriminate].
    apply Permutation_sym, Permutation_nil in H. subst. discriminate.
  - destruct l as [|x t]; [|discriminate].
    apply Permutation_nil in H. subst. discriminate.
  - reflexivity.
Qed.

Lemma build_row_Permutation (l l' : list event) (d : Z) :
  Permutation l l' -> build_row l d = build_row l' d.
Proof.
  intros H.
  assert (Hf : forall p, groupby_size (filter p l) = groupby_size (filter p l'))
    by (intros p; now apply groupby_size_Permutation, filter_Permutation).
  assert (Hpe : purchase_events l = purchase_events l') by apply Hf.
  assert (Hse : sessions l = sessions l') by apply Hf.
  assert (Hdc : dup_count l = dup_count l').
  { unfold dup_count.
    rewrite (filter_ext (dup_mask l) (dup_mask l')
               (fun e => dup_mask_Permutation l l' e H)).
    apply Hf. }
  assert (Hna : neg_amount l = neg_amount l').
  { unfold neg_amount.
    apply groupby_size_Permutation, filter_Permutation, filter_Permutation, H. }
  assert (Hsd : schema_drift_flag l = schema_drift_flag l').
  { unfold schema_drift_flag, has_iap, has_purchase. now rewrite !Hf. }
  unfold build_row, score_completeness, baseline_purchase, score_schema,
    score_uniqueness, dup_baseline, score_volume, volume_anomaly_flag, z,
    score_validity.
  rewrite Hpe, Hse, Hdc, Hna, Hsd. reflexivity.
Qed.

(** X6.  The output does not depend on the order of the rows of the input
    table. *)
Theorem quality_checks_order_independent (es es' : list event)
    (Hperm : Permutation es es') :
  quality_checks es = quality_checks es'.
Proof.
  unfold quality_checks.
  rewrite (min_date_Permutation es es' Hperm),
    (max_date_Permutation es es' Hperm).
  destruct (min_date es'), (max_date es'); try reflexivity.
  f_equal. apply map_ext. intros d. now apply build_row_Permutation.
Qed.

Lemma quality_checks_order_independent_witness :
  Permutation sessions_with_gap (rev sessions_with_gap)
  /\ quality_checks sessions_with_gap
     = quality_checks (rev sessions_with_gap).
Proof.
  assert (H : Permutation sessions_with_gap (rev sessions_with_gap))
    by apply Permutation_rev.
  split; [exact H|].
  exact (quality_checks_order_independent sessions_with_gap
           (rev sessions_with_gap) H).
Defined.

(** ** Duplicate counts *)

Lemma event_name_eqb_eq (a b : event_name_t) :
  event_name_eqb a b = true <-> a = b.
Proof. destruct a, b; simpl; split; intros H; congruence. Qed.

Lemma amount_eqb_trans_l (a b c : option Q) :
  amount_eqb a b = true -> amount_eqb a c = amount_eqb b c.
Proof.
  destruct a as [x|], b as [y|], c as [w|]; simpl; try congruence.
  intros H. apply Qeq_bool_iff in H.
  destruct (Qeq_bool x w) eqn:E1, (Qeq_bool y w) eqn:E2; try reflexivity.
  - apply Qeq_bool_iff in E1. apply Qeq_bool_neq in E2.
    destruct E2. now rewrite <- H.
  - apply Qeq_bool_iff in E2. apply Qeq_bool_neq in E1.
    destruct E1. now rewrite H.
Qed.

Lemma same_key_date (e x : event) : same_key e x = true -> date e = date x.
Proof.
  unfold same_key, date. rewrite !andb_true_iff.
  intros [[[_ H] _] _]. apply Z.eqb_eq in H. now rewrite H.
Qed.

Lemma same_key_trans_l (e x y : event) :
  same_key e x = true -> same_key e y = same_key x y.
Proof.
  unfold same_key. rewrite !andb_true_iff.
  intros [[[Hu Ht] Hn] Ha].
  apply Z.eqb_eq in Hu. apply Z.eqb_eq in Ht. apply event_name_eqb_eq in Hn.
  now rewrite Hu, Ht, Hn, (amount_eqb_trans_l _ _ _ Ha).
Qed.

Lemma dup_mask_same_key (df : list event) (e x : event) :
  same_key e x = true -> dup_mask df x = dup_mask df e.
Proof.
  intros H. unfold dup_mask. f_equal. f_equal.
  apply filter_ext. intros y. symmetry. now apply same_key_trans_l.
Qed.

Lemma filter_length_le {A : Type} (p q : A -> bool) (l : list A) :
  (forall x, In x l -> p x = true -> q x = true) ->
  (length (filter p l) <= length (filter q l))%nat.
Proof.
  induction l as [|x t IH]; intros H; simpl; [lia|].
  assert (IH' : (length (filter p t) <= length (filter q t))%nat).
  { apply IH. intros y Hy. apply H. now right. }
  destruct (p x) eqn:Ep.
  - rewrite (H x (or_introl eq_refl) Ep). simpl. lia.
  - destruct (q x); simpl; lia.
Qed.

(** A day that holds a duplicated row holds at least two of them. *)
Lemma dup_day_count_ge_2 (df : list event) (d : Z) :
  (0 < day_count d (filter (dup_mask df) df))%Z ->
  (2 <= day_count d (filter (dup_mask df) df))%Z.
Proof.
  intros H. apply day_count_pos in H. destruct H as (e & He & Hd).
  apply filter_In in He. destruct He as [He Hm].
  unfold dup_mask in Hm. apply Nat.leb_le in Hm.
  unfold day_count. rewrite filter_filter_length.
  assert (Hle : (length (filter (same_key e) df)
                 <= length (filter (fun x => on_day d x && dup_mask df x) df))%nat).
  { apply filter_length_le. intros x Hx Hk.
    apply andb_true_iff. split.
    - unfold on_day. apply Z.eqb_eq. rewrite <- (same_key_date e x Hk).
      exact Hd.
    - rewrite (dup_mask_same_key df e x Hk). unfold dup_mask.
      now apply Nat.leb_le. }
  lia.
Qed.

(** X7.  The count of duplicate events of a day is never 1: it is 0 or at least
    2, and at most the number of events of the day. *)
Theorem duplicate_events_never_one
    (es : list event) (rows : list row) (r : row)
    (Hret : quality_checks es = Returned rows) (Hin : In r rows) :
  (q_duplicate_events r = 0%Z \/ (2 <= q_duplicate_events r)%Z)
  /\ (q_duplicate_events r <= day_count (q_date r) es)%Z.
Proof.
  rewrite (quality_checks_row es rows r Hret Hin).
  rewrite q_date_build_row. set (d := q_date r).
  rewrite q_duplicate_events_count. split.
  - pose proof (day_count_nonneg d (filter (dup_mask es) es)).
    destruct (Z.ltb_spec 0 (day_count d (filter (dup_mask es) es))) as [H'|H'].
    + right. now apply dup_day_count_ge_2.
    + left. lia.
  - apply day_count_filter_le.
Qed.

Lemma duplicate_events_never_one_witness :
  quality_checks duplicated_session
  = Returned [build_row duplicated_session 0]
  /\ In (build_row duplicated_session 0) [build_row duplicated_session 0]
  /\ (q_duplicate_events (build_row duplicated_session 0) = 0%Z
      \/ (2 <= q_duplicate_events (build_row duplicated_session 0))%Z).
Proof.
  split; [reflexivity|]. split; [left; reflexivity|].
  exact (proj1 (duplicate_events_never_one duplicated_session
                  [build_row duplicated_session 0]
                  (build_row duplicated_session 0)
                  eq_refl (or_introl eq_refl))).
Defined.

(** X8.  On a day with duplicate events the uniqueness score is
    np.exp(-count / (baseline + 1)) with the baseline the median of the
    counts of the last seven days that have duplicates, the day included.
    The baseline is at least 2 and the score lies in [0, 1].  With
    x = count / (baseline + 1): up to x = 700 the score is exp(-x), up to
    x = 740 it is positive, and from x = 746 on the exponential underflows
    and the score is exactly 0. *)
Theorem uniqueness_on_duplicate_days
    (es : list event) (rows : list row) (r : row)
    (Hret : quality_checks es = Returned rows) (Hin : In r rows)
    (Hdup : (0 < q_duplicate_events r)%Z) :
  exists b,
    median (recent_counts (filter (dup_mask es) es) (q_date r)) = Some b
    /\ 2 <= b
    /\ q_score_uniqueness r
       = np_exp (- (IZR (q_duplicate_events r) / (b + 1)))
    /\ 0 <= q_score_uniqueness r <= 1
    /\ (IZR (q_duplicate_events r) / (b + 1) <= 700 ->
        q_score_uniqueness r = exp (- (IZR (q_duplicate_events r) / (b + 1))))
    /\ (IZR (q_duplicate_events r) / (b + 1) <= 740 ->
        0 < q_score_uniqueness r)
    /\ (746 <= IZR (q_duplicate_events r) / (b + 1) ->
        q_score_uniqueness r = 0).
Proof.
  rewrite (quality_checks_row es rows r Hret Hin) in *.
  rewrite q_date_build_row. set (d := q_date r) in *.
  rewrite q_duplicate_events_count in *.
  destruct (q_score_uniqueness_present es d Hdup) as (b & Hb & _ & Hs).
  assert (Hb2 : 2 <= b).
  { apply (median_lower_bound 2 _ _) in Hb; [exact Hb|].
    unfold recent_counts. apply Forall_forall. intros x Hx.
    apply in_map_iff in Hx. destruct Hx as (k & <- & Hk).
    apply lastn_incl, In_days_upto in Hk.
    apply dup_day_count_ge_2. lia. }
  exists b. split; [exact Hb|]. split; [exact Hb2|]. split; [exact Hs|].
  rewrite Hs.
  set (x := IZR (day_count d (filter (dup_mask es) es)) / (b + 1)).
  assert (Hx0 : 0 < x).
  { apply Rdiv_lt_0_compat; [apply IZR_lt; lia | lra]. }
  split; [apply np_exp_range; lra|].
  split; [|split].
  - intros Hx. apply np_exp_no_underflow. lra.
  - intros Hx. now apply np_exp_no_underflow.
  - intros Hx. now apply np_exp_underflow.
Qed.

Lemma uniqueness_on_duplicate_days_witness :
  quality_checks duplicated_session
  = Returned [build_row duplicated_session 0]
  /\ In (build_row duplicated_session 0) [build_row duplicated_session 0]
  /\ (0 < q_duplicate_events (build_row duplicated_session 0))%Z
  /\ exists b,
       median (recent_counts
                 (filter (dup_mask duplicated_session) duplicated_session)
                 (q_date (build_row duplicated_session 0))) = Some b
       /\ 2 <= b.
Proof.
  assert (Hd : (0 < q_duplicate_events (build_row duplicated_session 0))%Z)
    by reflexivity.
  split; [reflexivity|]. split; [left; reflexivity|]. split; [exact Hd|].
  destruct (uniqueness_on_duplicate_days duplicated_session
              [build_row duplicated_session 0]
              (build_row duplicated_session 0)
              eq_refl (or_introl eq_refl) Hd) as (b & Hb & Hb2 & _).
  exists b. split; [exact Hb | exact Hb2].
Defined.

(** ** Totals of the daily counts *)

Lemma sum_Z_map_add {A : Type} (f g : A -> Z) (l : list A) :
  sum_Z (map (fun x => (f x + g x)%Z) l)
  = (sum_Z (map f l) + sum_Z (map g l))%Z.
Proof. induction l as [|x t IH]; simpl; lia. Qed.

Lemma sum_indicator_absent (x : Z) (ds : list Z) :
  ~ In x ds -> sum_Z (map (fun d => if (x =? d)%Z then 1%Z else 0%Z) ds) = 0%Z.
Proof.
  induction ds as [|d t IH]; simpl; intros H; [reflexivity|].
  destruct (Z.eqb_spec x d) as [->|]; [tauto|]. rewrite IH; tauto.
Qed.

Lemma sum_indicator_present (x : Z) (ds : list Z) :
  NoDup ds -> In x ds ->
  sum_Z (map (fun d => if (x =? d)%Z then 1%Z else 0%Z) ds) = 1%Z.
Proof.
  induction 1 as [|d t Hd Hnd IH]; simpl; intros Hin; [destruct Hin|].
  destruct (Z.eqb_spec x d) as [->|Hne].
  - rewrite sum_indicator_absent; [reflexivity | exact Hd].
  - destruct Hin as [E|Hin]; [congruence|]. now rewrite IH.
Qed.

Lemma sum_day_count (l : list event) (ds : list Z) :
  NoDup ds -> (forall e, In e l -> In (date e) ds) ->
  sum_Z (map (fun d => day_count d l) ds) = Z.of_nat (length l).
Proof.
  intros Hnd. induction l as [|e t IH]; intros Hin.
  - clear Hnd Hin. induction ds as [|d ds' IHd]; simpl; [reflexivity|].
    now rewrite IHd.
  - rewrite (map_ext (fun d => day_count d (e :: t))
               (fun d => ((if (date e =? d)%Z then 1 else 0)
                          + day_count d t)%Z)).
    + rewrite sum_Z_map_add, IH by (intros e' He'; apply Hin; now right).
      rewrite sum_indicator_present;
        [simpl length; lia | exact Hnd | apply Hin; now left].
    + intros d. unfold day_count, on_day. simpl.
      destruct (date e =? d)%Z; simpl length; lia.
Qed.

(** X9.  The daily counts add up to the numbers of events of the table: over
    the rows of the output, [purchase_events] sums to the number of
    purchase-type events, [session_events] to the number of session events,
    [duplicate_events] to the number of rows marked as duplicates and
    [neg_amount_events] to the number of purchase-type events with a
    negative amount. *)
Theorem daily_counts_add_up (es : list event) (rows : list row)
    (Hret : quality_checks es = Returned rows) :
  sum_Z (map q_purchase_events rows) = Z.of_nat (length (purch es))
  /\ sum_Z (map q_session_events rows)
     = Z.of_nat (length (filter (name_is session_start) es))
  /\ sum_Z (map q_duplicate_events rows)
     = Z.of_nat (length (filter (dup_mask es) es))
  /\ sum_Z (map q_neg_amount_events rows)
     = Z.of_nat (length (filter amount_negative (purch es))).
Proof.
  destruct (quality_checks_returned es rows Hret) as (lo & hi & Hlo & Hhi & ->).
  destruct (min_date_spec es lo Hlo) as [Hmin _].
  destruct (max_date_spec es hi Hhi) as [Hmax _].
  assert (Hrange : forall p e, In e (filter p es) ->
                               In (date e) (date_range lo hi)).
  { intros p e He. apply filter_In in He. destruct He as [He _].
    apply In_date_range. split; auto. }
  rewrite !map_map.
  rewrite (map_ext _ _ (q_purchase_events_count es)),
    (map_ext _ _ (q_session_events_count es)),
    (map_ext _ _ (q_duplicate_events_count es)),
    (map_ext _ _ (q_neg_amount_events_count es)).
  repeat split; apply sum_day_count; try apply NoDup_date_range;
    try apply Hrange.
  intros e He. apply filter_In in He. destruct He as [He _].
  now apply (Hrange isin_purchase).
Qed.

Lemma daily_counts_add_up_witness :
  quality_checks sessions_with_gap
  = Returned (map (build_row sessions_with_gap) (date_range 0 2))
  /\ sum_Z (map q_session_events
                (map (build_row sessions_with_gap) (date_range 0 2)))
     = Z.of_nat (length (filter (name_is session_start) sessions_with_gap)).
Proof.
  split; [reflexivity|].
  exact (proj1 (proj2 (daily_counts_add_up sessions_with_gap
                         (map (build_row sessions_with_gap) (date_range 0 2))
                         eq_refl))).
Defined.

(** ** Completeness on record days *)

Lemma median_upper_bound (c : Z) (win : list Z) (m : R) :
  Forall (fun x => (x <= c)%Z) win -> median win = Some m -> m <= IZR c.
Proof.
  intros Hall Hm. destruct win as [|x t]; [discriminate|].
  unfold median in Hm.
  set (s := sort_values (x :: t)) in *.
  assert (Hlen : (0 < length s)%nat).
  { unfold s. rewrite length_sort_values. simpl. lia. }
  assert (Hnth : forall i, (i < length s)%nat -> IZR (nth i s 0%Z) <= IZR c).
  { intros i Hi. apply IZR_le. rewrite Forall_forall in Hall. apply Hall.
    apply In_sort_values. fold s. now apply nth_In. }
  assert (H2 : (length s / 2 < length s)%nat) by (apply Nat.div_lt; lia).
  assert (H1 : (length s / 2 - 1 < length s)%nat) by lia.
  pose proof (Hnth _ H1). pose proof (Hnth _ H2).
  destruct (Nat.even (length s)); injection Hm as <-;
    change (fst (Nat.divmod (length s) 1 0 1)) with (length s / 2)%nat; lra.
Qed.

Lemma row_of_event_day (es : list event) (rows : list row) (e : event) :
  quality_checks es = Returned rows -> In e es ->
  In (build_row es (date e)) rows.
Proof.
  intros Hret He.
  destruct (quality_checks_returned es rows Hret) as (lo & hi & Hlo & Hhi & ->).
  destruct (min_date_spec es lo Hlo) as [Hmin _].
  destruct (max_date_spec es hi Hhi) as [Hmax _].
  apply in_map, In_date_range. split; auto.
Qed.

(** X10.  A day with purchase-type events whose count is at least that of every
    earlier day of the output scores the completeness 1; so does, in
    particular, the first day that has purchase-type events. *)
Theorem completeness_full_on_record_day
    (es : list event) (rows : list row) (r : row)
    (Hret : quality_checks es = Returned rows) (Hin : In r rows)
    (Hpos : (0 < q_purchase_events r)%Z)
    (Hrec : forall r', In r' rows -> (q_date r' < q_date r)%Z ->
                       (q_purchase_events r' <= q_purchase_events r)%Z) :
  q_score_completeness r = 1.
Proof.
  rewrite (quality_checks_row es rows r Hret Hin) in *.
  rewrite q_date_build_row in Hrec. set (d := q_date r) in *.
  rewrite q_purchase_events_count in *.
  destruct (q_score_completeness_present es d Hpos) as (b & Hb & Hb1 & ->).
  assert (Hle : b <= IZR (day_count d (purch es))).
  { apply (median_upper_bound (day_count d (purch es))) in Hb; [exact Hb|].
    unfold recent_counts. apply Forall_forall. intros x Hx.
    apply in_map_iff in Hx. destruct Hx as (k & <- & Hk).
    apply lastn_incl, In_days_upto in Hk. destruct Hk as [Hkd Hk].
    destruct (Z.eq_dec k d) as [->|Hne]; [lia|].
    apply day_count_pos in Hk. destruct Hk as (e & He & <-).
    apply filter_In in He. destruct He as [He _].
    pose proof (row_of_event_day es rows e Hret He) as Hrow.
    specialize (Hrec _ Hrow).
    rewrite q_date_build_row, q_purchase_events_count in Hrec.
    apply Hrec. lia. }
  assert (Hi : 0 < / b) by (apply Rinv_0_lt_compat; lra).
  assert (Hbi : b * / b = 1) by (apply Rinv_r; lra).
  assert (Hge : 1 <= IZR (day_count d (purch es)) / b)
    by (unfold Rdiv; nra).
  unfold Rmin, Rmax.
  destruct (Rle_dec 0 _); destruct (Rle_dec 1 _); lra.
Qed.

Lemma completeness_full_on_record_day_witness :
  quality_checks purchases_with_gap
  = Returned (map (build_row purchases_with_gap) (date_range 0 8))
  /\ In (build_row purchases_with_gap 0)
        (map (build_row purchases_with_gap) (date_range 0 8))
  /\ (0 < q_purchase_events (build_row purchases_with_gap 0))%Z
  /\ q_score_completeness (build_row purchases_with_gap 0) = 1.
Proof.
  assert (Hp : (0 < q_purchase_events (build_row purchases_with_gap 0))%Z)
    by reflexivity.
  assert (Hrec : forall r',
             In r' (map (build_row purchases_with_gap) (date_range 0 8)) ->
             (q_date r' < q_date (build_row purchases_with_gap 0))%Z ->
             (q_purchase_events r'
              <= q_purchase_events (build_row purchases_with_gap 0))%Z).
  { intros r' Hr' Hlt. apply in_map_iff in Hr'.
    destruct Hr' as (k & <- & Hk). apply In_date_range in Hk.
    rewrite !q_date_build_row in Hlt. lia. }
  split; [reflexivity|]. split; [left; reflexivity|]. split; [exact Hp|].
  exact (completeness_full_on_record_day purchases_with_gap
           (map (build_row purchases_with_gap) (date_range 0 8))
           (build_row purchases_with_gap 0) eq_refl
           (or_introl eq_refl) Hp Hrec).
Defined.

(** ** How far a daily count can lie from the mean *)

Lemma sum_R_app (l1 l2 : list R) : sum_R (l1 ++ l2) = sum_R l1 + sum_R l2.
Proof. induction l1 as [|x t IH]; simpl; [lra | rewrite IH; lra]. Qed.

Lemma sum_R_squares_nonneg (l : list R) :
  0 <= sum_R (map (fun a => a * a) l).
Proof. induction l as [|x t IH]; simpl; [lra | nra]. Qed.

Lemma sum_R_squares_of_nonneg {A : Type} (f : A -> R) (l : list A) :
  0 <= sum_R (map (fun v => f v * f v) l).
Proof. induction l as [|x t IH]; simpl; [lra | nra]. Qed.

Lemma sum_R_cauchy_schwarz (l : list R) :
  sum_R l * sum_R l <= INR (length l) * sum_R (map (fun a => a * a) l).
Proof.
  induction l as [|x t IH]; [simpl; lra|].
  change (length (x :: t)) with (S (length t)). rewrite S_INR. simpl.
  pose proof (sum_R_squares_nonneg t) as Hq.
  pose proof (pos_INR (length t)) as Hk.
  set (k := INR (length t)) in *. set (s := sum_R t) in *.
  set (q := sum_R (map (fun a => a * a) t)) in *.
  destruct Hk as [Hk|Hk].
  - assert (H : 2 * x * s <= k * (x * x) + q).
    { apply (Rmult_le_reg_l k); [exact Hk|].
      pose proof (Rle_0_sqr (k * x - s)) as Hsq. unfold Rsqr in Hsq. nra. }
    nra.
  - rewrite <- Hk in *. assert (s = 0) by nra. nra.
Qed.

Lemma sum_R_shift {A : Type} (f : A -> R) (m : R) (l : list A) :
  sum_R (map (fun x => f x - m) l) = sum_R (map f l) - INR (length l) * m.
Proof.
  induction l as [|x t IH]; [simpl; lra|].
  change (length (x :: t)) with (S (length t)). rewrite S_INR. simpl.
  rewrite IH. lra.
Qed.

(** Among numbers that sum to 0, none has a square above the share
    (n - 1) / n of the sum of the squares. *)
Lemma square_of_one_deviation (l : list R) (a : R) :
  In a l -> sum_R l = 0 ->
  INR (length l) * (a * a)
  <= (INR (length l) - 1) * sum_R (map (fun x => x * x) l).
Proof.
  intros Hin Hsum. apply in_split in Hin. destruct Hin as (l1 & l2 & ->).
  rewrite sum_R_app in Hsum. simpl in Hsum.
  rewrite map_app, sum_R_app, length_app. simpl.
  rewrite Nat.add_succ_r, S_INR, <- length_app.
  pose proof (sum_R_cauchy_schwarz (l1 ++ l2)) as Hcs.
  rewrite sum_R_app, map_app, sum_R_app in Hcs.
  pose proof (pos_INR (length (l1 ++ l2))) as Hk.
  set (k := INR (length (l1 ++ l2))) in *.
  set (q1 := sum_R (map (fun x => x * x) l1)) in *.
  set (q2 := sum_R (map (fun x => x * x) l2)) in *.
  assert (Ha : a * a <= k * (q1 + q2)).
  { replace (a * a) with ((sum_R l1 + sum_R l2) * (sum_R l1 + sum_R l2));
      [exact Hcs | nra]. }
  nra.
Qed.

Lemma mean_deviations_sum (s : Series Z) :
  s <> [] -> sum_R (map (fun x => IZR x - mean s) (values s)) = 0.
Proof.
  intros Hne. rewrite (sum_R_shift IZR). unfold mean, values.
  rewrite length_map.
  assert (Hn : INR (length s) <> 0).
  { apply not_0_INR. destruct s; [congruence | discriminate]. }
  field. exact Hn.
Qed.

Lemma deviation_square_bound (s : Series Z) (x : Z) :
  In x (values s) ->
  INR (length s) * ((IZR x - mean s) * (IZR x - mean s))
  <= (INR (length s) - 1)
     * sum_R (map (fun v => (IZR v - mean s) * (IZR v - mean s)) (values s)).
Proof.
  intros Hin.
  assert (Hne : s <> []) by (destruct s; [destruct Hin | discriminate]).
  pose proof (square_of_one_deviation
                (map (fun v => IZR v - mean s) (values s))
                (IZR x - mean s)) as H.
  rewrite map_map, length_map in H.
  replace (length (values s)) with (length s) in H
    by (unfold values; now rewrite length_map).
  apply H.
  - apply in_map_iff. exists x. auto.
  - now apply mean_deviations_sum.
Qed.

(** The square of a z-score of the session series is at most the number of
    its days minus one. *)
Lemma z_of_square_bound (df : list event) (x : Z) :
  In x (values (sessions df)) ->
  z_of df x * z_of df x <= INR (length (sessions df)) - 1.
Proof.
  intros Hin. pose proof (deviation_square_bound _ _ Hin) as Hdev.
  unfold z_of, std.
  set (s := sessions df) in *. set (a := IZR x - mean s) in *.
  set (q := sum_R (map (fun v => (IZR v - mean s) * (IZR v - mean s))
                       (values s))) in *.
  assert (Hq : 0 <= q)
    by apply (sum_R_squares_of_nonneg (fun v => IZR v - mean s)).
  assert (Hn : 1 <= INR (length s)).
  { destruct s as [|p t]; [destruct Hin|].
    change (length (p :: t)) with (S (length t)). rewrite S_INR.
    pose proof (pos_INR (length t)). lra. }
  set (n := INR (length s)) in *.
  assert (Hi : 0 < / n) by (apply Rinv_0_lt_compat; lra).
  assert (Hni : n * / n = 1) by (apply Rinv_r; lra).
  assert (Hvar : 0 <= q / n) by (unfold Rdiv; nra).
  destruct (Req_dec_T (sqrt (q / n)) 0) as [E|E].
  - apply sqrt_eq_0 in E; [|exact Hvar].
    assert (q = 0) by (unfold Rdiv in E; nra).
    assert (a * a = 0) by nra.
    replace (a / 1.0) with a by lra. lra.
  - pose proof (sqrt_sqrt (q / n) Hvar) as Hss.
    set (sd := sqrt (q / n)) in *.
    assert (Hv : 0 < q / n).
    { destruct Hvar as [Hv|Hv]; [exact Hv|].
      rewrite <- Hv in Hss. destruct E. nra. }
    assert (Hsi : 0 < / (sd * sd))
      by (apply Rinv_0_lt_compat; rewrite Hss; exact Hv).
    assert (Hsdi : sd * sd * / (sd * sd) = 1) by (apply Rinv_r; lra).
    replace (a / sd * (a / sd)) with (a * a * / (sd * sd))
      by (field; exact E).
    assert (Hle : a * a <= (n - 1) * (sd * sd)).
    { rewrite Hss. unfold Rdiv. nra. }
    nra.
Qed.

(** X11.  When at most eight days have session events no day is flagged as a
    volume anomaly, and every day with session events has the volume score
    1.00: the z-score of one of n values is at most the square root of
    n - 1 in absolute value, below 2.8 up to n = 8. *)
Theorem few_session_days_never_flagged
    (es : list event) (rows : list row) (r : row)
    (Hret : quality_checks es = Returned rows) (Hin : In r rows)
    (Hfew : (length (sessions es) <= 8)%nat) :
  q_volume_anomaly_flag r = 0%Z
  /\ ((0 < q_session_events r)%Z -> q_score_volume r = 1.00).
Proof.
  rewrite (quality_checks_row es rows r Hret Hin).
  set (d := q_date r). rewrite q_session_events_count.
  pose proof (day_count_nonneg d (filter (name_is session_start) es)) as Hnn.
  destruct (Z.ltb_spec 0 (day_count d (filter (name_is session_start) es)))
    as [H|H].
  - destruct (q_volume_present es d H) as [-> ->].
    set (x := day_count d (filter (name_is session_start) es)) in *.
    assert (Hx : In x (values (sessions es))).
    { assert (Hl : lookup d (sessions es) = Some x)
        by (apply lookup_sessions; auto).
      apply lookup_In in Hl. unfold values.
      apply in_map_iff. exists (d, x). auto. }
    pose proof (z_of_square_bound es x Hx) as Hz.
    assert (Hn : INR (length (sessions es)) <= 8).
    { apply le_INR in Hfew. simpl in Hfew. lra. }
    assert (Hno : Rltb 2.8 (Rabs (z_of es x)) = false).
    { apply Rltb_false. intros Hlt.
      assert (Hsq : 2.8 * 2.8 < Rabs (z_of es x) * Rabs (z_of es x)) by nra.
      assert (Habs : Rabs (z_of es x) * Rabs (z_of es x)
                     = z_of es x * z_of es x).
      { unfold Rabs. destruct (Rcase_abs _); lra. }
      lra. }
    rewrite Hno. auto.
  - assert (H0 : day_count d (filter (name_is session_start) es) = 0%Z)
      by lia.
    destruct (q_volume_absent es d H0) as [-> _]. split; [reflexivity | lia].
Qed.

Lemma few_session_days_never_flagged_witness :
  quality_checks sessions_with_gap
  = Returned (map (build_row sessions_with_gap) (date_range 0 2))
  /\ In (build_row sessions_with_gap 0)
        (map (build_row sessions_with_gap) (date_range 0 2))
  /\ (length (sessions sessions_with_gap) <= 8)%nat
  /\ q_volume_anomaly_flag (build_row sessions_with_gap 0) = 0%Z.
Proof.
  assert (Hfew : (length (sessions sessions_with_gap) <= 8)%nat)
    by (vm_compute; lia).
  split; [reflexivity|]. split; [left; reflexivity|]. split; [exact Hfew|].
  exact (proj1 (few_session_days_never_flagged sessions_with_gap
                  (map (build_row sessions_with_gap) (date_range 0 2))
                  (build_row sessions_with_gap 0) eq_refl
                  (or_introl eq_refl) Hfew)).
Defined.


(** * Properties of the consumers in src/viz.py *)

(** ** The tag a plot shows *)

(** X14.  The tag the plots annotate a day of the output with is the first tag of
    its reason in the order of the rules. *)
Theorem primary_reason_is_first_tag
    (es : list event) (rows : list row) (r : row)
    (Hret : quality_checks es = Returned rows) (Hin : In r rows) :
  _primary_reason (Some (q_reason r)) = hd "ok"%string (applicable_tags r).
Proof.
  rewrite (quality_checks_row es rows r Hret Hin).
  rewrite q_reason_build_row.
  unfold applicable_tags, tag_rules.
  destruct (Rltb (q_score_completeness _) _), (Rltb (q_score_schema _) _),
    (Rltb (q_score_volume _) _), (0 <? q_duplicate_events _)%Z,
    (Rltb (q_score_validity _) _); vm_compute; reflexivity.
Qed.

Lemma primary_reason_is_first_tag_witness :
  quality_checks duplicated_session
  = Returned [build_row duplicated_session 0]
  /\ In (build_row duplicated_session 0) [build_row duplicated_session 0]
  /\ _primary_reason (Some (q_reason (build_row duplicated_session 0)))
     = hd "ok"%string (applicable_tags (build_row duplicated_session 0)).
Proof.
  split; [reflexivity|]. split; [left; reflexivity|].
  exact (primary_reason_is_first_tag duplicated_session
           [build_row duplicated_session 0] (build_row duplicated_session 0)
           eq_refl (or_introl eq_refl)).
Defined.

Lemma lstrip_idempotent (s : string) : lstrip (lstrip s) = lstrip s.
Proof.
  induction s as [|c t IH]; simpl; [reflexivity|].
  destruct (is_space c) eqn:E; [exact IH|]. simpl. now rewrite E.
Qed.

Lemma rstrip_idempotent (s : string) : rstrip (rstrip s) = rstrip s.
Proof.
  induction s as [|c t IH]; simpl; [reflexivity|].
  destruct (rstrip t) as [|c' t'] eqn:E.
  - destruct (is_space c) eqn:Ec; simpl; [reflexivity|]. now rewrite Ec.
  - change (rstrip (String c (String c' t')))
      with (match rstrip (String c' t') with
            | EmptyString =>
                if is_space c then EmptyString else String c EmptyString
            | String a b => String c (String a b)
            end).
    now rewrite IH.
Qed.

Lemma lstrip_rstrip_clean (s : string) :
  lstrip s = s -> lstrip (rstrip s) = rstrip s.
Proof.
  destruct s as [|c t]; [reflexivity|]. simpl.
  destruct (is_space c) eqn:E.
  - intros H. exfalso.
    assert (Hl : forall u, (String.length (lstrip u) <= String.length u)%nat).
    { induction u as [|a u IHu]; simpl; [lia|].
      destruct (is_space a); simpl; lia. }
    specialize (Hl t). rewrite H in Hl. simpl in Hl. lia.
  - intros _. destruct (rstrip t); simpl; now rewrite E.
Qed.

Lemma strip_clean (s : string) :
  lstrip (strip s) = strip s /\ rstrip (strip s) = strip s.
Proof.
  unfold strip. split.
  - apply lstrip_rstrip_clean, lstrip_idempotent.
  - apply rstrip_idempotent.
Qed.

Lemma lstrip_chars (s : string) (a : ascii) :
  In a (list_ascii_of_string (lstrip s)) -> In a (list_ascii_of_string s).
Proof.
  induction s as [|c t IH]; simpl; [tauto|].
  destruct (is_space c); simpl; auto.
Qed.

Lemma rstrip_chars (s : string) (a : ascii) :
  In a (list_ascii_of_string (rstrip s)) -> In a (list_ascii_of_string s).
Proof.
  induction s as [|c t IH]; simpl; [tauto|].
  destruct (rstrip t) as [|c' t'].
  - destruct (is_space c); simpl; tauto.
  - simpl in *. intros [H|H]; auto.
Qed.

Lemma before_comma_chars (s : string) :
  ~ In ","%char (list_ascii_of_string (before_comma s)).
Proof.
  induction s as [|c t IH]; simpl; [tauto|].
  destruct (Ascii.eqb_spec c ","%char); simpl; [tauto|].
  intros [H|H]; auto.
Qed.

(** X15.  Whatever it is given, [_primary_reason] returns a single tag: a string
    without a comma and without white space at either end; for a value that
    is not a string, an empty or a blank string it returns "ok". *)
Theorem primary_reason_is_one_clean_tag (reason : option string) :
  ~ In ","%char (list_ascii_of_string (_primary_reason reason))
  /\ lstrip (_primary_reason reason) = _primary_reason reason
  /\ rstrip (_primary_reason reason) = _primary_reason reason
  /\ (reason = None -> _primary_reason reason = "ok"%string)
  /\ (forall s, reason = Some s -> strip s = ""%string ->
                _primary_reason reason = "ok"%string).
Proof.
  assert (Hc : ~ In ","%char (list_ascii_of_string "ok")).
  { simpl. intros [H|[H|[]]]; discriminate. }
  assert (Hok : forall o : option string,
             ~ In ","%char (list_ascii_of_string "ok")
             /\ lstrip "ok" = "ok"%string
             /\ rstrip "ok" = "ok"%string
             /\ (o = None -> "ok"%string = "ok"%string)
             /\ (forall s, o = Some s -> strip s = ""%string ->
                           "ok"%string = "ok"%string)).
  { intros o. split; [exact Hc|]. split; [reflexivity|].
    split; [reflexivity|]. split; reflexivity. }
  destruct reason as [s|]; simpl.
  - destruct (String.eqb (strip s) "") eqn:E1; [apply Hok|].
    destruct (String.eqb (strip s) "ok") eqn:E2; [apply Hok|].
    destruct (strip_clean (before_comma s)) as [Hl Hr].
    split; [|split; [exact Hl|split; [exact Hr|split]]].
    + intros H. unfold strip in H.
      apply rstrip_chars, lstrip_chars in H.
      now apply before_comma_chars in H.
    + discriminate.
    + intros s' Hs' Hb. injection Hs' as <-.
      rewrite Hb in E1. discriminate.
  - apply Hok.
Qed.

(** ** The heat map *)

Lemma clip_column_unchanged (c : row -> R) (rows : list row) :
  (forall r, In r rows -> 0 <= c r <= 1) ->
  map (fun r => clip 0 1 (Some (c r))) rows = map (fun r => Some (c r)) rows.
Proof.
  intros H. apply map_ext_in. intros r Hr. simpl. f_equal.
  apply clamp_inside. now apply H.
Qed.

(** X16.  On an output of [quality_checks] the clip of the heat map changes no
    score: the matrix has the five score columns as they are, one cell per
    day. *)
Theorem heatmap_clip_changes_nothing (es : list event) (rows : list row)
    (Hret : quality_checks es = Returned rows) :
  heatmap_matrix rows
  = map (fun c => map (fun r => Some (c r)) rows) heatmap_columns
  /\ length (heatmap_matrix rows) = 5%nat
  /\ forall line, In line (heatmap_matrix rows) -> length line = length rows.
Proof.
  split; [|split].
  - unfold heatmap_matrix, heatmap_columns. cbn [map].
    assert (H : forall r, In r rows ->
                  0 <= q_score_completeness r <= 1
                  /\ 0 <= q_score_schema r <= 1
                  /\ 0 <= q_score_uniqueness r <= 1
                  /\ 0 <= q_score_volume r <= 1
                  /\ 0 <= q_score_validity r <= 1).
    { intros r Hr. rewrite (quality_checks_row es rows r Hret Hr).
      pose proof (q_score_validity_zero es (q_date r)) as Hz.
      rewrite Hz.
      repeat split;
        try apply q_score_completeness_range;
        try apply q_score_schema_range;
        try apply q_score_uniqueness_range;
        try apply q_score_volume_range; lra. }
    rewrite !(clip_column_unchanged _ rows); try reflexivity;
      intros r Hr; apply (H r Hr).
  - reflexivity.
  - unfold heatmap_matrix. intros line Hl. apply in_map_iff in Hl.
    destruct Hl as (c & <- & _). apply length_map.
Qed.

Lemma heatmap_clip_changes_nothing_witness :
  quality_checks one_purchase = Returned [build_row one_purchase 0]
  /\ length (heatmap_matrix [build_row one_purchase 0]) = 5%nat.
Proof.
  split; [reflexivity|].
  exact (proj1 (proj2 (heatmap_clip_changes_nothing one_purchase
                         [build_row one_purchase 0] eq_refl))).
Defined.

(** ** The corrected conversion *)

Lemma completeness_divisor_cases (score : R) :
  completeness_divisor (Some score) = clip 0.35 1.0 (Some score)
  /\ exists k, completeness_divisor (Some score) = Some k
               /\ 0.35 <= k <= 1
               /\ k = Rmin 1 (Rmax 0.35 score)
               /\ (score <= 0.35 -> k = 0.35)
               /\ (0.35 <= score <= 1 -> k = score).
Proof.
  unfold completeness_divisor, replace_value, clip.
  assert (H : 0.35 <= Rmin 1.0 (Rmax 0.35 score) <= 1
              /\ Rmin 1.0 (Rmax 0.35 score) = Rmin 1 (Rmax 0.35 score)
              /\ (score <= 0.35 -> Rmin 1.0 (Rmax 0.35 score) = 0.35)
              /\ (0.35 <= score <= 1 -> Rmin 1.0 (Rmax 0.35 score) = score)).
  { unfold Rmin, Rmax.
    destruct (Rle_dec 0.35 score); destruct (Rle_dec 1.0 _);
      destruct (Rle_dec 1 _); repeat split; intros; lra. }
  destruct (Req_dec_T (Rmin 1.0 (Rmax 0.35 score)) 0) as [E|E]; [lra|].
  split; [reflexivity|]. eexists. split; [reflexivity | exact H].
Qed.

(** X17.  The divisor of the corrected conversion lies in [0.35, 1]: it is the
    completeness score raised to 0.35 and cut at 1.  The clip already
    excludes 0, so the replacement of 0 by 0.35 never changes a value, and
    the division that follows is never by zero. *)
Theorem completeness_divisor_range (score : R) :
  completeness_divisor (Some score) = clip 0.35 1.0 (Some score)
  /\ exists k, completeness_divisor (Some score) = Some k
               /\ 0.35 <= k <= 1
               /\ k = Rmin 1 (Rmax 0.35 score)
               /\ (score <= 0.35 -> k = 0.35)
               /\ (0.35 <= score <= 1 -> k = score).
Proof. exact (completeness_divisor_cases score). Qed.

(** X18.  The corrected conversion of a day lies in [0, 1]; for a reported rate
    in [0, 1] it is never below the reported rate, it equals it when the
    day is complete, and it is at most the reported rate divided by
    0.35. *)
Theorem conversion_corrected_range (rate score : R) :
  exists v,
    conversion_corrected (Some rate) (Some score) = Some v
    /\ 0 <= v <= 1
    /\ (0 <= rate <= 1 -> rate <= v)
    /\ (0 <= rate <= 1 -> 1 <= score -> v = rate)
    /\ (0 <= rate -> v <= rate / 0.35).
Proof.
  destruct (completeness_divisor_cases score) as (_ & k & Hk & Hr & _ & _ & Hc).
  unfold conversion_corrected. rewrite Hk. simpl.
  eexists. split; [reflexivity|].
  assert (Hi : 0 < / k) by (apply Rinv_0_lt_compat; lra).
  assert (Hki : k * / k = 1) by (apply Rinv_r; lra).
  assert (H1 : 1 <= / k) by nra.
  assert (H2 : / k <= / 0.35) by (apply Rinv_le_contravar; lra).
  split; [apply clamp_range|]. split; [|split].
  - intros Hrate. unfold Rdiv, Rmin, Rmax.
    destruct (Rle_dec 0 _); destruct (Rle_dec 1 _); nra.
  - intros Hrate Hs.
    assert (Hk1 : k = 1).
    { destruct (completeness_divisor_cases score)
        as (_ & k' & Hk' & _ & Hm & _).
      rewrite Hk in Hk'. injection Hk' as <-. rewrite Hm.
      unfold Rmin, Rmax.
      destruct (Rle_dec 0.35 score); destruct (Rle_dec 1 _); lra. }
    rewrite Hk1. replace (rate / 1) with rate by lra.
    now apply clamp_inside.
  - intros Hrate. unfold Rdiv, Rmin, Rmax.
    destruct (Rle_dec 0 _); destruct (Rle_dec 1 _); nra.
Qed.


(** * Properties of [compute_daily_kpis] *)

(** ** Indexes *)

Lemma fold_insert_key_sorted (ks base : list Z) :
  StronglySorted Z.lt base -> StronglySorted Z.lt (fold_right insert_key base ks).
Proof.
  intros H. induction ks as [|k t IH]; simpl; [exact H|].
  now apply insert_key_sorted.
Qed.

Lemma concat_index_sorted (idxs : list (list Z)) :
  StronglySorted Z.lt (concat_index idxs).
Proof.
  induction idxs as [|idx t IH]; simpl; [constructor|].
  now apply fold_insert_key_sorted.
Qed.

Lemma In_concat_index (idxs : list (list Z)) (d : Z) :
  In d (concat_index idxs) <-> exists idx, In idx idxs /\ In d idx.
Proof.
  induction idxs as [|idx t IH]; simpl.
  - split; [tauto | intros (idx & [] & _)].
  - rewrite In_fold_insert_key, IH. split.
    + intros [H|(idx' & H1 & H2)]; [exists idx | exists idx']; auto.
    + intros (idx' & [<-|H1] & H2); [left | right; exists idx']; auto.
Qed.

Lemma sorted_NoDup (l : list Z) : StronglySorted Z.lt l -> NoDup l.
Proof.
  induction 1 as [|a l Hs IH Ha]; constructor; [|exact IH].
  intros Hin. rewrite Forall_forall in Ha. specialize (Ha a Hin). lia.
Qed.

(** A sorted index included in another is not longer, and is the other one
    when it is as long. *)
Lemma sorted_incl_length (l1 l2 : list Z) :
  StronglySorted Z.lt l1 -> StronglySorted Z.lt l2 -> incl l1 l2 ->
  (length l1 <= length l2)%nat /\ (length l1 = length l2 -> l1 = l2).
Proof.
  intros H1 H2 Hincl.
  pose proof (sorted_NoDup l1 H1) as N1.
  pose proof (sorted_NoDup l2 H2) as N2.
  split; [now apply NoDup_incl_length|].
  intros Hlen. apply sorted_same_elements; auto.
  intros x. split; [apply Hincl|].
  apply (NoDup_length_incl N1); [lia | exact Hincl].
Qed.

Lemma pair_keys_sorted (l : list (Z * Z)) : StronglySorted Z.lt (pair_keys l).
Proof.
  induction l as [|p t IH]; simpl; [constructor|].
  now apply insert_key_sorted.
Qed.

Lemma In_pair_keys (l : list (Z * Z)) (d : Z) :
  In d (pair_keys l) <-> exists u, In (d, u) l.
Proof.
  induction l as [|[k v] t IH]; simpl.
  - split; [tauto | intros (u & [])].
  - rewrite In_insert_key, IH. split.
    + intros [->|(u & Hu)]; [exists v | exists u]; auto.
    + intros (u & [E|Hu]); [left; congruence | right; exists u; auto].
Qed.

Lemma index_groupby_nunique (df : list event) :
  index (groupby_nunique df) = group_keys df.
Proof.
  unfold index, groupby_nunique. rewrite map_map. simpl. apply map_id.
Qed.

Lemma index_groupby_pair_nunique (l : list (Z * Z)) :
  index (groupby_pair_nunique l) = pair_keys l.
Proof.
  unfold index, groupby_pair_nunique. rewrite map_map. simpl. apply map_id.
Qed.

Lemma index_revenue (df : list event) :
  index (revenue df) = group_keys (purch df).
Proof.
  unfold index, revenue. rewrite map_map. simpl. apply map_id.
Qed.

Lemma In_active (df : list event) (d u : Z) :
  In (d, u) (active df)
  <-> exists e, In e df /\ name_is session_start e = true
                /\ date e = d /\ user_id e = u.
Proof.
  unfold active. rewrite nodup_In, in_map_iff. split.
  - intros (e & E & He). apply filter_In in He. destruct He as [He Hs].
    inversion E; subst. exists e. auto.
  - intros (e & He & Hs & <- & <-). exists e. split; [reflexivity|].
    apply filter_In. auto.
Qed.

Lemma In_merged (df : list event) (d u : Z) :
  In (d, u) (merged df)
  <-> In (d, u) (active df) /\ In ((d - 1)%Z, u) (active df).
Proof.
  unfold merged, yday. rewrite filter_In, existsb_exists. simpl. split.
  - intros (Ha & [k v] & Hy & E). simpl in E.
    apply andb_true_iff in E. destruct E as [E1 E2].
    apply Z.eqb_eq in E1. apply Z.eqb_eq in E2. subst. auto.
  - intros (Ha & Hy). split; [exact Ha|].
    exists ((d - 1)%Z, u). split; [exact Hy|]. simpl.
    now rewrite !Z.eqb_refl.
Qed.

Lemma In_session_days (df : list event) (d : Z) :
  In d (session_days df)
  <-> exists e, In e df /\ name_is session_start e = true /\ date e = d.
Proof.
  unfold session_days. rewrite In_group_keys. split.
  - intros (e & He & Hd). apply filter_In in He. exists e. tauto.
  - intros (e & He & Hs & Hd). exists e. split; [|exact Hd].
    apply filter_In. auto.
Qed.

(** The retention frame has exactly the days with a session. *)
Lemma retention_index_session_days (df : list event) :
  retention_index df = session_days df.
Proof.
  apply sorted_same_elements.
  - apply concat_index_sorted.
  - apply group_keys_sorted.
  - intros d. unfold retention_index, retained, active_yday, yday.
    rewrite In_concat_index, In_session_days. split.
    + intros (idx & [<-|[<-|[]]] & Hd);
        rewrite index_groupby_pair_nunique in Hd;
        apply In_pair_keys in Hd; destruct Hd as (u & Hu).
      * apply In_merged in Hu. destruct Hu as [Hu _].
        apply In_active in Hu. destruct Hu as (e & He & Hs & Hde & _).
        exists e. auto.
      * apply In_active in Hu. destruct Hu as (e & He & Hs & Hde & _).
        exists e. auto.
    + intros (e & He & Hs & Hd).
      exists (index (groupby_pair_nunique (active df))).
      split; [right; left; reflexivity|].
      rewrite index_groupby_pair_nunique. apply In_pair_keys.
      exists (user_id e). apply In_active. exists e. auto.
Qed.

Lemma In_kpis_index (df : list event) (d : Z) :
  In d (kpis_index df)
  <-> In d (session_days df) \/ In d (group_keys (purch df)).
Proof.
  unfold kpis_index, dau, purchasers. rewrite In_concat_index.
  rewrite !index_groupby_nunique, index_revenue. fold (session_days df).
  split.
  - intros (idx & [<-|[<-|[<-|[]]]] & Hd); auto.
  - intros [H|H]; [exists (session_days df) | exists (group_keys (purch df))];
      simpl; auto.
Qed.

Lemma kpis_index_sorted (df : list event) : StronglySorted Z.lt (kpis_index df).
Proof. apply concat_index_sorted. Qed.

Lemma session_days_incl_kpis_index (df : list event) :
  incl (session_days df) (kpis_index df).
Proof. intros d Hd. apply In_kpis_index. now left. Qed.

(** ** When the frame is returned *)

Lemma length_d1_values (df : list event) :
  length (d1_values df) = length (session_days df).
Proof.
  unfold d1_values. now rewrite length_map, retention_index_session_days.
Qed.

Lemma combine_map_self {A B : Type} (f : A -> B) (l : list A) :
  combine l (map f l) = map (fun x => (x, f x)) l.
Proof. induction l as [|x t IH]; simpl; [reflexivity | now rewrite IH]. Qed.

(** The cell of the retention array for day [d]. *)
Lemma d1_values_cells (df : list event) :
  d1_values df
  = map (fun d =>
           let ay := fillna 0%Z (lookup d (active_yday df)) in
           let rt := fillna 0%Z (lookup d (retained df)) in
           if (0 <? ay)%Z then Z_ratio rt ay else 0%Q)
        (session_days df).
Proof. unfold d1_values. now rewrite retention_index_session_days. Qed.

Lemma purchase_day_event (df : list event) (d : Z) :
  In d (group_keys (purch df))
  <-> exists e, In e df /\ isin_purchase e = true /\ date e = d.
Proof.
  rewrite In_group_keys. unfold purch. split.
  - intros (e & He & Hd). apply filter_In in He. exists e. tauto.
  - intros (e & He & Hp & Hd). exists e. split; [|exact Hd].
    apply filter_In. auto.
Qed.

Lemma kpis_index_when_covered (df : list event) :
  incl (group_keys (purch df)) (session_days df) ->
  kpis_index df = session_days df.
Proof.
  intros Hincl. apply sorted_same_elements.
  - apply kpis_index_sorted.
  - apply group_keys_sorted.
  - intros d. rewrite In_kpis_index. split; [|auto].
    intros [H|H]; [exact H | now apply Hincl].
Qed.

Lemma compute_daily_kpis_covered (df : list event) :
  incl (group_keys (purch df)) (session_days df) ->
  compute_daily_kpis df
  = Returned
      (map (fun d =>
              kpi_row_of df d
                (let ay := fillna 0%Z (lookup d (active_yday df)) in
                 let rt := fillna 0%Z (lookup d (retained df)) in
                 if (0 <? ay)%Z then Z_ratio rt ay else 0%Q))
           (session_days df)).
Proof.
  intros Hincl. unfold compute_daily_kpis.
  rewrite length_d1_values, (kpis_index_when_covered df Hincl), Nat.eqb_refl.
  rewrite d1_values_cells, combine_map_self, map_map. reflexivity.
Qed.

Lemma compute_daily_kpis_uncovered (df : list event) (d : Z) :
  In d (group_keys (purch df)) -> ~ In d (session_days df) ->
  compute_daily_kpis df
  = Raised "Length of values does not match length of index".
Proof.
  intros Hp Hs. unfold compute_daily_kpis. rewrite length_d1_values.
  destruct (Nat.eqb_spec (length (session_days df)) (length (kpis_index df)))
    as [E|E]; [|reflexivity].
  exfalso. apply Hs.
  destruct (sorted_incl_length (session_days df) (kpis_index df)
              (group_keys_sorted _) (kpis_index_sorted df)
              (session_days_incl_kpis_index df)) as [_ Heq].
  rewrite (Heq E). apply In_kpis_index. now right.
Qed.

Lemma purchase_days_covered_dec (df : list event) :
  {incl (group_keys (purch df)) (session_days df)}
  + {exists d, In d (group_keys (purch df)) /\ ~ In d (session_days df)}.
Proof.
  destruct (Forall_Exists_dec (fun d => In d (session_days df))
              (fun d => in_dec Z.eq_dec d (session_days df))
              (group_keys (purch df))) as [H|H].
  - left. intros d Hd. rewrite Forall_forall in H. now apply H.
  - right. apply Exists_exists in H. exact H.
Qed.

(** X19.  [compute_daily_kpis] raises exactly on the tables that have a
    purchase-type event on a day without any session event: the retention
    array then has fewer cells than the frame has rows.  On every other
    table, the empty one included, it returns a frame. *)
Theorem kpis_raise_on_purchase_day_without_session (es : list event) :
  (compute_daily_kpis es
   = Raised "Length of values does not match length of index"
   <-> exists e, In e es /\ isin_purchase e = true
                 /\ forall e', In e' es -> name_is session_start e' = true ->
                               date e' <> date e)
  /\ ((exists rows, compute_daily_kpis es = Returned rows)
      <-> forall e, In e es -> isin_purchase e = true ->
                    exists e', In e' es /\ name_is session_start e' = true
                               /\ date e' = date e)
  /\ compute_daily_kpis [] = Returned [].
Proof.
  split; [|split; [|reflexivity]].
  - split.
    + intros Hr.
      destruct (purchase_days_covered_dec es) as [Hc|(d & Hp & Hs)].
      * rewrite (compute_daily_kpis_covered es Hc) in Hr. discriminate.
      * apply purchase_day_event in Hp. destruct Hp as (e & He & Hpe & <-).
        exists e. split; [exact He|]. split; [exact Hpe|].
        intros e' He' Hs' Hd. apply Hs. apply In_session_days.
        exists e'. auto.
    + intros (e & He & Hpe & Hno).
      apply (compute_daily_kpis_uncovered es (date e)).
      * apply purchase_day_event. exists e. auto.
      * intros Hs. apply In_session_days in Hs.
        destruct Hs as (e' & He' & Hs' & Hd). now apply (Hno e').
  - split.
    + intros (rows & Hr) e He Hpe.
      destruct (purchase_days_covered_dec es) as [Hc|(d & Hp & Hs)].
      * assert (Hd : In (date e) (session_days es)).
        { apply Hc, purchase_day_event. exists e. auto. }
        apply In_session_days in Hd. exact Hd.
      * rewrite (compute_daily_kpis_uncovered es d Hp Hs) in Hr.
        discriminate.
    + intros Hall. eexists. apply compute_daily_kpis_covered.
      intros d Hd. apply purchase_day_event in Hd.
      destruct Hd as (e & He & Hpe & <-).
      apply In_session_days. now apply Hall.
Qed.

(** ** The rows of the frame *)

Lemma In_users_on (d u : Z) (l : list event) :
  In u (users_on d l) <-> exists e, In e l /\ date e = d /\ user_id e = u.
Proof.
  unfold users_on. rewrite nodup_In, in_map_iff. split.
  - intros (e & Hu & He). apply filter_In in He. destruct He as [He Hd].
    apply Z.eqb_eq in Hd. exists e. auto.
  - intros (e & He & Hd & Hu). exists e. split; [exact Hu|].
    apply filter_In. split; [exact He | now apply Z.eqb_eq].
Qed.

Lemma In_pair_users_on (d u : Z) (l : list (Z * Z)) :
  In u (pair_users_on d l) <-> In (d, u) l.
Proof.
  unfold pair_users_on. rewrite nodup_In, in_map_iff. split.
  - intros ([k v] & Hu & Hp). apply filter_In in Hp. destruct Hp as [Hp Hd].
    simpl in *. apply Z.eqb_eq in Hd. now subst.
  - intros H. exists (d, u). split; [reflexivity|].
    apply filter_In. split; [exact H | apply Z.eqb_refl].
Qed.

Lemma same_elements_length (l l' : list Z) :
  NoDup l -> NoDup l' -> (forall x, In x l <-> In x l') ->
  length l = length l'.
Proof.
  intros N N' H. apply Nat.le_antisymm; apply NoDup_incl_length; auto;
    intros x Hx; now apply H.
Qed.

Lemma active_users_length (df : list event) (d : Z) :
  length (pair_users_on d (active df))
  = length (users_on d (filter (name_is session_start) df)).
Proof.
  apply same_elements_length; try apply NoDup_nodup.
  intros u. rewrite In_pair_users_on, In_active, In_users_on. split.
  - intros (e & He & Hs & Hd & Hu). exists e. split; [|auto].
    apply filter_In. auto.
  - intros (e & He & Hd & Hu). apply filter_In in He. exists e. tauto.
Qed.

Lemma merged_users_length (df : list event) (d : Z) :
  length (pair_users_on d (merged df)) = length (returning_users df d).
Proof.
  apply same_elements_length.
  - apply NoDup_nodup.
  - apply NoDup_filter, NoDup_nodup.
  - intros u. unfold returning_users.
    rewrite In_pair_users_on, In_merged, filter_In, existsb_exists.
    rewrite !In_active, In_users_on. split.
    + intros ((e & He & Hs & Hd & Hu) & (e' & He' & Hs' & Hd' & Hu')). split.
      * exists e. split; [apply filter_In; auto | auto].
      * exists u. split; [|apply Z.eqb_refl].
        apply In_users_on. exists e'. split; [apply filter_In; auto | auto].
    + intros ((e & He & Hd & Hu) & (u' & Hu' & E)).
      apply Z.eqb_eq in E. subst u'. apply In_users_on in Hu'.
      destruct Hu' as (e' & He' & Hd' & Hue').
      apply filter_In in He. apply filter_In in He'. split.
      * exists e. tauto.
      * exists e'. tauto.
Qed.

Lemma lookup_groupby_nunique (l : list event) (d : Z) :
  fillna 0%Z (lookup d (groupby_nunique l))
  = Z.of_nat (length (users_on d l)).
Proof.
  unfold groupby_nunique.
  rewrite (lookup_keyed (fun k => Z.of_nat (length (users_on k l)))).
  destruct (existsb (Z.eqb d) (group_keys l)) eqn:E; [reflexivity|].
  simpl. destruct (users_on d l) as [|u t] eqn:Eu; [reflexivity|].
  assert (Hu : In u (users_on d l)) by (rewrite Eu; now left).
  apply In_users_on in Hu. destruct Hu as (e & He & Hd & _).
  assert (Hin : In d (group_keys l)) by (apply In_group_keys; eauto).
  apply existsb_eqb_In in Hin. congruence.
Qed.

Lemma lookup_groupby_pair_nunique (l : list (Z * Z)) (d : Z) :
  fillna 0%Z (lookup d (groupby_pair_nunique l))
  = Z.of_nat (length (pair_users_on d l)).
Proof.
  unfold groupby_pair_nunique.
  rewrite (lookup_keyed (fun k => Z.of_nat (length (pair_users_on k l)))).
  destruct (existsb (Z.eqb d) (pair_keys l)) eqn:E; [reflexivity|].
  simpl. destruct (pair_users_on d l) as [|u t] eqn:Eu; [reflexivity|].
  assert (Hu : In u (pair_users_on d l)) by (rewrite Eu; now left).
  apply In_pair_users_on in Hu.
  assert (Hin : In d (pair_keys l)) by (apply In_pair_keys; eauto).
  apply existsb_eqb_In in Hin. congruence.
Qed.

Lemma lookup_revenue (df : list event) (d : Z) :
  fillna 0%Q (lookup d (revenue df))
  = fold_right Qplus 0%Q (amounts_on d (purch df)).
Proof.
  unfold revenue.
  rewrite (lookup_keyed
             (fun k => fillna 0%Q (sum_min_count_1 (amounts_on k (purch df))))).
  destruct (existsb (Z.eqb d) (group_keys (purch df))) eqn:E.
  - simpl. destruct (amounts_on d (purch df)); reflexivity.
  - simpl. unfold amounts_on.
    destruct (filter (on_day d) (purch df)) as [|e t] eqn:Ef; [reflexivity|].
    assert (He : In e (filter (on_day d) (purch df))) by (rewrite Ef; now left).
    apply filter_In in He. destruct He as [He Hd]. apply Z.eqb_eq in Hd.
    assert (Hin : In d (group_keys (purch df)))
      by (apply In_group_keys; eauto).
    apply existsb_eqb_In in Hin. congruence.
Qed.

Lemma session_day_has_user (df : list event) (d : Z) :
  In d (session_days df) ->
  (1 <= Z.of_nat (length (users_on d (filter (name_is session_start) df))))%Z.
Proof.
  intros H. apply In_session_days in H. destruct H as (e & He & Hs & Hd).
  assert (Hu : In (user_id e)
                  (users_on d (filter (name_is session_start) df))).
  { apply In_users_on. exists e. split; [apply filter_In; auto | auto]. }
  destruct (users_on d _); [destruct Hu | simpl length; lia].
Qed.

Lemma compute_daily_kpis_returned (es : list event) (rows : list kpi_row) :
  compute_daily_kpis es = Returned rows ->
  rows = map (fun d =>
                kpi_row_of es d
                  (let ay := fillna 0%Z (lookup d (active_yday es)) in
                   let rt := fillna 0%Z (lookup d (retained es)) in
                   if (0 <? ay)%Z then Z_ratio rt ay else 0%Q))
             (session_days es).
Proof.
  intros H.
  destruct (purchase_days_covered_dec es) as [Hc|(d & Hp & Hs)].
  - rewrite (compute_daily_kpis_covered es Hc) in H. now injection H as <-.
  - rewrite (compute_daily_kpis_uncovered es d Hp Hs) in H. discriminate.
Qed.

Lemma Z_ratio_range (a b : Z) :
  (0 <= a <= b)%Z -> (0 < b)%Z -> (0 <= Z_ratio a b <= 1)%Q.
Proof.
  intros [Ha Hab] Hb. unfold Z_ratio.
  assert (Hb' : (0 < inject_Z b)%Q).
  { change (inject_Z 0 < inject_Z b)%Q. rewrite <- Zlt_Qlt. exact Hb. }
  split.
  - apply Qle_shift_div_l; [exact Hb'|]. rewrite Qmult_0_l.
    change (inject_Z 0 <= inject_Z a)%Q. rewrite <- Zle_Qle. exact Ha.
  - apply Qle_shift_div_r; [exact Hb'|]. rewrite Qmult_1_l.
    rewrite <- Zle_Qle. exact Hab.
Qed.

(** X20.  A returned frame has one row for each day with a session event and no
    other row, in increasing order of date.  On each row [dau] is the
    number of distinct users with a session and is at least 1,
    [purchasers] is the number of distinct users with a purchase-type
    event, [revenue] is the sum of the amounts of the purchase-type events,
    and the conversion rate and the revenue per user are [purchasers] and
    [revenue] divided by [dau]: the guard against a zero [dau] never
    applies. *)
Theorem kpi_rows_of_session_days (es : list event) (rows : list kpi_row)
    (Hret : compute_daily_kpis es = Returned rows) :
  map k_event_date rows = session_days es
  /\ StronglySorted Z.lt (map k_event_date rows)
  /\ forall k, In k rows ->
       k_dau k
       = Z.of_nat (length (users_on (k_event_date k)
                                    (filter (name_is session_start) es)))
       /\ (1 <= k_dau k)%Z
       /\ k_purchasers k
          = Z.of_nat (length (users_on (k_event_date k) (purch es)))
       /\ k_revenue k
          = fold_right Qplus 0%Q (amounts_on (k_event_date k) (purch es))
       /\ k_conversion_rate k = Z_ratio (k_purchasers k) (k_dau k)
       /\ k_revenue_per_dau k = (k_revenue k / inject_Z (k_dau k))%Q.
Proof.
  rewrite (compute_daily_kpis_returned es rows Hret).
  assert (Hdates : forall (f : Z -> Q) l,
             map k_event_date (map (fun d => kpi_row_of es d (f d)) l) = l).
  { intros f l. rewrite map_map. simpl. apply map_id. }
  rewrite Hdates. split; [reflexivity|]. split; [apply group_keys_sorted|].
  intros k Hk. apply in_map_iff in Hk. destruct Hk as (d & <- & Hd).
  unfold kpi_row_of; simpl. unfold dau, purchasers.
  rewrite !lookup_groupby_nunique, lookup_revenue.
  pose proof (session_day_has_user es d Hd) as H1.
  assert (Hpos : (0 <? Z.of_nat (length (users_on d
                     (filter (name_is session_start) es))))%Z = true)
    by (apply Z.ltb_lt; lia).
  rewrite Hpos. repeat split; auto.
Qed.

Lemma kpi_rows_of_session_days_witness :
  compute_daily_kpis two_active_days
  = Returned (match compute_daily_kpis two_active_days with
              | Returned rows => rows
              | Raised _ => []
              end)
  /\ map k_event_date (match compute_daily_kpis two_active_days with
                       | Returned rows => rows
                       | Raised _ => []
                       end)
     = session_days two_active_days.
Proof.
  assert (H : compute_daily_kpis two_active_days
              = Returned (match compute_daily_kpis two_active_days with
                          | Returned rows => rows
                          | Raised _ => []
                          end)) by (vm_compute; reflexivity).
  split; [exact H|].
  exact (proj1 (kpi_rows_of_session_days two_active_days _ H)).
Defined.

(** ** The retention proxy *)

(** X21.  On every row of a returned frame the retention proxy is the share of
    the users active on that day who were also active the day before: the
    number of returning users divided by the [dau] of the same day.  It
    lies between 0 and 1. *)
Theorem d1_retention_is_share_of_the_day (es : list event)
    (rows : list kpi_row) (k : kpi_row)
    (Hret : compute_daily_kpis es = Returned rows) (Hin : In k rows) :
  k_d1_retention_proxy k
  = Z_ratio (Z.of_nat (length (returning_users es (k_event_date k))))
            (k_dau k)
  /\ (0 <= k_d1_retention_proxy k <= 1)%Q.
Proof.
  rewrite (compute_daily_kpis_returned es rows Hret) in Hin.
  apply in_map_iff in Hin. destruct Hin as (d & <- & Hd).
  unfold kpi_row_of; simpl. unfold dau, active_yday, retained, yday.
  rewrite lookup_groupby_nunique, !lookup_groupby_pair_nunique.
  rewrite active_users_length, merged_users_length.
  pose proof (session_day_has_user es d Hd) as H1.
  assert (Hpos : (0 <? Z.of_nat (length (users_on d
                     (filter (name_is session_start) es))))%Z = true)
    by (apply Z.ltb_lt; lia).
  rewrite Hpos. split; [reflexivity|].
  apply Z_ratio_range; [|lia]. split; [lia|].
  apply inj_le. unfold returning_users. apply List.filter_length_le.
Qed.

Lemma d1_retention_is_share_of_the_day_witness :
  compute_daily_kpis two_active_days
  = Returned (match compute_daily_kpis two_active_days with
              | Returned rows => rows
              | Raised _ => []
              end)
  /\ In (kpi_row_of two_active_days 1 (1 # 2))
        (match compute_daily_kpis two_active_days with
         | Returned rows => rows
         | Raised _ => []
         end)
  /\ (0 <= k_d1_retention_proxy (kpi_row_of two_active_days 1 (1 # 2)) <= 1)%Q.
Proof.
  assert (H : compute_daily_kpis two_active_days
              = Returned (match compute_daily_kpis two_active_days with
                          | Returned rows => rows
                          | Raised _ => []
                          end)) by (vm_compute; reflexivity).
  assert (Hin : In (kpi_row_of two_active_days 1 (1 # 2))
                   (match compute_daily_kpis two_active_days with
                    | Returned rows => rows
                    | Raised _ => []
                    end)) by (vm_compute; right; left; reflexivity).
  split; [exact H|]. split; [exact Hin|].
  exact (proj2 (d1_retention_is_share_of_the_day two_active_days _ _ H Hin)).
Defined.

(** ** Renamed purchases *)

Section KpiRenaming.
Variable ren : event -> event.
Hypothesis ren_date : forall e, date (ren e) = date e.
Hypothesis ren_isin : forall e, isin_purchase (ren e) = isin_purchase e.
Hypothesis ren_session :
  forall e, name_is session_start (ren e) = name_is session_start e.
Hypothesis ren_user : forall e, user_id (ren e) = user_id e.
Hypothesis ren_amount : forall e, amount (ren e) = amount e.

Lemma filter_map_ren (p : event -> bool) (l : list event) :
  (forall e, p (ren e) = p e) ->
  filter p (map ren l) = map ren (filter p l).
Proof.
  intros H. induction l as [|e t IH]; simpl; [reflexivity|].
  rewrite H. destruct (p e); simpl; now rewrite IH.
Qed.

Lemma on_day_ren (d : Z) (e : event) : on_day d (ren e) = on_day d e.
Proof. unfold on_day. now rewrite ren_date. Qed.

Lemma users_on_map_ren (d : Z) (l : list event) :
  users_on d (map ren l) = users_on d l.
Proof.
  unfold users_on. rewrite (filter_map_ren _ _ (on_day_ren d)), map_map.
  f_equal. apply map_ext. exact ren_user.
Qed.

Lemma amounts_on_map_ren (d : Z) (l : list event) :
  amounts_on d (map ren l) = amounts_on d l.
Proof.
  unfold amounts_on. rewrite (filter_map_ren _ _ (on_day_ren d)).
  induction (filter (on_day d) l) as [|e t IH]; simpl; [reflexivity|].
  now rewrite ren_amount, IH.
Qed.

Lemma groupby_nunique_map_ren (l : list event) :
  groupby_nunique (map ren l) = groupby_nunique l.
Proof.
  unfold groupby_nunique. rewrite (group_keys_map_ren ren ren_date).
  apply map_ext. intros d. now rewrite users_on_map_ren.
Qed.

Lemma active_map_ren (df : list event) : active (map ren df) = active df.
Proof.
  unfold active. rewrite (filter_map_ren _ _ ren_session), map_map.
  f_equal. apply map_ext. intros e. now rewrite ren_date, ren_user.
Qed.

Lemma compute_daily_kpis_map_ren (df : list event) :
  compute_daily_kpis (map ren df) = compute_daily_kpis df.
Proof.
  assert (Hdau : dau (map ren df) = dau df).
  { unfold dau. now rewrite (filter_map_ren _ _ ren_session),
      groupby_nunique_map_ren. }
  assert (Hpurch : purch (map ren df) = map ren (purch df))
    by apply (filter_map_ren _ _ ren_isin).
  assert (Hp : purchasers (map ren df) = purchasers df).
  { unfold purchasers. now rewrite Hpurch, groupby_nunique_map_ren. }
  assert (Hr : revenue (map ren df) = revenue df).
  { unfold revenue. rewrite Hpurch, (group_keys_map_ren ren ren_date).
    apply map_ext. intros d. now rewrite amounts_on_map_ren. }
  assert (Hk : kpis_index (map ren df) = kpis_index df).
  { unfold kpis_index. now rewrite Hdau, Hp, Hr. }
  assert (Hd1 : d1_values (map ren df) = d1_values df).
  { unfold d1_values, retention_index, retained, active_yday, merged, yday.
    now rewrite active_map_ren. }
  unfold compute_daily_kpis. rewrite Hk, Hd1.
  destruct (length (d1_values df) =? length (kpis_index df))%nat;
    [|reflexivity].
  f_equal. apply map_ext. intros p. unfold kpi_row_of.
  now rewrite Hdau, Hp, Hr.
Qed.
End KpiRenaming.

Lemma rename_purchase_from_date (t : Z) (e : event) :
  date (rename_purchase_from t e) = date e.
Proof.
  unfold rename_purchase_from.
  destruct ((t <=? event_ts e)%Z && name_is purchase e); reflexivity.
Qed.

Lemma rename_purchase_from_isin (t : Z) (e : event) :
  isin_purchase (rename_purchase_from t e) = isin_purchase e.
Proof.
  unfold rename_purchase_from.
  destruct ((t <=? event_ts e)%Z && name_is purchase e) eqn:E; [|reflexivity].
  apply andb_true_iff in E. destruct E as [_ E].
  unfold isin_purchase. rewrite E. reflexivity.
Qed.

Lemma rename_purchase_from_session (t : Z) (e : event) :
  name_is session_start (rename_purchase_from t e)
  = name_is session_start e.
Proof.
  unfold rename_purchase_from.
  destruct ((t <=? event_ts e)%Z && name_is purchase e) eqn:E; [|reflexivity].
  apply andb_true_iff in E. destruct E as [_ E].
  unfold name_is in *. destruct (event_name e); simpl in *; congruence.
Qed.

Lemma rename_purchase_from_user (t : Z) (e : event) :
  user_id (rename_purchase_from t e) = user_id e.
Proof.
  unfold rename_purchase_from.
  destruct ((t <=? event_ts e)%Z && name_is purchase e); reflexivity.
Qed.

Lemma rename_purchase_from_amount (t : Z) (e : event) :
  amount (rename_purchase_from t e) = amount e.
Proof.
  unfold rename_purchase_from.
  destruct ((t <=? event_ts e)%Z && name_is purchase e); reflexivity.
Qed.

(** X22.  The KPI frame does not see the renaming of purchase events: renaming
    the [purchase] events of a day, or those from an instant on as the
    injected schema drift does, to [in_app_purchase] leaves the result of
    [compute_daily_kpis] as it was. *)
Theorem kpis_unchanged_by_renaming (es : list event) (d : Z) :
  compute_daily_kpis (map (rename_purchase_on d) es) = compute_daily_kpis es
  /\ compute_daily_kpis (schema_drift_step d es) = compute_daily_kpis es.
Proof.
  split.
  - apply compute_daily_kpis_map_ren.
    + apply rename_purchase_on_date.
    + apply rename_purchase_on_isin.
    + intros e. unfold rename_purchase_on.
      destruct (on_day d e && name_is purchase e) eqn:E; [|reflexivity].
      apply andb_true_iff in E. destruct E as [_ E].
      unfold name_is in *. destruct (event_name e); simpl in *; congruence.
    + intros e. unfold rename_purchase_on.
      destruct (on_day d e && name_is purchase e); reflexivity.
    + intros e. unfold rename_purchase_on.
      destruct (on_day d e && name_is purchase e); reflexivity.
  - apply compute_daily_kpis_map_ren.
    + apply rename_purchase_from_date.
    + apply rename_purchase_from_isin.
    + apply rename_purchase_from_session.
    + apply rename_purchase_from_user.
    + apply rename_purchase_from_amount.
Qed.

(** ** Joining the KPIs with the daily quality *)

Lemma nodup_length_le {A : Type} (dec : forall x y : A, {x = y} + {x <> y})
    (l : list A) :
  (length (nodup dec l) <= length l)%nat.
Proof.
  induction l as [|x t IH]; simpl; [lia|].
  destruct (in_dec dec x t); simpl; lia.
Qed.

Lemma users_on_le_day_count (d : Z) (l : list event) :
  (Z.of_nat (length (users_on d l)) <= day_count d l)%Z.
Proof.
  unfold users_on, day_count. apply inj_le.
  etransitivity; [apply nodup_length_le|]. now rewrite length_map.
Qed.

(** X23.  When both frames are computed from one table, every day of the KPI
    frame has exactly one row in the quality frame, so the left merge on
    the date that the plots and the report make never leaves a trust score
    or a reason empty; on that row the session and purchase counts bound
    [dau] and [purchasers] from above. *)
Theorem kpi_days_have_quality_rows (es : list event)
    (krows : list kpi_row) (qrows : list row) (k : kpi_row)
    (Hk : compute_daily_kpis es = Returned krows)
    (Hq : quality_checks es = Returned qrows) (Hin : In k krows) :
  exists r,
    In r qrows /\ q_date r = k_event_date k
    /\ (forall r', In r' qrows -> q_date r' = k_event_date k -> r' = r)
    /\ (k_dau k <= q_session_events r)%Z
    /\ (k_purchasers k <= q_purchase_events r)%Z.
Proof.
  rewrite (compute_daily_kpis_returned es krows Hk) in Hin.
  apply in_map_iff in Hin. destruct Hin as (d & <- & Hd).
  assert (Hs := Hd). apply In_session_days in Hs.
  destruct Hs as (e & He & _ & Hde).
  exists (build_row es d). split; [|split; [reflexivity|split]].
  - rewrite <- Hde. now apply row_of_event_day.
  - intros r' Hr' Hdr'. rewrite (quality_checks_row es qrows r' Hq Hr').
    simpl in Hdr'. now rewrite Hdr'.
  - rewrite q_session_events_count, q_purchase_events_count.
    unfold kpi_row_of; simpl. unfold dau, purchasers.
    rewrite !lookup_groupby_nunique.
    split; apply users_on_le_day_count.
Qed.

Lemma kpi_days_have_quality_rows_witness :
  compute_daily_kpis two_active_days
  = Returned (match compute_daily_kpis two_active_days with
              | Returned rows => rows
              | Raised _ => []
              end)
  /\ quality_checks two_active_days
     = Returned (map (build_row two_active_days) (date_range 0 1))
  /\ In (kpi_row_of two_active_days 1 (1 # 2))
        (match compute_daily_kpis two_active_days with
         | Returned rows => rows
         | Raised _ => []
         end)
  /\ exists r,
       In r (map (build_row two_active_days) (date_range 0 1))
       /\ q_date r = 1%Z.
Proof.
  assert (H : compute_daily_kpis two_active_days
              = Returned (match compute_daily_kpis two_active_days with
                          | Returned rows => rows
                          | Raised _ => []
                          end)) by (vm_compute; reflexivity).
  assert (Hin : In (kpi_row_of two_active_days 1 (1 # 2))
                   (match compute_daily_kpis two_active_days with
                    | Returned rows => rows
                    | Raised _ => []
                    end)) by (vm_compute; right; left; reflexivity).
  split; [exact H|]. split; [reflexivity|]. split; [exact Hin|].
  destruct (kpi_days_have_quality_rows two_active_days _ _ _ H eq_refl Hin)
    as (r & Hr & Hd & _).
  exists r. split; [exact Hr | exact Hd].
Defined.


(** * Properties of [_softmax] *)

Lemma sum_R_scale (k : R) (l : list R) :
  sum_R (map (fun v => v / k) l) = sum_R l / k.
Proof.
  induction l as [|a t IH]; simpl; [unfold Rdiv; ring|].
  rewrite IH. unfold Rdiv. ring.
Qed.


Lemma fold_Rmax_In (a : R) (t : list R) :
  In (fold_right Rmax a t) (a :: t).
Proof.
  induction t as [|b t IH]; simpl; [now left|].
  destruct (Rle_dec b (fold_right Rmax a t)).
  - rewrite Rmax_right by assumption.
    destruct IH as [E|H]; [left; exact E | right; right; exact H].
  - rewrite Rmax_left by lra. right. now left.
Qed.

Lemma sum_R_nonneg (l : list R) :
  Forall (fun a => 0 <= a) l -> 0 <= sum_R l.
Proof. induction 1 as [|a t Ha Ht IH]; simpl; lra. Qed.

Lemma sum_R_bounds_element (l : list R) (v : R) :
  Forall (fun a => 0 <= a) l -> In v l -> v <= sum_R l.
Proof.
  induction 1 as [|a t Ha Ht IH]; simpl; [tauto|].
  pose proof (sum_R_nonneg t Ht) as Hs.
  intros [->|Hin]; [lra|]. specialize (IH Hin). lra.
Qed.

Lemma np_exp_entries_nonneg (m : R) (x : list R) :
  Forall (fun a => 0 <= a) (map (fun v => np_exp (v - m)) x).
Proof.
  apply Forall_forall. intros e He. apply in_map_iff in He.
  destruct He as (v & <- & _). apply np_exp_nonneg.
Qed.

(** The entry of the maximum is [np.exp(0) = 1], so the sum of the
    exponentials is at least 1. *)
Lemma sum_R_np_exp_ge_1 (a : R) (t : list R) :
  1 <= sum_R (map (fun v => np_exp (v - fold_right Rmax a t)) (a :: t)).
Proof.
  apply sum_R_bounds_element; [apply np_exp_entries_nonneg|].
  apply in_map_iff. exists (fold_right Rmax a t).
  split; [|apply fold_Rmax_In].
  replace (fold_right Rmax a t - fold_right Rmax a t) with 0 by lra.
  apply np_exp_0.
Qed.

Lemma softmax_returned (x : list R) (a : R) (t : list R) :
  x = a :: t ->
  _softmax x
  = Returned
      (map (fun v => np_exp (v - fold_right Rmax a t)
                     / sum_R (map (fun w => np_exp (w - fold_right Rmax a t))
                                  x))
           x).
Proof.
  intros ->. unfold _softmax, np_max. rewrite map_map. reflexivity.
Qed.

(** X24.  On a non-empty array [_softmax] returns an array of the same length
    whose entries lie in [0, 1] and sum to 1, at least one of them being
    positive: a probability vector, as [rng.choice] requires.  (An entry
    can be exactly 0: its exponential underflows when it lies far below the
    maximum.)  On the empty array it raises the error of [np.max]. *)
Theorem softmax_is_a_probability_vector (x : list R) :
  (x = [] -> exists msg, _softmax x = Raised msg)
  /\ (x <> [] ->
      exists p,
        _softmax x = Returned p
        /\ length p = length x
        /\ Forall (fun v => 0 <= v <= 1) p
        /\ Exists (fun v => 0 < v) p
        /\ sum_R p = 1).
Proof.
  split; [intros ->; eexists; reflexivity|]. intros Hne.
  destruct x as [|a t] eqn:Ex; [congruence|]. rewrite <- Ex in *.
  rewrite (softmax_returned x a t Ex).
  set (m := fold_right Rmax a t).
  assert (Hs : 1 <= sum_R (map (fun w => np_exp (w - m)) x)).
  { rewrite Ex. apply sum_R_np_exp_ge_1. }
  set (s := sum_R (map (fun w => np_exp (w - m)) x)) in *.
  eexists. split; [reflexivity|].
  assert (Hnn : Forall (fun v => 0 <= v)
                       (map (fun v => np_exp (v - m) / s) x)).
  { apply Forall_forall. intros v Hv. apply in_map_iff in Hv.
    destruct Hv as (w & <- & _).
    apply Rmult_le_pos; [apply np_exp_nonneg|].
    left. apply Rinv_0_lt_compat. lra. }
  assert (Hsum : sum_R (map (fun v => np_exp (v - m) / s) x) = 1).
  { rewrite <- (map_map (fun v => np_exp (v - m)) (fun e => e / s)).
    rewrite sum_R_scale. fold s. field. lra. }
  split; [apply length_map|]. split; [|split; [|exact Hsum]].
  - apply Forall_forall. intros v Hv. split.
    + rewrite Forall_forall in Hnn. now apply Hnn.
    + rewrite <- Hsum. now apply sum_R_bounds_element.
  - apply Exists_exists. exists (np_exp (m - m) / s). split.
    + apply in_map_iff. exists m. split; [reflexivity|].
      rewrite Ex. apply fold_Rmax_In.
    + replace (m - m) with 0 by lra. rewrite np_exp_0.
      apply Rdiv_lt_0_compat; lra.
Qed.

Lemma softmax_is_a_probability_vector_witness :
  [0; 1] <> []
  /\ exists p, _softmax [0; 1] = Returned p /\ sum_R p = 1.
Proof.
  assert (Hne : [0; 1] <> []) by discriminate.
  split; [exact Hne|].
  destruct (proj2 (softmax_is_a_probability_vector [0; 1]) Hne)
    as (p & Hp & _ & _ & _ & Hs).
  exists p. split; [exact Hp | exact Hs].
Defined.

Lemma fold_Rmax_shift (c a : R) (t : list R) :
  fold_right Rmax (a + c) (map (fun v => v + c) t)
  = fold_right Rmax a t + c.
Proof.
  induction t as [|b t IH]; simpl; [reflexivity|].
  rewrite IH. unfold Rmax.
  destruct (Rle_dec (b + c) _); destruct (Rle_dec b _); lra.
Qed.

(** X25.  Adding one constant to every entry does not change the result of
    [_softmax]. *)
Theorem softmax_shift_invariant (x : list R) (c : R) :
  _softmax (map (fun v => v + c) x) = _softmax x.
Proof.
  destruct x as [|a t]; [reflexivity|].
  rewrite (softmax_returned (a :: t) a t eq_refl).
  rewrite (softmax_returned (map (fun v => v + c) (a :: t))
             (a + c) (map (fun v => v + c) t) eq_refl).
  rewrite fold_Rmax_shift, !map_map. f_equal.
  assert (E : forall v, np_exp (v + c - (fold_right Rmax a t + c))
                        = np_exp (v - fold_right Rmax a t))
    by (intros v; f_equal; lra).
  rewrite (map_ext _ _ E). apply map_ext. intros v. now rewrite E.
Qed.




(** * Injected defects and what [quality_checks] makes of them *)

(** ** The schema drift *)

Lemma same_key_rename_purchase_from (t : Z) (e x : event) :
  name_is in_app_purchase e = false -> name_is in_app_purchase x = false ->
  same_key (rename_purchase_from t e) (rename_purchase_from t x)
  = same_key e x.
Proof.
  intros He Hx. unfold same_key.
  rewrite !rename_purchase_from_user, !rename_purchase_from_amount.
  assert (Hts : forall y, event_ts (rename_purchase_from t y) = event_ts y).
  { intros y. unfold rename_purchase_from.
    destruct ((t <=? event_ts y)%Z && name_is purchase y); reflexivity. }
  rewrite !Hts.
  destruct (Z.eqb_spec (event_ts e) (event_ts x)) as [E|E];
    [|now rewrite !andb_false_r].
  f_equal. f_equal. unfold rename_purchase_from. rewrite E.
  destruct e as [ue te ne ae], x as [ux tx nx ax].
  unfold name_is in *. simpl in *.
  destruct (t <=? tx)%Z, ne, nx; simpl in *; congruence.
Qed.

Section DriftStep.
Variable t : Z.
Variable es : list event.
Hypothesis no_iap : forall e, In e es -> name_is in_app_purchase e = false.

Let ren := rename_purchase_from t.

Lemma filter_same_key_drift (e : event) (l : list event) :
  In e es -> incl l es ->
  filter (same_key (ren e)) (map ren l) = map ren (filter (same_key e) l).
Proof.
  intros He. induction l as [|x l IH]; intros Hl; simpl; [reflexivity|].
  unfold ren at 1 2. rewrite same_key_rename_purchase_from.
  - fold ren. destruct (same_key e x); simpl; rewrite IH; auto;
      intros y Hy; apply Hl; now right.
  - now apply no_iap.
  - apply no_iap, Hl. now left.
Qed.

Lemma dup_mask_drift (e : event) :
  In e es -> dup_mask (map ren es) (ren e) = dup_mask es e.
Proof.
  intros He. unfold dup_mask.
  rewrite (filter_same_key_drift e es He (incl_refl es)), length_map.
  reflexivity.
Qed.

Lemma filter_dup_mask_drift (l : list event) :
  incl l es ->
  filter (dup_mask (map ren es)) (map ren l)
  = map ren (filter (dup_mask es) l).
Proof.
  induction l as [|x l IH]; intros Hl; simpl; [reflexivity|].
  rewrite dup_mask_drift by (apply Hl; now left).
  destruct (dup_mask es x); simpl; rewrite IH; auto;
    intros y Hy; apply Hl; now right.
Qed.

Lemma build_row_drift (d : Z) : build_row (map ren es) d = build_row es d.
Proof.
  pose proof (rename_purchase_from_date t) as Hd.
  pose proof (rename_purchase_from_isin t) as Hi.
  assert (Hpe : purchase_events (map ren es) = purchase_events es)
    by apply (purchase_events_map_ren ren Hd Hi).
  assert (Hse : sessions (map ren es) = sessions es).
  { unfold sessions.
    rewrite (filter_map_ren ren _ _ (rename_purchase_from_session t)).
    apply (groupby_size_map_ren ren Hd). }
  assert (Hdc : dup_count (map ren es) = dup_count es).
  { unfold dup_count. rewrite (filter_dup_mask_drift es (incl_refl es)).
    apply (groupby_size_map_ren ren Hd). }
  assert (Hna : neg_amount (map ren es) = neg_amount es).
  { unfold neg_amount. rewrite (purch_map_ren ren Hi).
    rewrite (filter_map_ren ren amount_negative).
    - apply (groupby_size_map_ren ren Hd).
    - intros e. unfold amount_negative.
      now rewrite (rename_purchase_from_amount t). }
  assert (Hfl : lookup d (schema_drift_flag (map ren es))
                = lookup d (schema_drift_flag es)).
  { rewrite !lookup_schema_drift_flag, (purch_map_ren ren Hi).
    now rewrite (day_count_map_ren ren Hd). }
  assert (Hss : lookup d (score_schema (map ren es))
                = lookup d (score_schema es)).
  { unfold score_schema. now rewrite !lookup_map_values, Hfl. }
  unfold build_row. rewrite Hfl, Hss.
  unfold score_completeness, baseline_purchase, score_uniqueness,
    dup_baseline, score_volume, volume_anomaly_flag, z, score_validity.
  rewrite Hpe, Hse, Hdc, Hna. reflexivity.
Qed.
End DriftStep.

(** X13.  On a table without any [in_app_purchase] event, the injected schema
    drift is invisible to [quality_checks]: renaming every [purchase] event
    from an instant on leaves the whole output as it was, day by day, the
    drift flag, the schema score, the trust score and the reason
    included. *)
Theorem schema_drift_is_invisible (es : list event) (drift_start : Z)
    (Hno : forall e, In e es -> event_name e <> in_app_purchase) :
  quality_checks (schema_drift_step drift_start es) = quality_checks es.
Proof.
  assert (Hno' : forall e, In e es -> name_is in_app_purchase e = false).
  { intros e He. specialize (Hno e He). unfold name_is.
    destruct (event_name e); simpl; congruence. }
  unfold quality_checks, schema_drift_step.
  rewrite (min_date_map_ren _ (rename_purchase_from_date drift_start)),
    (max_date_map_ren _ (rename_purchase_from_date drift_start)).
  destruct (min_date es), (max_date es); try reflexivity.
  f_equal. apply map_ext. intros d. now apply build_row_drift.
Qed.

Lemma schema_drift_is_invisible_witness :
  (forall e, In e one_purchase -> event_name e <> in_app_purchase)
  /\ quality_checks (schema_drift_step 0 one_purchase)
     = quality_checks one_purchase
  /\ schema_drift_step 0 one_purchase = one_in_app_purchase.
Proof.
  assert (Hno : forall e, In e one_purchase ->
                          event_name e <> in_app_purchase).
  { intros e [<-|[]]. discriminate. }
  split; [exact Hno|]. split; [|reflexivity].
  exact (schema_drift_is_invisible one_purchase 0 Hno).
Defined.

(** ** Duplicated rows *)

Lemma same_key_refl (e : event) : same_key e e = true.
Proof.
  unfold same_key. rewrite !Z.eqb_refl. simpl.
  assert (Hn : event_name_eqb (event_name e) (event_name e) = true)
    by now apply event_name_eqb_eq.
  rewrite Hn. simpl. destruct (amount e) as [a|]; simpl; [|reflexivity].
  apply Qeq_bool_iff. reflexivity.
Qed.

(** X12.  Appending a copy of a row of the table is detected: the day of the row
    then has at least two duplicate events, and its reason carries the tag
    [duplicates_detected]. *)
Theorem appended_copy_is_detected (es : list event) (e : event)
    (rows : list row)
    (He : In e es) (Hret : quality_checks (es ++ [e]) = Returned rows) :
  exists r,
    In r rows /\ q_date r = date e
    /\ (2 <= q_duplicate_events r)%Z
    /\ In "duplicates_detected"%string (applicable_tags r).
Proof.
  set (df := es ++ [e]) in *.
  assert (Hin : In e df) by (apply in_or_app; now left).
  exists (build_row df (date e)).
  split; [now apply row_of_event_day|]. split; [reflexivity|].
  assert (Hm : dup_mask df e = true).
  { unfold dup_mask, df. apply Nat.leb_le.
    rewrite filter_app, length_app. cbn [filter].
    rewrite same_key_refl. change (length [e]) with 1%nat.
    assert (Hf : In e (filter (same_key e) es))
      by (apply filter_In; split; [exact He | apply same_key_refl]).
    destruct (filter (same_key e) es) as [|y l]; [destruct Hf|].
    change (length (y :: l)) with (S (length l)). lia. }
  assert (Hpos : (0 < day_count (date e) (filter (dup_mask df) df))%Z).
  { apply day_count_pos. exists e. split; [|reflexivity].
    apply filter_In. auto. }
  assert (H2 : (2 <= q_duplicate_events (build_row df (date e)))%Z).
  { rewrite q_duplicate_events_count. now apply dup_day_count_ge_2. }
  split; [exact H2|].
  destruct (applicable_tags_rule (build_row df (date e)))
    as (_ & _ & _ & H4 & _).
  apply H4. apply Z.ltb_lt. lia.
Qed.

Lemma appended_copy_is_detected_witness :
  In (mkEvent 1 (day_ts 0) session_start None) one_session
  /\ quality_checks (one_session ++ [mkEvent 1 (day_ts 0) session_start None])
     = Returned [build_row duplicated_session 0]
  /\ exists r, In r [build_row duplicated_session 0]
               /\ (2 <= q_duplicate_events r)%Z.
Proof.
  assert (He : In (mkEvent 1 (day_ts 0) session_start None) one_session)
    by (left; reflexivity).
  split; [exact He|]. split; [reflexivity|].
  destruct (appended_copy_is_detected one_session
              (mkEvent 1 (day_ts 0) session_start None)
              [build_row duplicated_session 0] He eq_refl)
    as (r & Hr & _ & H2 & _).
  exists r. split; [exact Hr | exact H2].
Defined.
